(** * Human Hunter: the room orchestrator of the group-chat game

    A shallow embedding of the orchestration core of the repository
    (backend/langgraph_state.py, backend/langgraph_game.py, backend/main.py
    and discord_bot/game_manager.py) together with the properties of the
    design document that can be stated over it.

    Conventions of the embedding.
    - A Python [dict] keeps insertion order, and the code iterates over
      [items()]: dictionaries are association lists with unique keys
      ([PyDict]).  The room registry [rooms] is only ever looked up by key
      and is a [gmap]; the set of agents with a turn in flight is a [gset].
    - [random] is a tape of raw generator outputs that every call consumes
      from the front ([PyRandom]).
    - The language model is an oracle: the outcome of its k-th invocation is
      an input of the embedded function.
    - Exceptions are values ([result]).
    - A coroutine is cut at its [await] points into segments; each segment
      runs atomically on the event loop, and other tasks may change the
      registry between two segments. *)

From Stdlib Require Import ZArith List Lia Bool Permutation QArith Qround Ascii DecimalString DecimalNat.
From stdpp Require Import base gmap strings list fin_maps.

Open Scope string_scope.
Open Scope list_scope.
Open Scope nat_scope.

(** ** Exceptions *)

Inductive exn :=
| TypeError
| KeyError
| IndexError
| AttributeError
| ValueError
| JSONDecodeError
| OtherError.

Inductive result (A : Type) :=
| Ok (a : A)
| Raise (e : exn).
Arguments Ok {A} a.
Arguments Raise {A} e.

(** ** Python dictionaries, in insertion order *)

Module PyDict.

Abbreviation dict K V := (list (K * V)).

Section ops.
Context {K V : Type} `{EqDecision K}.

(** [d.get(k)] *)
Fixpoint get (d : dict K V) (k : K) : option V :=
  match d with
  | [] => None
  | (k', v) :: d' => if decide (k' = k) then Some v else get d' k
  end.

(** [k in d] *)
Definition contains (d : dict K V) (k : K) : bool :=
  match get d k with Some _ => true | None => false end.

(** [d[k] = v]: an existing key keeps its position, a new key goes last. *)
Fixpoint set (d : dict K V) (k : K) (v : V) : dict K V :=
  match d with
  | [] => [(k, v)]
  | (k', v') :: d' =>
      if decide (k' = k) then (k', v) :: d' else (k', v') :: set d' k v
  end.

Definition keys (d : dict K V) : list K := map fst d.
Definition values (d : dict K V) : list V := map snd d.

(** [d.update(other)] *)
Definition update (d other : dict K V) : dict K V :=
  fold_left (fun acc kv => set acc (fst kv) (snd kv)) other d.

(** [del d[k]]; the callers test [k in d] first. *)
Definition del (d : dict K V) (k : K) : dict K V :=
  List.filter (fun kv => negb (bool_decide (fst kv = k))) d.
End ops.

End PyDict.

(** ** The random module *)

Module PyRandom.

(** The tape of raw outputs still to come. *)
Definition rng := nat -> N.

Definition advance (g : rng) : rng := fun i => g (S i).

(** [_randbelow(n)] for [n > 0]. *)
Definition randbelow (n : nat) (g : rng) : nat * rng :=
  (N.to_nat (g 0 mod N.of_nat n), advance g).

(** [seq[_randbelow(len(seq))]] for the non-empty sequence [x :: l]. *)
Definition pick {A : Type} (x : A) (l : list A) (g : rng) : A * rng :=
  let '(i, g') := randbelow (length (x :: l)) g in (nth i (x :: l) x, g').

(** [random.choice(seq)]: IndexError on an empty sequence. *)
Definition choice {A : Type} (l : list A) (g : rng) : result A * rng :=
  match l with
  | [] => (Raise IndexError, g)
  | x :: l' => let '(a, g') := pick x l' g in (Ok a, g')
  end.

(** [x[i], x[j] = x[j], x[i]] *)
Definition swap {A : Type} (x : list A) (i j : nat) : list A :=
  match x !! i, x !! j with
  | Some a, Some b => <[j:=a]> (<[i:=b]> x)
  | _, _ => x
  end.

(** [random.shuffle(x)]:
    [for i in reversed(range(1, len(x))): j = randbelow(i + 1); swap]. *)
Fixpoint shuffle_from {A : Type} (i : nat) (x : list A) (g : rng)
  : list A * rng :=
  match i with
  | 0 => (x, g)
  | S i' =>
      let '(j, g') := randbelow (S i) g in
      shuffle_from i' (swap x i j) g'
  end.

Definition shuffle {A : Type} (x : list A) (g : rng) : list A * rng :=
  shuffle_from (length x - 1) x g.

(** [random.random()] is [k / 2^53] for a 53-bit integer [k]; a double
    of that form is the rational it denotes. *)
Definition random_random (g : rng) : Q * rng :=
  (Z.of_N (g 0 mod 2 ^ 53) # 2 ^ 53, advance g).

(** [random.uniform(a, b)] is [a + (b - a) * random()], here without the
    rounding of the double; the value is only ever a duration to sleep. *)
Definition uniform (a b : Q) (g : rng) : Q * rng :=
  let '(u, g') := random_random g in ((a + (b - a) * u)%Q, g').

End PyRandom.

(** ** Strings *)

Module PyStr.

(** [str.isspace] on one ASCII character. *)
Definition isspace (a : ascii) : bool :=
  let n := nat_of_ascii a in
  (Nat.leb 9 n && Nat.leb n 13) || (Nat.leb 28 n && Nat.leb n 32).

(** [str.lower] on one ASCII character. *)
Definition lower_ascii (a : ascii) : ascii :=
  let n := nat_of_ascii a in
  if Nat.leb 65 n && Nat.leb n 90 then ascii_of_nat (n + 32) else a.

(** [s.lower()] *)
Fixpoint lower (s : string) : string :=
  match s with
  | EmptyString => EmptyString
  | String a s' => String (lower_ascii a) (lower s')
  end.

Fixpoint lstrip (s : string) : string :=
  match s with
  | EmptyString => EmptyString
  | String a s' => if isspace a then lstrip s' else s
  end.

(** [s.rstrip()]: a character is dropped when it is white and nothing but
    white space follows it. *)
Fixpoint rstrip (s : string) : string :=
  match s with
  | EmptyString => EmptyString
  | String a s' =>
      match rstrip s' with
      | EmptyString => if isspace a then EmptyString else String a EmptyString
      | rest => String a rest
      end
  end.

(** [s.strip()] *)
Definition strip (s : string) : string := rstrip (lstrip s).

(** [needle in hay] *)
Fixpoint contains (needle hay : string) : bool :=
  String.prefix needle hay ||
  match hay with
  | EmptyString => false
  | String _ hay' => contains needle hay'
  end.

End PyStr.

(** ** backend/config.py *)

Module config.

(** [NUM_AI_PLAYERS], [ROUNDS_TO_WIN]: read from the environment, with these
    defaults. *)
Definition NUM_AI_PLAYERS : nat := 4.
Definition ROUNDS_TO_WIN : nat := 1.

Definition AI_PERSONALITIES : list string :=
  [ "slightly sarcastic"; "very cheerful"; "inquisitive";
    "quiet and observant"; "enthusiastic"; "analytical"; "humorous";
    "philosophical" ].

Definition GAME_TOPICS : list string :=
  [ "What's the best topping for pizza?";
    "If you could have any superpower, what would it be?";
    "What's your favorite movie and why?";
    "Tell a funny story from your childhood.";
    "If you could live in any time period, when would it be?";
    "What's your unpopular opinion?";
    "What's the worst advice you've ever received?";
    "If you could master any skill instantly, what would it be?";
    "Prove that you are not an AI, but a human being. It is an all-out war; if you are voted as an AI, you will be killed." ].

End config.

(** ** backend/langgraph_state.py *)

Module langgraph_state.
Import PyDict PyRandom.

Inductive Phase := DISCUSSION | VOTING | ELIMINATION | GAME_OVER.

(** [Literal["human", "ai"]] *)
Inductive Role := human | ai.

#[global] Instance Phase_eq_dec : EqDecision Phase.
Proof. solve_decision. Defined.
#[global] Instance Role_eq_dec : EqDecision Role.
Proof. solve_decision. Defined.

Record PlayerInfo := mkPlayer {
  id : string;
  role : Role;
  eliminated : bool;
  personality : option string
}.

(** A reading of [time.time()]. *)
Definition Time := Q.

Record ChatMessage := mkChat {
  sender : string;
  message : string;
  timestamp : Time
}.

(** The messages handed to the transport. *)
Inductive Broadcast :=
| BPlayerList (players : list string)
| BTopic (topic : string)
| BPhase (phase : Phase) (text : string)
| BTyping (player : string) (start : bool)
| BMessage (sender message : string)
| BVoted (player : string)
| BVotingResult (suspect : option string) (role : option Role)
    (vote_counts : dict string nat)
| BElimination (eliminated : option string) (role : option Role)
| BNewRound (round : nat) (topic : string)
| BGameOver (winner : option Role)
| BGameReset.

(** [GameState].  The last two fields are the keys [selected_suspect] and
    [suspect_role] that backend/main.py adds to the dictionary; they are
    only read with [get], so an absent key and [None] are the same. *)
Record GameState := mkState {
  room_code : string;
  round : nat;
  phase : Phase;
  num_ai_players : nat;
  players : list PlayerInfo;
  chat_history : list ChatMessage;
  topic : string;
  votes : dict string (option string);
  ai_personalities : dict string (option string);
  pseudonym_map : dict string string;
  human_external_name : string;
  last_message_time : Time;
  round_start_time : Time;
  winner : option Role;
  eliminated_player : option string;
  pending_ai_messages : list string;
  pending_ai_votes : list string;
  broadcast_queue : list Broadcast;
  selected_suspect : option string;
  suspect_role : option Role
}.

(** Assignments to one key of the state dictionary. *)
Definition set_phase (v : Phase) (s : GameState) : GameState :=
  mkState (room_code s) (round s) v (num_ai_players s) (players s)
    (chat_history s) (topic s) (votes s) (ai_personalities s)
    (pseudonym_map s) (human_external_name s) (last_message_time s)
    (round_start_time s) (winner s) (eliminated_player s)
    (pending_ai_messages s) (pending_ai_votes s) (broadcast_queue s)
    (selected_suspect s) (suspect_role s).

Definition set_round (v : nat) (s : GameState) : GameState :=
  mkState (room_code s) v (phase s) (num_ai_players s) (players s)
    (chat_history s) (topic s) (votes s) (ai_personalities s)
    (pseudonym_map s) (human_external_name s) (last_message_time s)
    (round_start_time s) (winner s) (eliminated_player s)
    (pending_ai_messages s) (pending_ai_votes s) (broadcast_queue s)
    (selected_suspect s) (suspect_role s).

Definition set_players (v : list PlayerInfo) (s : GameState) : GameState :=
  mkState (room_code s) (round s) (phase s) (num_ai_players s) v
    (chat_history s) (topic s) (votes s) (ai_personalities s)
    (pseudonym_map s) (human_external_name s) (last_message_time s)
    (round_start_time s) (winner s) (eliminated_player s)
    (pending_ai_messages s) (pending_ai_votes s) (broadcast_queue s)
    (selected_suspect s) (suspect_role s).

Definition set_chat_history (v : list ChatMessage) (s : GameState)
  : GameState :=
  mkState (room_code s) (round s) (phase s) (num_ai_players s) (players s)
    v (topic s) (votes s) (ai_personalities s)
    (pseudonym_map s) (human_external_name s) (last_message_time s)
    (round_start_time s) (winner s) (eliminated_player s)
    (pending_ai_messages s) (pending_ai_votes s) (broadcast_queue s)
    (selected_suspect s) (suspect_role s).

Definition set_topic (v : string) (s : GameState) : GameState :=
  mkState (room_code s) (round s) (phase s) (num_ai_players s) (players s)
    (chat_history s) v (votes s) (ai_personalities s)
    (pseudonym_map s) (human_external_name s) (last_message_time s)
    (round_start_time s) (winner s) (eliminated_player s)
    (pending_ai_messages s) (pending_ai_votes s) (broadcast_queue s)
    (selected_suspect s) (suspect_role s).

Definition set_votes (v : dict string (option string)) (s : GameState)
  : GameState :=
  mkState (room_code s) (round s) (phase s) (num_ai_players s) (players s)
    (chat_history s) (topic s) v (ai_personalities s)
    (pseudonym_map s) (human_external_name s) (last_message_time s)
    (round_start_time s) (winner s) (eliminated_player s)
    (pending_ai_messages s) (pending_ai_votes s) (broadcast_queue s)
    (selected_suspect s) (suspect_role s).

Definition set_last_message_time (v : Time) (s : GameState) : GameState :=
  mkState (room_code s) (round s) (phase s) (num_ai_players s) (players s)
    (chat_history s) (topic s) (votes s) (ai_personalities s)
    (pseudonym_map s) (human_external_name s) v
    (round_start_time s) (winner s) (eliminated_player s)
    (pending_ai_messages s) (pending_ai_votes s) (broadcast_queue s)
    (selected_suspect s) (suspect_role s).

Definition set_round_start_time (v : Time) (s : GameState) : GameState :=
  mkState (room_code s) (round s) (phase s) (num_ai_players s) (players s)
    (chat_history s) (topic s) (votes s) (ai_personalities s)
    (pseudonym_map s) (human_external_name s) (last_message_time s)
    v (winner s) (eliminated_player s)
    (pending_ai_messages s) (pending_ai_votes s) (broadcast_queue s)
    (selected_suspect s) (suspect_role s).

Definition set_winner (v : option Role) (s : GameState) : GameState :=
  mkState (room_code s) (round s) (phase s) (num_ai_players s) (players s)
    (chat_history s) (topic s) (votes s) (ai_personalities s)
    (pseudonym_map s) (human_external_name s) (last_message_time s)
    (round_start_time s) v (eliminated_player s)
    (pending_ai_messages s) (pending_ai_votes s) (broadcast_queue s)
    (selected_suspect s) (suspect_role s).

Definition set_eliminated_player (v : option string) (s : GameState)
  : GameState :=
  mkState (room_code s) (round s) (phase s) (num_ai_players s) (players s)
    (chat_history s) (topic s) (votes s) (ai_personalities s)
    (pseudonym_map s) (human_external_name s) (last_message_time s)
    (round_start_time s) (winner s) v
    (pending_ai_messages s) (pending_ai_votes s) (broadcast_queue s)
    (selected_suspect s) (suspect_role s).

Definition set_pending_ai_messages (v : list string) (s : GameState)
  : GameState :=
  mkState (room_code s) (round s) (phase s) (num_ai_players s) (players s)
    (chat_history s) (topic s) (votes s) (ai_personalities s)
    (pseudonym_map s) (human_external_name s) (last_message_time s)
    (round_start_time s) (winner s) (eliminated_player s)
    v (pending_ai_votes s) (broadcast_queue s)
    (selected_suspect s) (suspect_role s).

Definition set_pending_ai_votes (v : list string) (s : GameState)
  : GameState :=
  mkState (room_code s) (round s) (phase s) (num_ai_players s) (players s)
    (chat_history s) (topic s) (votes s) (ai_personalities s)
    (pseudonym_map s) (human_external_name s) (last_message_time s)
    (round_start_time s) (winner s) (eliminated_player s)
    (pending_ai_messages s) v (broadcast_queue s)
    (selected_suspect s) (suspect_role s).

Definition set_broadcast_queue (v : list Broadcast) (s : GameState)
  : GameState :=
  mkState (room_code s) (round s) (phase s) (num_ai_players s) (players s)
    (chat_history s) (topic s) (votes s) (ai_personalities s)
    (pseudonym_map s) (human_external_name s) (last_message_time s)
    (round_start_time s) (winner s) (eliminated_player s)
    (pending_ai_messages s) (pending_ai_votes s) v
    (selected_suspect s) (suspect_role s).

Definition set_selected_suspect (v : option string) (s : GameState)
  : GameState :=
  mkState (room_code s) (round s) (phase s) (num_ai_players s) (players s)
    (chat_history s) (topic s) (votes s) (ai_personalities s)
    (pseudonym_map s) (human_external_name s) (last_message_time s)
    (round_start_time s) (winner s) (eliminated_player s)
    (pending_ai_messages s) (pending_ai_votes s) (broadcast_queue s)
    v (suspect_role s).

Definition set_suspect_role (v : option Role) (s : GameState) : GameState :=
  mkState (room_code s) (round s) (phase s) (num_ai_players s) (players s)
    (chat_history s) (topic s) (votes s) (ai_personalities s)
    (pseudonym_map s) (human_external_name s) (last_message_time s)
    (round_start_time s) (winner s) (eliminated_player s)
    (pending_ai_messages s) (pending_ai_votes s) (broadcast_queue s)
    (selected_suspect s) v.

(** [str(n)] for a natural number. *)
Definition str_of_nat (n : nat) : string :=
  NilEmpty.string_of_uint (Nat.to_uint n).

(** [f"Player {i}"] *)
Definition player_name (i : nat) : string := "Player " +:+ str_of_nat i.

(** The loop over [ai_names] that draws one personality per agent. *)
Fixpoint make_ai_players (names : list string) (g : rng)
  : result (list PlayerInfo) * rng :=
  match names with
  | [] => (Ok [], g)
  | name :: rest =>
      match choice config.AI_PERSONALITIES g with
      | (Raise e, g1) => (Raise e, g1)
      | (Ok pers, g1) =>
          match make_ai_players rest g1 with
          | (Raise e, g2) => (Raise e, g2)
          | (Ok ps, g2) => (Ok (mkPlayer name ai false (Some pers) :: ps), g2)
          end
      end
  end.

(** [{p["id"]: p["personality"] for p in players if p["role"] == "ai"}] *)
Definition personalities_of (ps : list PlayerInfo)
  : dict string (option string) :=
  fold_left
    (fun acc p =>
       match role p with
       | ai => PyDict.set acc (id p) (personality p)
       | human => acc
       end) ps [].

(** [dict(zip(ks, vs))] *)
Definition dict_of_zip {V : Type} (ks : list string) (vs : list V)
  : dict string V :=
  fold_left (fun acc kv => PyDict.set acc (fst kv) (snd kv)) (combine ks vs) [].

(** [create_initial_state(room_code, num_ai_players)]; [t1], [t2] are the
    two clock readings. *)
Definition create_initial_state (room_code : string) (num_ai_players : nat)
    (t1 t2 : Time) (g : rng) : result GameState * rng :=
  let ai_names := map player_name (seq 1 num_ai_players) in
  let '(ai_names, g1) := shuffle ai_names g in
  match make_ai_players ai_names g1 with
  | (Raise e, g2) => (Raise e, g2)
  | (Ok players, g2) =>
      let ai_personalities := personalities_of players in
      let all_player_ids := map id players in
      let pseudos :=
        map (fun i => "P" +:+ str_of_nat (i + 1)) (seq 0 (length all_player_ids)) in
      let '(pseudos, g3) := shuffle pseudos g2 in
      let pseudonym_map := dict_of_zip all_player_ids pseudos in
      match choice config.GAME_TOPICS g3 with
      | (Raise e, g4) => (Raise e, g4)
      | (Ok topic, g4) =>
          (Ok (mkState room_code 1 DISCUSSION num_ai_players players []
                 topic [] ai_personalities pseudonym_map "" t1 t2 None None
                 [] [] [] None None), g4)
      end
  end.

(** A value passed in a call. *)
Inductive pyval :=
| VStr (s : string)
| VInt (n : nat)
| VStrList (l : list string)
| VNone.

(** A call of [create_initial_state] with positional arguments.  The function is
    declared with exactly two parameters, [room_code] and
    [num_ai_players]: any other number of positional arguments is a
    TypeError before the body runs.  The callers in the repository pass a
    string and an integer in the first two positions. *)
Definition call_create_initial_state (args : list pyval) (t1 t2 : Time)
    (g : rng) : result GameState * rng :=
  match args with
  | [VStr room_code; VInt num_ai_players] =>
      create_initial_state room_code num_ai_players t1 t2 g
  | _ => (Raise TypeError, g)
  end.

End langgraph_state.

(** ** backend/langgraph_game.py *)

Module langgraph_game.
Import PyDict PyRandom.
Export langgraph_state.

(** A decoded JSON document. *)
#[local] Set Warnings "-register-all".
Inductive json :=
| JNull
| JBool (b : bool)
| JNum (q : Q)
| JStr (s : string)
| JArr (l : list json)
| JObj (fields : dict string json).

(** Truth value of a decoded document in a condition. *)
Definition truthy (j : json) : bool :=
  match j with
  | JNull => false
  | JBool b => b
  | JNum q => negb (Qeq_bool q 0)
  | JStr s => negb (String.eqb s "")
  | JArr l => match l with [] => false | _ => true end
  | JObj f => match f with [] => false | _ => true end
  end.

(** One invocation of the language model: it raises, or it answers with a
    text; [loads] is what [json.loads] makes of the text, [None] for a
    JSONDecodeError. *)
Inductive llm_reply :=
| LlmRaises (e : exn)
| LlmReplies (content : string) (loads : option json).

(** The replies of the invocations still to come. *)
Definition llm_tape := nat -> llm_reply.

Definition llm_advance (k : nat) (llm : llm_tape) : llm_tape :=
  fun i => llm (k + i).

(** [data.get(key, default)] on a decoded document: only a JSON object is
    a dictionary, every other value has no attribute [get]. *)
Definition json_get (data : json) (key : string) (default : json)
  : result json :=
  match data with
  | JObj fields =>
      Ok (match PyDict.get fields key with Some v => v | None => default end)
  | _ => Raise AttributeError
  end.

(** [x < 0.3] for a double [x]: the literal is the double
    [5404319552844595 / 2^54]. *)
Definition lt_0_3 (x : Q) : bool :=
  negb (Qle_bool (5404319552844595 # 2 ^ 54) x).

(** [_should_agent_respond(state, ai_id)].  The prompt is built from the
    state without touching it; the only statement before the [try] that
    can raise is the lookup of the personality.  Whatever is raised inside
    the [try] is caught by [except (..., Exception)]. *)
Definition _should_agent_respond (state : GameState) (ai_id : string)
    (llm : llm_tape) (g : rng) : result json * rng :=
  match PyDict.get (ai_personalities state) ai_id with
  | None => (Raise KeyError, g)
  | Some _ =>
      let attempt :=
        match llm 0 with
        | LlmRaises e => Raise e
        | LlmReplies _ None => Raise JSONDecodeError
        | LlmReplies _ (Some decision_data) =>
            match json_get decision_data "should_respond" (JBool false) with
            | Raise e => Raise e
            | Ok should_respond =>
                match json_get decision_data "reason"
                        (JStr "No reason provided") with
                | Raise e => Raise e
                | Ok _ => Ok should_respond
                end
            end
        end in
      match attempt with
      | Ok should_respond => (Ok should_respond, g)
      | Raise _ =>
          (* Fallback: respond with 30% probability *)
          let '(x, g') := random_random g in (Ok (JBool (lt_0_3 x)), g')
      end
  end.

(** [_generate_ai_message(state, ai_id)] *)
Definition _generate_ai_message (state : GameState) (ai_id : string)
    (llm : llm_tape) : result string :=
  match PyDict.get (ai_personalities state) ai_id with
  | None => Raise KeyError
  | Some _ =>
      match llm 0 with
      | LlmReplies content _ => Ok content
      | LlmRaises _ => Ok "hmm"
      end
  end.

(** The classes named by [except (json.JSONDecodeError, KeyError,
    ValueError)]. *)
Definition vote_except_catches (e : exn) : bool :=
  match e with
  | JSONDecodeError | KeyError | ValueError => true
  | _ => false
  end.

(** The body of one iteration of [for attempt in range(3)] in
    [_generate_ai_vote]: [Ok (Some t)] is [return t], [Ok None] falls
    through to the next iteration, [Raise e] is an exception that the
    [except] clause does not name. *)
Definition vote_attempt (eligible_targets : list string) (reply : llm_reply)
  : result (option string) :=
  let body :=
    match reply with
    | LlmRaises e => Raise e
    | LlmReplies _ None => Raise JSONDecodeError
    | LlmReplies _ (Some vote_data) =>
        match json_get vote_data "vote" JNull with
        | Raise e => Raise e
        | Ok (JStr voted_visible) =>
            if bool_decide (voted_visible ∈ eligible_targets)
            then Ok (Some voted_visible) else Ok None
        | Ok _ => Ok None
        end
    end in
  match body with
  | Raise e => if vote_except_catches e then Ok None else Raise e
  | r => r
  end.

(** The loop; the second component counts the invocations of the model. *)
Fixpoint vote_attempts (n : nat) (eligible_targets : list string)
    (llm : llm_tape) : result (option string) * nat :=
  match n with
  | 0 => (Ok None, 0)
  | S n' =>
      match vote_attempt eligible_targets (llm 0) with
      | Ok None =>
          let '(r, calls) :=
            vote_attempts n' eligible_targets (llm_advance 1 llm) in
          (r, S calls)
      | r => (r, 1)
      end
  end.

(** [[p["id"] for p in players if not p["eliminated"] and p["id"] != ai_id]] *)
Definition eligible_targets (state : GameState) (ai_id : string)
  : list string :=
  map id
    (List.filter
       (fun p => negb (eliminated p) && negb (String.eqb (id p) ai_id))
       (players state)).

(** [_generate_ai_vote(state, ai_id)]; the number is the count of
    invocations of the model. *)
Definition _generate_ai_vote (state : GameState) (ai_id : string)
    (llm : llm_tape) (g : rng) : result string * nat * rng :=
  let targets := eligible_targets state ai_id in
  match vote_attempts 3 targets llm with
  | (Raise e, calls) => (Raise e, calls, g)
  | (Ok (Some t), calls) => (Ok t, calls, g)
  | (Ok None, calls) =>
      let '(r, g') := choice targets g in (r, calls, g')
  end.

(** [Counter(values)]: keys in order of first occurrence. *)
Definition counter {K : Type} `{EqDecision K} (l : list K) : dict K nat :=
  fold_left
    (fun acc x => PyDict.set acc x (default 0 (PyDict.get acc x) + 1)) l [].

(** What [ai_chat_agent_node] returns when it produced a message. *)
Record ChatNodeResult := mkChatResult {
  res_chat_history : list ChatMessage;
  res_pending_ai_messages : list string;
  res_last_message_time : Time;
  res_ai_message : string;
  res_ai_sender : string;
  res_typing_delay : Q
}.

(** [ai_chat_agent_node(state, ai_id)]; [None] is the empty dictionary.
    [t_msg] and [t_last] are the two clock readings. *)
Definition ai_chat_agent_node (state : GameState) (ai_id : option string)
    (llm : llm_tape) (t_msg t_last : Time) (g : rng)
  : result (option ChatNodeResult) * rng :=
  let chosen :=
    match ai_id with
    | None =>
        match pending_ai_messages state with
        | [] => None
        | a :: rest => Some (a, rest)
        end
    | Some a =>
        Some (a, List.filter (fun aid => negb (String.eqb aid a))
                   (pending_ai_messages state))
    end in
  match chosen with
  | None => (Ok None, g)
  | Some (a, remaining_ais) =>
      match _generate_ai_message state a llm with
      | Raise e => (Raise e, g)
      | Ok msg =>
          let '(delay, g') := uniform 1 2 g in
          (Ok (Some (mkChatResult [mkChat a msg t_msg] remaining_ais t_last
                       msg a delay)), g')
      end
  end.

(** What [ai_vote_agent_node] returns when an agent voted. *)
Record VoteNodeResult := mkVoteResult {
  res_votes : dict string (option string);
  res_pending_ai_votes : list string;
  res_broadcast_queue : list Broadcast
}.

(** [ai_vote_agent_node(state, ai_id)]; the number counts the invocations
    of the model. *)
Definition ai_vote_agent_node (state : GameState) (ai_id : option string)
    (llm : llm_tape) (g : rng)
  : result (option VoteNodeResult) * nat * rng :=
  match pending_ai_votes state with
  | [] => (Ok None, 0, g)
  | first :: rest =>
      let '(a, remaining_voters) :=
        match ai_id with
        | None => (first, rest)
        | Some a =>
            (a, List.filter (fun aid => negb (String.eqb aid a))
                  (pending_ai_votes state))
        end in
      (* time.sleep(random.uniform(0.5, 1.2)) *)
      let '(_, g1) := uniform (1 # 2) (12 # 10) g in
      match _generate_ai_vote state a llm g1 with
      | (Raise e, calls, g2) => (Raise e, calls, g2)
      | (Ok voted_for, calls, g2) =>
          let new_votes := PyDict.set (votes state) a (Some voted_for) in
          (Ok (Some (mkVoteResult new_votes remaining_voters [BVoted a])),
           calls, g2)
      end
  end.

(** What [elimination_node] returns. *)
Record EliminationResult := mkElimResult {
  res_phase : Phase;
  res_players : list PlayerInfo;
  res_eliminated_player : option string;
  res_elim_broadcasts : list Broadcast
}.

(** [p["id"] == eliminated] *)
Definition id_is (p : PlayerInfo) (x : option string) : bool :=
  match x with
  | Some s => String.eqb (id p) s
  | None => false
  end.

Definition mark_eliminated (p : PlayerInfo) : PlayerInfo :=
  mkPlayer (id p) (role p) true (personality p).

(** [elimination_node(state)] of the round-based variant. *)
Definition elimination_node (state : GameState) (g : rng)
  : result EliminationResult * rng :=
  let vote_counts := counter (PyDict.values (votes state)) in
  let '(chosen, g') :=
    match vote_counts with
    | [] =>
        let active_players :=
          map id
            (List.filter
               (fun p => negb (eliminated p) && negb (String.eqb (id p) "You"))
               (players state)) in
        match active_players with
        | [] => (Ok None, g)
        | x :: l => let '(a, g1) := pick x l g in (Ok (Some a), g1)
        end
    | _ =>
        let max_votes := list_max (PyDict.values vote_counts) in
        let candidates :=
          map fst
            (List.filter (fun kv => Nat.eqb (snd kv) max_votes) vote_counts) in
        if Nat.ltb 1 (length candidates) then choice candidates g
        else
          match candidates with
          | c :: _ => (Ok c, g)
          | [] => (Raise IndexError, g)
          end
    end in
  match chosen with
  | Raise e => (Raise e, g')
  | Ok eliminated =>
      let updated_players :=
        map (fun p => if id_is p eliminated then mark_eliminated p else p)
          (players state) in
      let eliminated_role :=
        fold_left
          (fun acc p => if id_is p eliminated then Some (role p) else acc)
          (players state) None in
      (Ok (mkElimResult ELIMINATION updated_players eliminated
             [BElimination eliminated eliminated_role]), g')
  end.

(** [game_over_node(state)] returns the keys [phase] and
    [broadcast_queue]. *)
Definition game_over_node (state : GameState) : Phase * list Broadcast :=
  (GAME_OVER, [BGameOver (winner state)]).

(** [initialize_game_node(state)] returns the key [broadcast_queue]. *)
Definition initialize_game_node (state : GameState) : list Broadcast :=
  [ BPlayerList (map id (players state));
    BTopic (topic state);
    BPhase (phase state) "Discussion started!" ].

(** [create_game_for_room(room_code, num_ai_players=4, ai_player_ids=None)]:
    the body is the call
    [create_initial_state(room_code, num_ai_players, ai_player_ids)]. *)
Definition create_game_for_room (room_code : string) (num_ai_players : nat)
    (ai_player_ids : option (list string)) (t1 t2 : Time) (g : rng)
  : result GameState * rng :=
  call_create_initial_state
    [ VStr room_code; VInt num_ai_players;
      match ai_player_ids with Some l => VStrList l | None => VNone end ]
    t1 t2 g.

(** [process_human_message(state, message, player_id)] *)
Definition process_human_message (state : GameState) (message : string)
    (player_id : string) (t_msg t_last : Time) : GameState :=
  set_pending_ai_messages []
    (set_last_message_time t_last
       (set_chat_history
          (chat_history state ++ [mkChat player_id message t_msg]) state)).

(** [process_human_vote(state, player_id, voted_for)] *)
Definition process_human_vote (state : GameState) (player_id : string)
    (voted_for : option string) : GameState :=
  let new_votes := PyDict.set (votes state) player_id voted_for in
  set_votes new_votes state.

(** *** The other nodes and the conditional edges of the graph *)

(** The decision loop of [discussion_phase_node]; [llm a] is the model as
    it answers agent [a].  There is no [try] around the call: what the
    decision function raises ends the loop. *)
Fixpoint responding_ais (state : GameState) (active_ais : list string)
    (llm : string -> llm_tape) (g : rng) : result (list string) * rng :=
  match active_ais with
  | [] => (Ok [], g)
  | ai_id :: rest =>
      match _should_agent_respond state ai_id (llm ai_id) g with
      | (Raise e, g1) => (Raise e, g1)
      | (Ok should_respond, g1) =>
          match responding_ais state rest llm g1 with
          | (Raise e, g2) => (Raise e, g2)
          | (Ok more, g2) =>
              (Ok (if truthy should_respond then ai_id :: more else more), g2)
          end
      end
  end.

(** [discussion_phase_node(state)] returns the keys [phase] and
    [pending_ai_messages]. *)
Definition discussion_phase_node (state : GameState)
    (llm : string -> llm_tape) (g : rng)
  : result (Phase * list string) * rng :=
  let active_ais :=
    map id
      (List.filter
         (fun p => bool_decide (role p = ai) && negb (eliminated p))
         (players state)) in
  match responding_ais state active_ais llm g with
  | (Raise e, g') => (Raise e, g')
  | (Ok responding, g') => (Ok (DISCUSSION, responding), g')
  end.



(** [check_win_condition_node(state)] returns the key [winner]. *)
Definition check_win_condition_node (state : GameState) : option Role :=
  let human_eliminated :=
    existsb (fun p => bool_decide (role p = human) && eliminated p)
      (players state) in
  if human_eliminated then Some ai
  else
    let eliminated_ais :=
      length
        (List.filter (fun p => bool_decide (role p = ai) && eliminated p)
           (players state)) in
    if Nat.leb config.ROUNDS_TO_WIN eliminated_ais then Some human else None.

(** What [new_round_node] returns. *)
Record NewRoundResult := mkNewRound {
  nr_round : nat;
  nr_topic : string;
  nr_phase : Phase;
  nr_votes : dict string (option string);
  nr_round_start_time : Time;
  nr_broadcast_queue : list Broadcast
}.

(** [new_round_node(state)]; [now] is the clock reading. *)
Definition new_round_node (state : GameState) (now : Time) (g : rng)
  : result NewRoundResult * rng :=
  let new_round := round state + 1 in
  match choice config.GAME_TOPICS g with
  | (Raise e, g') => (Raise e, g')
  | (Ok new_topic, g') =>
      (Ok (mkNewRound new_round new_topic DISCUSSION [] now
             [BNewRound new_round new_topic]), g')
  end.

(** [should_continue_discussion(state)] *)
Definition should_continue_discussion (state : GameState) : string :=
  match pending_ai_messages state with
  | _ :: _ => "continue"
  | [] => "voting"
  end.

(** [should_continue_voting(state)] *)
Definition should_continue_voting (state : GameState) : string :=
  match pending_ai_votes state with
  | _ :: _ => "continue"
  | [] =>
      let active_players :=
        map id (List.filter (fun p => negb (eliminated p)) (players state)) in
      let all_voted :=
        forallb (fun player => PyDict.contains (votes state) player)
          active_players in
      if all_voted then "eliminate" else "continue"
  end.

(** [check_game_status(state)] *)
Definition check_game_status (state : GameState) : string :=
  match winner state with
  | Some _ => "game_over"
  | None => "continue"
  end.

End langgraph_game.

(** ** backend/main.py *)

Module main.
Import PyDict PyRandom.
Export langgraph_game.

Inductive RoomStatus := waiting | in_progress | completed.

#[global] Instance RoomStatus_eq_dec : EqDecision RoomStatus.
Proof. solve_decision. Defined.

(** One entry of [rooms].  The keys that hold transport objects
    ([connections], [tasks]) and display data ([room_name], [created_at])
    are not read by any function below and are left out. *)
Record Room := mkRoom {
  state : GameState;
  ai_processing_agents : gset string;
  room_status : RoomStatus;
  max_humans : nat;
  total_players : nat;
  creator_id : string;
  current_humans : list string;
  available_numbers : list nat;
  initialized : bool;
  last_decision_trigger_time : option Time;
  last_stats_path : option (string * Z)
}.

Abbreviation Rooms := (gmap string Room).

Definition set_state (v : GameState) (r : Room) : Room :=
  mkRoom v (ai_processing_agents r) (room_status r) (max_humans r)
    (total_players r) (creator_id r) (current_humans r)
    (available_numbers r) (initialized r) (last_decision_trigger_time r)
    (last_stats_path r).

Definition set_ai_processing_agents (v : gset string) (r : Room) : Room :=
  mkRoom (state r) v (room_status r) (max_humans r)
    (total_players r) (creator_id r) (current_humans r)
    (available_numbers r) (initialized r) (last_decision_trigger_time r)
    (last_stats_path r).

Definition set_room_status (v : RoomStatus) (r : Room) : Room :=
  mkRoom (state r) (ai_processing_agents r) v (max_humans r)
    (total_players r) (creator_id r) (current_humans r)
    (available_numbers r) (initialized r) (last_decision_trigger_time r)
    (last_stats_path r).

Definition set_creator_id (v : string) (r : Room) : Room :=
  mkRoom (state r) (ai_processing_agents r) (room_status r) (max_humans r)
    (total_players r) v (current_humans r)
    (available_numbers r) (initialized r) (last_decision_trigger_time r)
    (last_stats_path r).

Definition set_current_humans (v : list string) (r : Room) : Room :=
  mkRoom (state r) (ai_processing_agents r) (room_status r) (max_humans r)
    (total_players r) (creator_id r) v
    (available_numbers r) (initialized r) (last_decision_trigger_time r)
    (last_stats_path r).

Definition set_available_numbers (v : list nat) (r : Room) : Room :=
  mkRoom (state r) (ai_processing_agents r) (room_status r) (max_humans r)
    (total_players r) (creator_id r) (current_humans r)
    v (initialized r) (last_decision_trigger_time r)
    (last_stats_path r).

Definition set_initialized (v : bool) (r : Room) : Room :=
  mkRoom (state r) (ai_processing_agents r) (room_status r) (max_humans r)
    (total_players r) (creator_id r) (current_humans r)
    (available_numbers r) v (last_decision_trigger_time r)
    (last_stats_path r).


Definition set_last_stats_path (v : option (string * Z)) (r : Room) : Room :=
  mkRoom (state r) (ai_processing_agents r) (room_status r) (max_humans r)
    (total_players r) (creator_id r) (current_humans r)
    (available_numbers r) (initialized r) (last_decision_trigger_time r)
    v.

(** [int(x)] for a double [x]: truncation towards zero. *)
Definition int_of_float (x : Q) : Z :=
  if Qle_bool 0 x then Qfloor x else Qceiling x.

(** The coroutines that [asyncio.create_task] schedules. *)
Inductive Task :=
| RunDiscussionPhase (room_code : string)
| RunVotingPhase (room_code : string)
| ProcessAiVotes (room_code : string)
| TriggerAgentDecisions (room_code : string) (exclude_agents : list string)
| ProcessAiMessages (room_code : string)
| ProcessSingleAiMessage (room_code ai_id : string).

(** What a function does besides changing [rooms], in order. *)
Inductive Event :=
| EBroadcast (room_code : string) (msg : Broadcast)
    (exclude_player : option string)
| ECreateTask (t : Task)
| ESaveStats (room_code : string) (state : GameState) (ended_at : Time).

(** [[p["id"] for p in state["players"] if not p["eliminated"]]] *)
Definition active_players (st : GameState) : list string :=
  map id (List.filter (fun p => negb (eliminated p)) (players st)).

(** [[p["id"] for p in state["players"] if p["role"] == "ai" and not
    p["eliminated"]]] *)
Definition active_ais (st : GameState) : list string :=
  map id
    (List.filter
       (fun p => bool_decide (role p = ai) && negb (eliminated p))
       (players st)).

(** The tally loop of [complete_voting]: a vote without a target is
    skipped. *)
Definition tally_votes (votes : dict string (option string))
  : dict string nat :=
  fold_left
    (fun vote_counts kv =>
       match snd kv with
       | None => vote_counts
       | Some target =>
           PyDict.set vote_counts target
             (default 0 (PyDict.get vote_counts target) + 1)
       end) votes [].

(** [not suspect] for a suspect that is [None] or a string. *)
Definition not_ (suspect : option string) : bool :=
  match suspect with
  | None => true
  | Some s => String.eqb s ""
  end.

(** The synchronous part of [complete_voting] that picks the suspect: the
    suspect, its role, the counts, and the rest of the tape. *)
Definition select_suspect (st : GameState) (g : rng)
  : option string * option Role * dict string nat * rng :=
  let vote_counts := tally_votes (votes st) in
  let '(suspect, g1) :=
    match vote_counts with
    | [] => (None, g)
    | _ =>
        let max_votes := list_max (PyDict.values vote_counts) in
        let candidates :=
          map fst
            (List.filter (fun kv => Nat.eqb (snd kv) max_votes) vote_counts) in
        match candidates with
        | x :: ((_ :: _) as l) => let '(a, g1) := pick x l g in (Some a, g1)
        | x :: [] => (Some x, g)
        | [] => (None, g)
        end
    end in
  let '(suspect, g2) :=
    if not_ suspect then
      let ai_ids :=
        map id (List.filter (fun p => bool_decide (role p = ai)) (players st)) in
      match ai_ids with
      | x :: l => let '(a, g2) := pick x l g1 in (Some a, g2)
      | [] => (None, g1)
      end
    else (suspect, g1) in
  let suspect_role :=
    match List.find (fun p => id_is p suspect) (players st) with
    | Some p => Some (role p)
    | None => None
    end in
  (suspect, suspect_role, vote_counts, g2).

(** [complete_voting(room_code)].  Everything up to the assignment of the
    phase runs before the first [await]; the broadcasts and the statistics
    follow.  [now] is the clock reading of [save_session_stats]. *)
Definition complete_voting (room_code : string) (now : Time) (g : rng)
    (rooms : Rooms) : Rooms * list Event * rng :=
  match rooms !! room_code with
  | None => (rooms, [], g)
  | Some room =>
      let st := state room in
      if bool_decide (phase st ≠ VOTING) then (rooms, [], g)
      else
        let '(suspect, suspect_role, vote_counts, g') := select_suspect st g in
        let st1 :=
          set_phase GAME_OVER
            (set_winner
               (Some (if bool_decide (suspect_role = Some ai)
                      then human else ai))
               (set_suspect_role suspect_role
                  (set_selected_suspect suspect st))) in
        let '(over_phase, over_queue) := game_over_node st1 in
        let st2 := set_broadcast_queue over_queue (set_phase over_phase st1) in
        let room' :=
          set_last_stats_path (Some (room_code, int_of_float now))
            (set_state st2 room) in
        (<[room_code := room']> rooms,
         EBroadcast room_code (BVotingResult suspect suspect_role vote_counts)
           None
         :: map (fun m => EBroadcast room_code m None) over_queue
         ++ [ESaveStats room_code st2 now],
         g')
  end.

(** The body of a vote request. *)
Record VoteData := mkVoteData {
  vd_player_id : option string;
  vd_voted_for : option string
}.

Inductive VoteResponse :=
| RoomNotFound
| NotInVotingPhase
| AlreadyVoted
| VoteSuccess.

(** [cast_vote(room_code, vote_data)] *)
Definition cast_vote (room_code : string) (vote_data : VoteData)
    (now : Time) (g : rng) (rooms : Rooms)
  : VoteResponse * Rooms * list Event * rng :=
  match rooms !! room_code with
  | None => (RoomNotFound, rooms, [], g)
  | Some room =>
      let player_id := default "StreamlitUser" (vd_player_id vote_data) in
      let voted_for := vd_voted_for vote_data in
      let st := state room in
      if bool_decide (phase st ≠ VOTING) then (NotInVotingPhase, rooms, [], g)
      else if PyDict.contains (votes st) player_id
      then (AlreadyVoted, rooms, [], g)
      else
        let st' := set_votes (PyDict.set (votes st) player_id voted_for) st in
        let rooms1 := <[room_code := set_state st' room]> rooms in
        let voted := EBroadcast room_code (BVoted player_id) None in
        if Nat.leb (length (active_players st')) (length (votes st'))
        then
          let '(rooms2, evs, g') := complete_voting room_code now g rooms1 in
          (VoteSuccess, rooms2, voted :: evs, g')
        else (VoteSuccess, rooms1, [voted], g)
  end.

(** The [vote] message of [websocket_endpoint]. *)
Definition websocket_vote (room_code player_id : string)
    (voted : option string) (now : Time) (g : rng) (rooms : Rooms)
  : Rooms * list Event * rng :=
  match rooms !! room_code with
  | None => (rooms, [], g)
  | Some room =>
      let st := process_human_vote (state room) player_id voted in
      let rooms1 := <[room_code := set_state st room]> rooms in
      let voted_ev := EBroadcast room_code (BVoted player_id) None in
      if Nat.leb (length (active_players st)) (length (votes st))
      then
        let '(rooms2, evs, g') := complete_voting room_code now g rooms1 in
        (rooms2, voted_ev :: evs, g')
      else (rooms1, [voted_ev], g)
  end.

(** One turn of the loop of [process_ai_votes], for the state object [st]
    that the coroutine holds: the vote of the first pending agent is
    generated and merged, then completion is checked.  The boolean tells
    whether the loop goes on. *)
Definition process_ai_votes_turn (room_code : string) (st : GameState)
    (llm : llm_tape) (now : Time) (g : rng) (rooms : Rooms)
  : result (GameState * bool) * Rooms * list Event * nat * rng :=
  match pending_ai_votes st with
  | [] => (Ok (st, false), rooms, [], 0, g)
  | ai_id :: _ =>
      match ai_vote_agent_node st (Some ai_id) llm g with
      | (Raise e, calls, g1) => (Raise e, rooms, [], calls, g1)
      | (Ok res, calls, g1) =>
          let st1 :=
            match res with
            | Some r =>
                set_pending_ai_votes (res_pending_ai_votes r)
                  (set_votes (PyDict.update (votes st) (res_votes r)) st)
            | None => set_pending_ai_votes [] st
            end in
          match rooms !! room_code with
          | None => (Raise KeyError, rooms, [], calls, g1)
          | Some room =>
              let rooms1 := <[room_code := set_state st1 room]> rooms in
              let evs1 :=
                match res with
                | Some r =>
                    map (fun m => EBroadcast room_code m None)
                      (res_broadcast_queue r)
                | None => []
                end in
              if Nat.leb (length (active_players st1)) (length (votes st1))
              then
                let '(rooms2, evs2, g2) :=
                  complete_voting room_code now g1 rooms1 in
                (Ok (st1, false), rooms2, evs1 ++ evs2, calls, g2)
              else (Ok (st1, true), rooms1, evs1, calls, g1)
          end
      end
  end.

(** [run_discussion_phase] after its timer: the move to the voting phase. *)
Definition discussion_timeout (room_code : string) (rooms : Rooms)
  : Rooms * list Event :=
  match rooms !! room_code with
  | None => (rooms, [])
  | Some room =>
      let st := state room in
      if bool_decide (phase st = DISCUSSION) then
        let ai_players :=
          map id
            (List.filter (fun p => bool_decide (role p = ai)) (players st)) in
        let st' :=
          set_votes []
            (set_pending_ai_votes (active_ais st)
               (set_pending_ai_messages [] (set_phase VOTING st))) in
        (<[room_code := set_state st' room]> rooms,
         map (fun a => EBroadcast room_code (BTyping a false) None) ai_players
         ++ [ EBroadcast room_code
                (BPhase VOTING "Discussion ended. Time to vote.") None;
              ECreateTask (RunVotingPhase room_code);
              ECreateTask (ProcessAiVotes room_code) ])
      else (rooms, [])
  end.


(** *** The turn of one agent: [process_single_ai_message] *)

(** The [finally] clause: the agent leaves the set of agents in flight. *)
Definition single_ai_finally (room_code ai_id : string) (rooms : Rooms)
  : Rooms :=
  match rooms !! room_code with
  | None => rooms
  | Some room =>
      <[room_code :=
          set_ai_processing_agents (ai_processing_agents room ∖ {[ai_id]})
            room]> rooms
  end.

(** A segment of a coroutine ends with the coroutine returning, or at an
    [await] with what the coroutine carries over it. *)
Inductive Segment (A : Type) :=
| Returned (rooms : Rooms) (evs : list Event)
| Awaiting (a : A) (rooms : Rooms) (evs : list Event).
Arguments Returned {A} rooms evs.
Arguments Awaiting {A} a rooms evs.

(** Up to [await loop.run_in_executor(...)]: the state object handed to
    [ai_chat_agent_node]. *)
Definition single_ai_begin (room_code ai_id : string) (rooms : Rooms)
  : Segment GameState :=
  match rooms !! room_code with
  | None => Returned rooms []
  | Some room =>
      let st := state room in
      if bool_decide (ai_id ∈ pending_ai_messages st)
      then Awaiting st rooms []
      else Returned (single_ai_finally room_code ai_id rooms) []
  end.

(** From the result of the node to the typing indicator: defense layers 1
    and 2.  A missing room is a KeyError, which leaves through the
    [finally] clause like every other exception. *)
Definition single_ai_generated (room_code ai_id : string)
    (result : result (option ChatNodeResult)) (rooms : Rooms)
  : Segment ChatNodeResult :=
  match result with
  | Raise _ => Returned (single_ai_finally room_code ai_id rooms) []
  | Ok None => Returned (single_ai_finally room_code ai_id rooms) []
  | Ok (Some res) =>
      match rooms !! room_code with
      | None => Returned (single_ai_finally room_code ai_id rooms) []
      | Some room =>
          let current_state := state room in
          if bool_decide (phase current_state ≠ DISCUSSION) then
            let current_state' :=
              set_pending_ai_messages
                (List.filter (fun p => negb (String.eqb p ai_id))
                   (pending_ai_messages current_state)) current_state in
            Returned
              (single_ai_finally room_code ai_id
                 (<[room_code := set_state current_state' room]> rooms)) []
          else if bool_decide (phase (state room) ≠ DISCUSSION) then
            Returned (single_ai_finally room_code ai_id rooms) []
          else
            Awaiting res rooms
              [EBroadcast room_code (BTyping (res_ai_sender res) true) None]
      end
  end.

(** Where the coroutine stands after defense layer 3. *)
Inductive AfterDelay := TypingCancelled | Committed.

(** After [await asyncio.sleep(typing_delay)]: defense layer 3 and the
    commit. *)
Definition single_ai_delayed (room_code ai_id : string)
    (res : ChatNodeResult) (rooms : Rooms) : Segment AfterDelay :=
  match rooms !! room_code with
  | None => Returned (single_ai_finally room_code ai_id rooms) []
  | Some room =>
      let current_state := state room in
      if bool_decide (phase current_state ≠ DISCUSSION) then
        Awaiting TypingCancelled rooms
          [EBroadcast room_code (BTyping (res_ai_sender res) false) None]
      else
        let current_state' :=
          set_pending_ai_messages (res_pending_ai_messages res)
            (set_last_message_time (res_last_message_time res)
               (set_chat_history
                  (chat_history current_state ++ res_chat_history res)
                  current_state)) in
        Awaiting Committed
          (<[room_code := set_state current_state' room]> rooms)
          [ EBroadcast room_code
              (BMessage (res_ai_sender res) (res_ai_message res)) None;
            EBroadcast room_code (BTyping (res_ai_sender res) false) None ]
  end.

(** The end of the coroutine: defense layer 4 after a commit, and the
    [finally] clause. *)
Definition single_ai_wrapup (room_code ai_id : string) (p : AfterDelay)
    (rooms : Rooms) : Rooms * list Event :=
  match p with
  | TypingCancelled => (single_ai_finally room_code ai_id rooms, [])
  | Committed =>
      match rooms !! room_code with
      | None => (single_ai_finally room_code ai_id rooms, [])
      | Some room =>
          (single_ai_finally room_code ai_id rooms,
           if bool_decide (phase (state room) = DISCUSSION)
           then [ECreateTask (TriggerAgentDecisions room_code [ai_id])]
           else [])
      end
  end.

(** What the other tasks of the event loop do to the registry while the
    coroutine is suspended. *)
Record Interleaving := mkInterleaving {
  while_generating : Rooms -> Rooms;
  while_typing : Rooms -> Rooms;
  while_closing : Rooms -> Rooms
}.

(** [process_single_ai_message(room_code, ai_id)] under an interleaving. *)
Definition process_single_ai_message (room_code ai_id : string)
    (llm : llm_tape) (t_msg t_last : Time) (g : rng) (env : Interleaving)
    (rooms : Rooms) : Rooms * list Event * rng :=
  match single_ai_begin room_code ai_id rooms with
  | Returned r evs => (r, evs, g)
  | Awaiting st r0 evs0 =>
      let '(result, g') :=
        ai_chat_agent_node st (Some ai_id) llm t_msg t_last g in
      match single_ai_generated room_code ai_id result
              (while_generating env r0) with
      | Returned r evs => (r, evs0 ++ evs, g')
      | Awaiting res r1 evs1 =>
          match single_ai_delayed room_code ai_id res
                  (while_typing env r1) with
          | Returned r evs => (r, evs0 ++ evs1 ++ evs, g')
          | Awaiting p r2 evs2 =>
              let '(r3, evs3) :=
                single_ai_wrapup room_code ai_id p (while_closing env r2) in
              (r3, evs0 ++ evs1 ++ evs2 ++ evs3, g')
          end
      end
  end.

(** *** Engagement waves *)

(** The decision loop of [trigger_agent_decisions]; [llm a] is the model
    as it answers agent [a].  An exception of the decision function is
    caught and the agent is passed over. *)
Fixpoint decide_responders (st : GameState) (ais : list string)
    (llm : string -> llm_tape) (g : rng) : list string * rng :=
  match ais with
  | [] => ([], g)
  | ai_id :: rest =>
      let '(r, g1) := _should_agent_respond st ai_id (llm ai_id) g in
      let '(more, g2) := decide_responders st rest llm g1 in
      (match r with
       | Ok should_respond =>
           if truthy should_respond then ai_id :: more else more
       | Raise _ => more
       end, g2)
  end.


(** [process_ai_messages(room_code)], up to the creation of the tasks. *)
Definition process_ai_messages (room_code : string) (rooms : Rooms)
  : Rooms * list Event :=
  match rooms !! room_code with
  | None => (rooms, [])
  | Some room =>
      let st := state room in
      if bool_decide (phase st ≠ DISCUSSION) then (rooms, [])
      else
        let pending_ais := pending_ai_messages st in
        let processing_agents := ai_processing_agents room in
        let ais_to_process :=
          List.filter
            (fun a => negb (bool_decide (a ∈ processing_agents)))
            pending_ais in
        match ais_to_process with
        | [] => (rooms, [])
        | _ =>
            (<[room_code :=
                 set_ai_processing_agents
                   (processing_agents ∪ list_to_set ais_to_process) room]>
               rooms,
             map (fun a => ECreateTask (ProcessSingleAiMessage room_code a))
               ais_to_process)
        end
  end.

(** *** Chat messages of the human players *)




(** *** Rooms: creation, joining, leaving *)

(** [state.update(result)] for the result of [initialize_game_node], then
    the start of the phases. *)
Definition start_phases (room_code : string) (st : GameState)
  : GameState * list Event :=
  let queue := initialize_game_node st in
  (set_broadcast_queue queue st,
   map (fun m => EBroadcast room_code m None) queue
   ++ [ ECreateTask (RunDiscussionPhase room_code);
        ECreateTask (TriggerAgentDecisions room_code []) ]).

(** [start_game(room_code)] *)
Definition start_game (room_code : string) (t1 t2 : Time) (g : rng)
    (rooms : Rooms) : result bool * Rooms * list Event * rng :=
  match rooms !! room_code with
  | None => (Ok false, rooms, [], g)
  | Some room =>
      match create_game_for_room room_code config.NUM_AI_PLAYERS None
              t1 t2 g with
      | (Raise e, g') => (Raise e, rooms, [], g')
      | (Ok st, g') =>
          let '(st', evs) := start_phases room_code st in
          (Ok true,
           <[room_code := set_ai_processing_agents ∅ (set_state st' room)]>
             rooms,
           EBroadcast room_code BGameReset None :: evs, g')
      end
  end.

Inductive CreateResponse :=
| CreateBadMaxHumans
| CreateTooFewPlayers
| CreateTooManyPlayers
| Created (room_code : string) (creator_number : nat).

(** [create_room(room_data)]; [room_code] is the code that
    [generate_room_code] returns, one that is not in [rooms]. *)
Definition create_room (max_humans total_players : option nat)
    (room_code : string) (t1 t2 : Time) (g : rng) (rooms : Rooms)
  : result CreateResponse * Rooms * rng :=
  let max_humans := default 1 max_humans in
  let total_players := default 5 total_players in
  if negb (Nat.leb 1 max_humans && Nat.leb max_humans 4)
  then (Ok CreateBadMaxHumans, rooms, g)
  else if Nat.ltb total_players max_humans
  then (Ok CreateTooFewPlayers, rooms, g)
  else if Nat.ltb 12 total_players
  then (Ok CreateTooManyPlayers, rooms, g)
  else
    let num_ai_players := total_players - max_humans in
    let '(all_numbers, g1) := shuffle (seq 1 total_players) g in
    let ai_numbers := firstn num_ai_players all_numbers in
    let available_numbers := skipn num_ai_players all_numbers in
    let ai_player_ids := map player_name ai_numbers in
    match create_game_for_room room_code num_ai_players (Some ai_player_ids)
            t1 t2 g1 with
    | (Raise e, g2) => (Raise e, rooms, g2)
    | (Ok st, g2) =>
        (Ok (Created room_code (hd 1 available_numbers)),
         <[room_code :=
             mkRoom st ∅ waiting max_humans total_players "" []
               available_numbers false None None]> rooms,
         g2)
    end.

Inductive JoinResponse :=
| JoinInProgress
| JoinCompleted
| JoinFull
| Joined (player_id : string) (can_start : bool).

(** [join_room(room_code, player_data)] *)
Definition join_room (room_code : string) (t1 t2 : Time) (g : rng)
    (rooms : Rooms) : result JoinResponse * Rooms * list Event * rng :=
  let legacy :=
    match rooms !! room_code with
    | Some _ => (Ok (rooms, []), g)
    | None =>
        let total_players := config.NUM_AI_PLAYERS + 1 in
        let '(all_numbers, g1) := shuffle (seq 1 total_players) g in
        let player_id := player_name (hd 0 all_numbers) in
        let ai_player_ids := map player_name (tl all_numbers) in
        match create_game_for_room room_code config.NUM_AI_PLAYERS
                (Some ai_player_ids) t1 t2 g1 with
        | (Raise e, g2) => (Raise e, g2)
        | (Ok st, g2) =>
            let '(st', evs) := start_phases room_code st in
            (Ok (<[room_code :=
                     mkRoom st' ∅ waiting 4 total_players player_id [] []
                       false None None]> rooms, evs), g2)
        end
    end in
  match legacy with
  | (Raise e, g') => (Raise e, rooms, [], g')
  | (Ok (rooms, evs0), g') =>
      match rooms !! room_code with
      | None => (Raise KeyError, rooms, evs0, g')
      | Some room =>
          match room_status room with
          | in_progress => (Ok JoinInProgress, rooms, evs0, g')
          | completed => (Ok JoinCompleted, rooms, evs0, g')
          | waiting =>
              if Nat.leb (max_humans room) (length (current_humans room))
              then (Ok JoinFull, rooms, evs0, g')
              else
                let '(player_number, rest, g'') :=
                  match available_numbers room with
                  | [] =>
                      (* random.randint(100, 999) *)
                      let '(k, g'') := randbelow 900 g' in (100 + k, [], g'')
                  | n :: rest => (n, rest, g')
                  end in
                let player_id := player_name player_number in
                let humans := current_humans room ++ [player_id] in
                let creator :=
                  if Nat.eqb (length humans) 1 then player_id
                  else creator_id room in
                let st :=
                  set_players
                    (players (state room)
                     ++ [mkPlayer player_id human false None]) (state room) in
                let can_start := Nat.leb (max_humans room) (length humans) in
                let room1 :=
                  set_state st
                    (set_creator_id creator
                       (set_current_humans humans
                          (set_available_numbers rest room))) in
                if can_start then
                  if initialized room then
                    (Ok (Joined player_id true),
                     <[room_code := set_room_status in_progress room1]> rooms,
                     evs0, g'')
                  else
                    let '(st', evs) := start_phases room_code st in
                    (Ok (Joined player_id true),
                     <[room_code :=
                         set_initialized true
                           (set_state st'
                              (set_room_status in_progress room1))]> rooms,
                     evs0 ++ evs, g'')
                else
                  (Ok (Joined player_id false),
                   <[room_code := room1]> rooms, evs0, g'')
          end
      end
  end.




(** *** The voting loop of the agents as a whole *)

(** The condition of the [while] of [process_ai_votes]. *)
Definition ai_votes_pending (st : GameState) : bool :=
  match pending_ai_votes st with
  | [] => false
  | _ :: _ => bool_decide (phase st = VOTING)
  end.

(** What a run of [process_ai_votes] leaves: how it ended, the registry,
    what it did, and the number of invocations of the model. *)
Record AiVotesRun := mkAiVotesRun {
  run_result : result unit;
  run_rooms : Rooms;
  run_events : list Event;
  run_calls : nat;
  run_rng : rng
}.

(** The loop of [process_ai_votes] on the state object [st], when no other
    task writes the room while the coroutine is suspended: the object that
    the loop holds is then the state of the room after every turn.  The
    model answers the turns one after the other from the tape.  [None]
    when [fuel] turns did not end the loop. *)
Fixpoint process_ai_votes_loop (fuel : nat) (room_code : string)
    (st : GameState) (llm : llm_tape) (now : Time) (g : rng) (rooms : Rooms)
  : option AiVotesRun :=
  if negb (ai_votes_pending st) then Some (mkAiVotesRun (Ok tt) rooms [] 0 g)
  else
    match fuel with
    | 0 => None
    | S fuel' =>
        match process_ai_votes_turn room_code st llm now g rooms with
        | (Raise e, rooms1, evs, calls, g1) =>
            Some (mkAiVotesRun (Raise e) rooms1 evs calls g1)
        | (Ok (st1, false), rooms1, evs, calls, g1) =>
            Some (mkAiVotesRun (Ok tt) rooms1 evs calls g1)
        | (Ok (st1, true), rooms1, evs, calls, g1) =>
            match process_ai_votes_loop fuel' room_code st1
                    (llm_advance calls llm) now g1 rooms1 with
            | None => None
            | Some run =>
                Some (mkAiVotesRun (run_result run) (run_rooms run)
                        (evs ++ run_events run) (calls + run_calls run)
                        (run_rng run))
            end
        end
    end.

(** [process_ai_votes(room_code)] *)
Definition process_ai_votes (fuel : nat) (room_code : string)
    (llm : llm_tape) (now : Time) (g : rng) (rooms : Rooms)
  : option AiVotesRun :=
  match rooms !! room_code with
  | None => Some (mkAiVotesRun (Ok tt) rooms [] 0 g)
  | Some room =>
      process_ai_votes_loop fuel room_code (state room) llm now g rooms
  end.

End main.

(** ** discord_bot/ai_agent_bot.py *)

Module ai_agent_bot.
Import PyDict.
Export langgraph_game.

(** What the front end asks of the chat platform and of the event loop:
    [channel.send(content)] and [asyncio.sleep(seconds)]. *)
Inductive Effect :=
| ESend (channel_id : Z) (content : string)
| ESleep (seconds : Q).

(** An entry of [active_games] of a bot. *)
Record GameInfo := mkGameInfo {
  info_channel_id : Z;
  info_game_player_id : string;
  is_eliminated : bool
}.

(** [AIAgentBot]: its identifier and the games it takes part in. *)
Record AIAgentBot := mkBot {
  agent_id : string;
  bot_games : dict string GameInfo
}.

(** [get_game_player_id(room_code)] *)
Definition get_game_player_id (self : AIAgentBot) (room_code : string)
  : option string :=
  match PyDict.get (bot_games self) room_code with
  | Some game_info => Some (info_game_player_id game_info)
  | None => None
  end.

(** [post_message(room_code, message)]; [get_channel] tells whether the
    client finds the channel.  What [channel.send] raises is caught and
    logged. *)
Definition post_message (self : AIAgentBot) (room_code message : string)
    (get_channel : Z -> bool) : list Effect :=
  match PyDict.get (bot_games self) room_code with
  | None => []
  | Some game_info =>
      if is_eliminated game_info then []
      else
        let channel_id := info_channel_id game_info in
        if negb (get_channel channel_id) then []
        else
          let player_name := info_game_player_id game_info in
          [ESend channel_id ("**" +:+ player_name +:+ "**: " +:+ message)]
  end.

End ai_agent_bot.

(** ** discord_bot/game_manager.py *)

Module game_manager.
Import PyDict PyRandom.
Export langgraph_game.
Export ai_agent_bot.

(** [DiscordPlayer] (discord_bot/utils.py) *)
Record DiscordPlayer := mkDiscordPlayer {
  discord_id : Z;
  discord_name : string;
  display_name : string;
  game_player_id : string
}.

(** [GameSession]: the state of the game, the players of the room by
    Discord identifier, and the votes of the human players by Discord
    identifier. *)
Record GameSession := mkSession {
  session_state : GameState;
  room_players : dict Z DiscordPlayer;
  session_votes : dict Z string;
  processing_agents : gset string
}.

Definition set_session_votes (v : dict Z string) (s : GameSession)
  : GameSession :=
  mkSession (session_state s) (room_players s) v (processing_agents s).

Inductive ChannelVoteReply :=
| SessionNotFound
| NotVotingPhase (current : Phase)
| NotInThisGame
| EliminatedCannotVote
| AlreadyVotedReply
| InvalidPlayer (available : list string)
| VoteRecorded (target : string).

(** The first component of the pair that [handle_channel_vote] returns. *)
Definition success (r : ChannelVoteReply) : bool :=
  match r with VoteRecorded _ => true | _ => false end.

(** [handle_channel_vote(room_code, discord_id, player_id)] *)
Definition handle_channel_vote (room_code : string) (discord_id : Z)
    (player_id : string) (active_games : gmap string GameSession)
  : ChannelVoteReply * gmap string GameSession :=
  match active_games !! room_code with
  | None => (SessionNotFound, active_games)
  | Some session =>
      let st := session_state session in
      if bool_decide (phase st ≠ VOTING)
      then (NotVotingPhase (phase st), active_games)
      else
        match PyDict.get (room_players session) discord_id with
        | None => (NotInThisGame, active_games)
        | Some player =>
            let voter := game_player_id player in
            let player_obj :=
              List.find (fun p => String.eqb (id p) voter) (players st) in
            if match player_obj with
               | Some p => eliminated p
               | None => false
               end
            then (EliminatedCannotVote, active_games)
            else if PyDict.contains (session_votes session) discord_id
            then (AlreadyVotedReply, active_games)
            else
              let exact :=
                List.find
                  (fun p => String.eqb (id p) player_id
                            && negb (eliminated p)
                            && negb (String.eqb (id p) voter)) (players st) in
              let active :=
                List.filter
                  (fun p => negb (eliminated p)
                            && negb (String.eqb (id p) voter)) (players st) in
              let target_player :=
                match exact with
                | Some p => Some p
                | None =>
                    let player_id_lower := PyStr.strip (PyStr.lower player_id) in
                    List.find
                      (fun p => PyStr.contains player_id_lower
                                  (PyStr.lower (id p))) active
                end in
              match target_player with
              | None => (InvalidPlayer (map id active), active_games)
              | Some target =>
                  (VoteRecorded (id target),
                   <[room_code :=
                       set_session_votes
                         (PyDict.set (session_votes session) discord_id
                            (id target)) session]> active_games)
              end
        end
  end.

Definition set_session_state (v : GameState) (s : GameSession)
  : GameSession :=
  mkSession v (room_players s) (session_votes s) (processing_agents s).

Definition set_processing_agents (v : gset string) (s : GameSession)
  : GameSession :=
  mkSession (session_state s) (room_players s) (session_votes s) v.

(** [session.processing_agents.add(ai_id)] and [.discard(ai_id)] for the
    session of the room. *)
Definition processing_add (room_code ai_id : string)
    (active_games : gmap string GameSession) : gmap string GameSession :=
  match active_games !! room_code with
  | None => active_games
  | Some session =>
      <[room_code :=
          set_processing_agents (processing_agents session ∪ {[ ai_id ]})
            session]> active_games
  end.

Definition processing_discard (room_code ai_id : string)
    (active_games : gmap string GameSession) : gmap string GameSession :=
  match active_games !! room_code with
  | None => active_games
  | Some session =>
      <[room_code :=
          set_processing_agents (processing_agents session ∖ {[ ai_id ]})
            session]> active_games
  end.

(** How [handle_human_message] ends: the four refusals, the end of the
    [try] block, and the [except] branch that logs the error. *)
Inductive HumanMessageOutcome :=
| MessageNoSession
| MessageNotInRoom
| MessageNotDiscussion
| MessageOfEliminated
| MessageProcessed
| MessageError (e : exn).

(** The coroutines below are run from their call to their return with no
    other coroutine of the session scheduled at their awaits. *)
Section responses.

(** [self.ai_bots]. *)
Variable ai_bots : list AIAgentBot.
(** What [GameGraph()] does: it builds the graph with its model client, or
    it raises. *)
Variable new_graph : result unit.
(** The model as it answers the decision prompt and the message prompt of
    an agent. *)
Variables llm_decide llm_speak : string -> llm_tape.
(** The two clock readings of [ai_chat_agent_node] for an agent. *)
Variable clock : string -> Time * Time.
(** Whether the client of a bot finds a channel. *)
Variable get_channel : Z -> bool.

(** [generate_ai_message(room_code, ai_player_id)]: the entry of the node
    is appended to the chat log of the session and the time of the last
    message is set; the pending list of the result is dropped.  An
    exception is logged and answered with a fixed text, which is not
    entered in the log. *)
Definition generate_ai_message (room_code ai_player_id : string) (g : rng)
    (active_games : gmap string GameSession)
  : option string * gmap string GameSession * rng :=
  match active_games !! room_code with
  | None => (None, active_games, g)
  | Some session =>
      let st := session_state session in
      match new_graph with
      | Raise _ => (Some "I agree with that!", active_games, g)
      | Ok _ =>
          match ai_chat_agent_node st (Some ai_player_id)
                  (llm_speak ai_player_id) (clock ai_player_id).1
                  (clock ai_player_id).2 g with
          | (Raise _, g') => (Some "I agree with that!", active_games, g')
          | (Ok None, g') => (None, active_games, g')
          | (Ok (Some result), g') =>
              let st1 :=
                match res_chat_history result with
                | [] => st
                | _ =>
                    set_chat_history
                      (chat_history st ++ res_chat_history result) st
                end in
              let st2 :=
                set_last_message_time (res_last_message_time result) st1 in
              (Some (res_ai_message result),
               <[room_code := set_session_state st2 session]> active_games,
               g')
          end
      end
  end.

(** The decision loop of [trigger_ai_responses].  There is no [try]
    around the call: what the decision function raises ends the loop. *)
Fixpoint responding_players (st : GameState) (ai_players : list PlayerInfo)
    (g : rng) : result (list PlayerInfo) * rng :=
  match ai_players with
  | [] => (Ok [], g)
  | ai_player :: rest =>
      match _should_agent_respond st (id ai_player)
              (llm_decide (id ai_player)) g with
      | (Raise e, g1) => (Raise e, g1)
      | (Ok should_respond, g1) =>
          match responding_players st rest g1 with
          | (Raise e, g2) => (Raise e, g2)
          | (Ok more, g2) =>
              (Ok (if truthy should_respond then ai_player :: more else more),
               g2)
          end
      end
  end.

(** The loop of [trigger_ai_responses] over the agents that chose to
    respond.  The agent is marked as processing; when a bot plays it, its
    message is generated, posted when it is not empty and followed by a
    pause, and the mark is removed in the [finally] clause. *)
Fixpoint post_responses (room_code : string)
    (responding_ais : list PlayerInfo) (g : rng)
    (active_games : gmap string GameSession)
  : gmap string GameSession * list Effect * rng :=
  match responding_ais with
  | [] => (active_games, [], g)
  | ai_player :: rest =>
      let games1 := processing_add room_code (id ai_player) active_games in
      match List.find
              (fun b =>
                 bool_decide
                   (get_game_player_id b room_code = Some (id ai_player)))
              ai_bots with
      | None => post_responses room_code rest g games1
      | Some bot =>
          let '(ai_message, games2, g1) :=
            generate_ai_message room_code (id ai_player) g games1 in
          let '(effects, g2) :=
            match ai_message with
            | None => ([], g1)
            | Some text =>
                if String.eqb text "" then ([], g1)
                else
                  let '(seconds, g2) := uniform 1 3 g1 in
                  (post_message bot room_code text get_channel
                   ++ [ESleep seconds], g2)
            end in
          let games3 := processing_discard room_code (id ai_player) games2 in
          let '(games4, more, g3) := post_responses room_code rest g2 games3 in
          (games4, effects ++ more, g3)
      end
  end.

(** [trigger_ai_responses(room_code)]; [locked] is what
    [session.trigger_lock.locked()] returns. *)
Definition trigger_ai_responses (room_code : string) (locked : bool)
    (g : rng) (active_games : gmap string GameSession)
  : result unit * gmap string GameSession * list Effect * rng :=
  match active_games !! room_code with
  | None => (Ok tt, active_games, [], g)
  | Some session =>
      let st := session_state session in
      if bool_decide (phase st ≠ DISCUSSION) then (Ok tt, active_games, [], g)
      else if locked then (Ok tt, active_games, [], g)
      else
        let ai_players :=
          List.filter
            (fun p => bool_decide (role p = ai) && negb (eliminated p))
            (players st) in
        let ai_players :=
          List.filter
            (fun p => negb (bool_decide (id p ∈ processing_agents session)))
            ai_players in
        match ai_players with
        | [] => (Ok tt, active_games, [], g)
        | _ =>
            match new_graph with
            | Raise e => (Raise e, active_games, [], g)
            | Ok _ =>
                match responding_players st ai_players g with
                | (Raise e, g1) => (Raise e, active_games, [], g1)
                | (Ok responding_ais, g1) =>
                    let '(games', effects, g2) :=
                      post_responses room_code responding_ais g1
                        active_games in
                    (Ok tt, games', effects, g2)
                end
            end
        end
  end.

(** [handle_human_message(room_code, discord_id, message)]; [t_msg] and
    [t_last] are the two clock readings of [process_human_message]. *)
Definition handle_human_message (room_code : string) (discord_id : Z)
    (message : string) (t_msg t_last : Time) (locked : bool) (g : rng)
    (active_games : gmap string GameSession)
  : HumanMessageOutcome * gmap string GameSession * list Effect * rng :=
  match active_games !! room_code with
  | None => (MessageNoSession, active_games, [], g)
  | Some session =>
      match PyDict.get (room_players session) discord_id with
      | None => (MessageNotInRoom, active_games, [], g)
      | Some player =>
          let st := session_state session in
          if bool_decide (phase st ≠ DISCUSSION)
          then (MessageNotDiscussion, active_games, [], g)
          else
            let player_obj :=
              List.find (fun p => String.eqb (id p) (game_player_id player))
                (players st) in
            if match player_obj with
               | Some p => eliminated p
               | None => false
               end
            then (MessageOfEliminated, active_games, [], g)
            else
              let updated_state :=
                process_human_message st message (game_player_id player)
                  t_msg t_last in
              let games1 :=
                <[room_code := set_session_state updated_state session]>
                  active_games in
              match trigger_ai_responses room_code locked g games1 with
              | (Ok _, games2, effects, g') =>
                  (MessageProcessed, games2, effects, g')
              | (Raise e, games2, effects, g') =>
                  (MessageError e, games2, effects, g')
              end
      end
  end.

End responses.

(** [all_votes] of [process_votes]: the votes of the agents, then the
    votes of the humans under their game identifiers. *)
Definition all_votes (session : GameSession) : dict string (option string) :=
  fold_left
    (fun acc dv =>
       match PyDict.get (room_players session) (fst dv) with
       | Some player =>
           PyDict.set acc (game_player_id player) (Some (snd dv))
       | None => acc
       end) (session_votes session) (votes (session_state session)).

(** [c.most_common(1)], which is [max(c.items(), key=itemgetter(1))]: a
    later item replaces the best one only when its count is greater. *)
Definition most_common_1 {K : Type} (c : dict K nat) : option (K * nat) :=
  fold_left
    (fun best kv =>
       match best with
       | None => Some kv
       | Some b => if Nat.ltb (snd b) (snd kv) then Some kv else best
       end) c None.

(** [eliminated_player["eliminated"] = True] for the first player of the
    list with the identifier. *)
Fixpoint eliminate_first (x : option string) (ps : list PlayerInfo)
  : list PlayerInfo :=
  match ps with
  | [] => []
  | p :: ps' =>
      if id_is p x then mark_eliminated p :: ps'
      else p :: eliminate_first x ps'
  end.

(** How [process_votes] gets to the announcement of the result. *)
Inductive ProcessVotesOutcome :=
| VotesNoSession
| VotesNone
| VotesUnknownPlayer (eliminated_player_id : option string)
| VotesEliminated (eliminated_player_id : option string) (was_human : bool)
    (vote_counts : dict (option string) nat).

(** [process_votes(room_code)], up to the lookup of the channel in which
    the result is announced. *)
Definition process_votes (room_code : string)
    (active_games : gmap string GameSession)
  : ProcessVotesOutcome * gmap string GameSession :=
  match active_games !! room_code with
  | None => (VotesNoSession, active_games)
  | Some session =>
      let st := session_state session in
      let vote_counts := counter (PyDict.values (all_votes session)) in
      match most_common_1 vote_counts with
      | None => (VotesNone, active_games)
      | Some (eliminated_player_id, _) =>
          match List.find (fun p => id_is p eliminated_player_id)
                  (players st) with
          | None => (VotesUnknownPlayer eliminated_player_id, active_games)
          | Some eliminated_player =>
              let st' :=
                set_players (eliminate_first eliminated_player_id (players st))
                  st in
              (VotesEliminated eliminated_player_id
                 (bool_decide (role eliminated_player = human)) vote_counts,
               <[room_code := set_session_state st' session]> active_games)
          end
      end
  end.

End game_manager.

(** ** discord_bot/utils.py *)

Module utils.
Import PyDict PyRandom game_manager.

(** [RoomStatus] *)
Inductive RoomStatus := waiting | in_progress | completed.

#[global] Instance DiscordRoomStatus_eq_dec : EqDecision RoomStatus.
Proof. solve_decision. Defined.

(** [DiscordRoom].  The identifiers of the messages and of the channel of
    the game are only used to address the chat platform and are left
    out. *)
Record DiscordRoom := mkDiscordRoom {
  room_code : string;
  channel_id : Z;
  creator_id : Z;
  room_name : string;
  max_humans : Z;
  total_players : Z;
  status : RoomStatus;
  created_at : Time;
  players : dict Z DiscordPlayer;
  game_state : option GameState
}.

Definition set_status (v : RoomStatus) (r : DiscordRoom) : DiscordRoom :=
  mkDiscordRoom (room_code r) (channel_id r) (creator_id r) (room_name r)
    (max_humans r) (total_players r) v (created_at r) (players r)
    (game_state r).

Definition set_room_players (v : dict Z DiscordPlayer) (r : DiscordRoom)
  : DiscordRoom :=
  mkDiscordRoom (room_code r) (channel_id r) (creator_id r) (room_name r)
    (max_humans r) (total_players r) (status r) (created_at r) v
    (game_state r).

Definition set_game_state (v : option GameState) (r : DiscordRoom)
  : DiscordRoom :=
  mkDiscordRoom (room_code r) (channel_id r) (creator_id r) (room_name r)
    (max_humans r) (total_players r) (status r) (created_at r) (players r)
    v.

(** The properties of [DiscordRoom]. *)
Definition num_humans (r : DiscordRoom) : nat := length (players r).

Definition num_ai (r : DiscordRoom) : Z := (total_players r - max_humans r)%Z.

Definition is_full (r : DiscordRoom) : bool :=
  Z.leb (max_humans r) (Z.of_nat (num_humans r)).

Definition can_start (r : DiscordRoom) : bool :=
  is_full r && bool_decide (status r = waiting).

(** [DiscordRoomManager]: the rooms by code, in the order of their
    creation, and the code of the room of every player.  A room object is
    held by the registry under one code; a write to the object is a write
    to the entry, as long as the registry holds the object. *)
Record DiscordRoomManager := mkManager {
  rooms : dict string DiscordRoom;
  player_to_room : dict Z string
}.

(** [DiscordRoomManager()] *)
Definition new_manager : DiscordRoomManager := mkManager [] [].

(** [''.join(random.choice(chars) for _ in range(n))] for
    [chars = string.ascii_uppercase + string.digits]. *)
Fixpoint random_code (n : nat) (g : rng) : string * rng :=
  match n with
  | 0 => ("", g)
  | S n' =>
      let '(c, g1) :=
        pick "A"%char
          (String.list_ascii_of_string "BCDEFGHIJKLMNOPQRSTUVWXYZ0123456789") g in
      let '(code, g2) := random_code n' g1 in
      (String c code, g2)
  end.

(** [generate_room_code()]: codes are drawn until one is not in use;
    [None] when [fuel] draws were all in use. *)
Fixpoint generate_room_code (fuel : nat) (m : DiscordRoomManager) (g : rng)
  : option (string * rng) :=
  match fuel with
  | 0 => None
  | S fuel' =>
      let '(code, g') := random_code 6 g in
      if PyDict.contains (rooms m) code
      then generate_room_code fuel' m g'
      else Some (code, g')
  end.

(** [create_room(channel_id, creator_id, room_name, max_humans,
    total_players)]; [now] is the clock reading. *)
Definition create_room (m : DiscordRoomManager) (channel_id creator_id : Z)
    (room_name : string) (max_humans total_players : Z) (now : Time)
    (fuel : nat) (g : rng)
  : option (DiscordRoom * DiscordRoomManager * rng) :=
  match generate_room_code fuel m g with
  | None => None
  | Some (room_code, g') =>
      let room :=
        mkDiscordRoom room_code channel_id creator_id room_name max_humans
          total_players waiting now [] None in
      Some (room,
            mkManager (PyDict.set (rooms m) room_code room)
              (player_to_room m), g')
  end.

(** [get_room(room_code)] *)
Definition get_room (m : DiscordRoomManager) (room_code : string)
  : option DiscordRoom :=
  PyDict.get (rooms m) room_code.

(** [get_player_room(discord_id)]; an empty code counts as no code. *)
Definition get_player_room (m : DiscordRoomManager) (discord_id : Z)
  : option DiscordRoom :=
  match PyDict.get (player_to_room m) discord_id with
  | Some room_code =>
      if String.eqb room_code "" then None
      else PyDict.get (rooms m) room_code
  | None => None
  end.

(** [remove_player_from_room(room_code, discord_id)] *)
Definition remove_player_from_room (m : DiscordRoomManager)
    (room_code : string) (discord_id : Z) : bool * DiscordRoomManager :=
  match PyDict.get (rooms m) room_code with
  | None => (false, m)
  | Some room =>
      let room1 :=
        if PyDict.contains (players room) discord_id
        then set_room_players (PyDict.del (players room) discord_id) room
        else room in
      let player_to_room1 :=
        if PyDict.contains (player_to_room m) discord_id
        then PyDict.del (player_to_room m) discord_id
        else player_to_room m in
      let rooms1 := PyDict.set (rooms m) room_code room1 in
      if Nat.eqb (length (players room1)) 0
         && bool_decide (status room1 = waiting)
      then (true, mkManager (PyDict.del rooms1 room_code) player_to_room1)
      else (true, mkManager rooms1 player_to_room1)
  end.

(** [f"Human_{player_num}"] *)
Definition human_name (player_num : nat) : string :=
  "Human_" +:+ str_of_nat player_num.

(** [add_player_to_room(room_code, discord_id, discord_name,
    display_name)].  The room object is looked up once, at the start.  When
    the player leaves a previous room first and that room is this very
    room, the object has lost the player, and the registry may have
    dropped the object: the player is then added to an object that the
    registry no longer holds. *)
Definition add_player_to_room (m : DiscordRoomManager) (room_code : string)
    (discord_id : Z) (discord_name display_name : string)
  : bool * DiscordRoomManager :=
  match PyDict.get (rooms m) room_code with
  | None => (false, m)
  | Some room =>
      if is_full room then (false, m)
      else if bool_decide (status room ≠ waiting) then (false, m)
      else
        let m1 :=
          match PyDict.get (player_to_room m) discord_id with
          | Some old_room_code =>
              (remove_player_from_room m old_room_code discord_id).2
          | None => m
          end in
        match PyDict.get (rooms m1) room_code with
        | Some room1 =>
            let player_num := length (players room1) + 1 in
            let player :=
              mkDiscordPlayer discord_id discord_name display_name
                (human_name player_num) in
            (true,
             mkManager
               (PyDict.set (rooms m1) room_code
                  (set_room_players
                     (PyDict.set (players room1) discord_id player) room1))
               (PyDict.set (player_to_room m1) discord_id room_code))
        | None =>
            (true,
             mkManager (rooms m1)
               (PyDict.set (player_to_room m1) discord_id room_code))
        end
  end.

(** [get_rooms_for_channel(channel_id)] *)
Definition get_rooms_for_channel (m : DiscordRoomManager) (channel : Z)
  : list DiscordRoom :=
  List.filter (fun room => bool_decide (channel_id room = channel))
    (PyDict.values (rooms m)).

(** [get_waiting_rooms_for_channel(channel_id)] *)
Definition get_waiting_rooms_for_channel (m : DiscordRoomManager)
    (channel : Z) : list DiscordRoom :=
  List.filter
    (fun room => bool_decide (channel_id room = channel)
                 && bool_decide (status room = waiting))
    (PyDict.values (rooms m)).

(** [start_game(room_code)] *)
Definition start_game (m : DiscordRoomManager) (room_code : string)
  : bool * DiscordRoomManager :=
  match PyDict.get (rooms m) room_code with
  | None => (false, m)
  | Some room =>
      if bool_decide (status room ≠ waiting) then (false, m)
      else
        (true,
         mkManager (PyDict.set (rooms m) room_code (set_status in_progress room))
           (player_to_room m))
  end.

(** [end_game(room_code)]: the room object is marked completed and leaves
    the registry. *)
Definition end_game (m : DiscordRoomManager) (room_code : string)
  : bool * DiscordRoomManager :=
  match PyDict.get (rooms m) room_code with
  | None => (false, m)
  | Some room =>
      let player_to_room1 :=
        fold_left
          (fun acc discord_id =>
             if PyDict.contains acc discord_id then PyDict.del acc discord_id
             else acc) (PyDict.keys (players room)) (player_to_room m) in
      let rooms1 := PyDict.set (rooms m) room_code (set_status completed room) in
      (true,
       mkManager
         (if PyDict.contains rooms1 room_code then PyDict.del rooms1 room_code
          else rooms1) player_to_room1)
  end.

(** [cleanup_inactive_rooms(timeout)]; [current_time] is the clock
    reading. *)
Definition cleanup_inactive_rooms (m : DiscordRoomManager) (timeout : Z)
    (current_time : Time) : DiscordRoomManager :=
  let rooms_to_delete :=
    PyDict.keys
      (List.filter
         (fun kv =>
            negb (Qle_bool (current_time - created_at (snd kv)) (inject_Z timeout))
            && (bool_decide (status (snd kv) = waiting)
                || bool_decide (status (snd kv) = completed)))
         (rooms m)) in
  fold_left (fun acc room_code => (end_game acc room_code).2) rooms_to_delete m.

End utils.

(** ** discord_bot/coordinator_bot.py *)

Module coordinator_bot.
Import PyDict.

(** What [leave_impl] does to the room manager: the room of the user is
    looked up, and the user is removed from the room of that code.  The
    first component is the code, [None] when the user is in no room. *)
Definition leave_impl (m : utils.DiscordRoomManager) (user_id : Z)
  : option string * utils.DiscordRoomManager :=
  match utils.get_player_room m user_id with
  | None => (None, m)
  | Some room =>
      let room_code := utils.room_code room in
      (Some room_code, (utils.remove_player_from_room m room_code user_id).2)
  end.

End coordinator_bot.

(** ** discord_bot/game_manager.py: the games and the rooms *)

Module game_manager_rooms.
Import PyDict PyRandom game_manager.

(** How [initialize_game] ends, or where it stands when it starts to
    address the chat platform. *)
Inductive InitializeOutcome :=
| InitRoomNotFound
| InitCannotStart
| InitChannelNotFound
| InitFailed (e : exn)
| InitStarting.

(** The first component of what [initialize_game] returns when it ends:
    only a game that starts can end with [True]. *)
Definition initialized (o : InitializeOutcome) : bool :=
  match o with InitStarting => true | _ => false end.

(** [{"id": player.game_player_id, "role": "human", "eliminated": False,
    "personality": None}] for every player of the room. *)
Definition human_players (players : dict Z DiscordPlayer) : list PlayerInfo :=
  map (fun kv => mkPlayer (game_player_id (snd kv)) human false None) players.

(** [initialize_game(room_code)], up to the first message to the chat
    platform; [channel_found] tells whether the coordinator knows the
    channel of the game.  What the [try] raises is caught. *)
Definition initialize_game (room_code : string) (channel_found : bool)
    (t1 t2 : Time) (g : rng) (m : utils.DiscordRoomManager)
    (active_games : gmap string GameSession)
  : InitializeOutcome * utils.DiscordRoomManager * gmap string GameSession
    * rng :=
  match utils.get_room m room_code with
  | None => (InitRoomNotFound, m, active_games, g)
  | Some room =>
      if negb (utils.can_start room)
      then (InitCannotStart, m, active_games, g)
      else
        let num_ai := utils.num_ai room in
        match create_game_for_room room_code (Z.to_nat num_ai) None t1 t2 g with
        | (Raise e, g') => (InitFailed e, m, active_games, g')
        | (Ok st, g') =>
            let st1 :=
              set_players (players st ++ human_players (utils.players room))
                st in
            let m1 :=
              utils.mkManager
                (PyDict.set (utils.rooms m) room_code
                   (utils.set_game_state (Some st1) room))
                (utils.player_to_room m) in
            let m2 := (utils.start_game m1 room_code).2 in
            let session := mkSession st1 (utils.players room) [] ∅ in
            let active_games1 := <[room_code := session]> active_games in
            if channel_found
            then (InitStarting, m2, active_games1, g')
            else (InitChannelNotFound, m2, active_games1, g')
        end
  end.

(** [cleanup_game(room_code)] *)
Definition cleanup_game (room_code : string) (m : utils.DiscordRoomManager)
    (active_games : gmap string GameSession)
  : utils.DiscordRoomManager * gmap string GameSession :=
  (( utils.end_game m room_code).2, delete room_code active_games).

End game_manager_rooms.

(** * Vocabulary of the properties *)

Module Spec.
Import PyDict main.

(** Some voter names [t] as its target. *)
Definition is_target (t : string) (vs : dict string (option string)) : Prop :=
  ∃ v, (v, Some t) ∈ vs.

(** The number of voters whose target is [t]. *)
Definition vote_count (t : string) (vs : dict string (option string)) : nat :=
  length (List.filter (fun kv => bool_decide (snd kv = Some t)) vs).

(** [t] is a target and no target has more votes. *)
Definition most_voted (t : string) (vs : dict string (option string)) : Prop :=
  is_target t vs ∧ ∀ t', vote_count t' vs ≤ vote_count t vs.

(** The body of the tally loop of [complete_voting]. *)
Definition count_vote (vote_counts : dict string nat)
    (kv : string * option string) : dict string nat :=
  match snd kv with
  | None => vote_counts
  | Some target =>
      PyDict.set vote_counts target
        (default 0 (PyDict.get vote_counts target) + 1)
  end.

(** The list [candidates] of [complete_voting] for given counts. *)
Definition candidates (vote_counts : dict string nat) : list string :=
  map fst
    (List.filter
       (fun kv => Nat.eqb (snd kv) (list_max (PyDict.values vote_counts)))
       vote_counts).

(** The targets that the votes name, in the order of the mapping; a vote
    without a target names nobody. *)
Definition targets (vs : dict string (option string)) : list string :=
  omap snd vs.

(** The elements of a list, each once, in the order of their first
    occurrence. *)
Fixpoint first_occurrences (l : list string) : list string :=
  match l with
  | [] => []
  | x :: l' =>
      x :: List.filter (fun y => negb (String.eqb y x)) (first_occurrences l')
  end.

(** The greatest number of votes that a target has. *)
Definition max_vote_count (vs : dict string (option string)) : nat :=
  list_max (map (fun t => vote_count t vs) (targets vs)).

(** The targets tied for the greatest number of votes, each once, in the
    order in which they were first voted for. *)
Definition tied_targets (vs : dict string (option string)) : list string :=
  List.filter (fun t => Nat.eqb (vote_count t vs) (max_vote_count vs))
    (first_occurrences (targets vs)).

(** The side that wins when the suspect has the given role. *)
Definition winning_side (suspect_role : option Role) : Role :=
  match suspect_role with
  | Some ai => human
  | _ => ai
  end.

(** The role of the first player called [s], if any. *)
Definition role_of (s : string) (ps : list PlayerInfo) : option Role :=
  role <$> List.find (fun p => String.eqb (id p) s) ps.

(** The state of a room of the registry. *)
Definition state_of (rooms : gmap string Room) (room_code : string)
  : option GameState :=
  state <$> rooms !! room_code.

(** The identifiers of the agents, in the order of the player list. *)
Definition agent_ids (st : GameState) : list string :=
  map id (List.filter (fun p => bool_decide (role p = ai)) (players st)).


(** The chat log of a room of the registry. *)
Definition chat_of (rooms : gmap string Room) (room_code : string)
  : option (list ChatMessage) :=
  chat_history <$> state_of rooms room_code.

(** The agent is marked as having a turn in flight. *)
Definition in_flight (rooms : gmap string Room) (room_code ai_id : string)
  : Prop :=
  ∃ room, rooms !! room_code = Some room ∧ ai_id ∈ ai_processing_agents room.

(** The transport was handed a chat message of the sender. *)
Definition speaks (room_code sender : string) (evs : list Event) : Prop :=
  ∃ text excl, EBroadcast room_code (BMessage sender text) excl ∈ evs.

(** A reply that the decision function cannot use: the invocation raises,
    the text is not JSON, or the document is not a JSON object. *)
Definition decision_call_fails (reply : llm_reply) : Prop :=
  match reply with
  | LlmRaises _ => True
  | LlmReplies _ None => True
  | LlmReplies _ (Some (JObj _)) => False
  | LlmReplies _ (Some _) => True
  end.

(** A reply that the retry loop of the vote handles: an exception of the
    classes its [except] clause names, a text that is not JSON, or a JSON
    object. *)
Definition vote_reply_handled (reply : llm_reply) : Prop :=
  match reply with
  | LlmRaises e => vote_except_catches e = true
  | LlmReplies _ None => True
  | LlmReplies _ (Some (JObj _)) => True
  | LlmReplies _ (Some _) => False
  end.

(** [t] is the identifier of a non-eliminated player other than [ai_id]. *)
Definition eligible (st : GameState) (ai_id t : string) : Prop :=
  ∃ p, p ∈ players st ∧ id p = t ∧ eliminated p = false ∧ t ≠ ai_id.





(** The room managers that the chat platform front end can reach from a
    new manager: by its methods, and by a user leaving as [leave_impl]
    does, which is the one call of [remove_player_from_room] besides the
    one inside [add_player_to_room]. *)
Inductive manager_reachable : utils.DiscordRoomManager → Prop :=
| manager_new : manager_reachable utils.new_manager
| manager_create_room m channel creator name max_humans total_players now
    fuel g room m' g' :
    manager_reachable m →
    utils.create_room m channel creator name max_humans total_players now
      fuel g = Some (room, m', g') →
    manager_reachable m'
| manager_add_player m rc discord_id discord_name display_name :
    manager_reachable m →
    manager_reachable
      (utils.add_player_to_room m rc discord_id discord_name display_name).2
| manager_leave m user_id :
    manager_reachable m →
    manager_reachable (coordinator_bot.leave_impl m user_id).2
| manager_start_game m rc :
    manager_reachable m → manager_reachable (utils.start_game m rc).2
| manager_end_game m rc :
    manager_reachable m → manager_reachable (utils.end_game m rc).2
| manager_cleanup m timeout now :
    manager_reachable m →
    manager_reachable (utils.cleanup_inactive_rooms m timeout now).

(** What holds of every registered room of a manager: it is registered
    under its own code, which is not empty; it is not completed; it holds
    no more players than it has seats; and each of its players is mapped
    to its code. *)
Definition manager_inv (m : utils.DiscordRoomManager) : Prop :=
  ∀ rc room,
    PyDict.get (utils.rooms m) rc = Some room →
    utils.room_code room = rc ∧ rc ≠ "" ∧
    utils.status room ≠ utils.completed ∧
    (Z.of_nat (length (utils.players room))
     ≤ Z.max 0 (utils.max_humans room))%Z ∧
    ∀ d, is_Some (PyDict.get (utils.players room) d) →
         PyDict.get (utils.player_to_room m) d = Some rc.

(** The number of occurrences of [x] in [l]. *)
Definition occurrences {K : Type} `{EqDecision K} (x : K) (l : list K) : nat :=
  length (List.filter (fun y => bool_decide (y = x)) l).

(** [x] occurs in [l], and nothing occurs more often. *)
Definition most_frequent {K : Type} `{EqDecision K} (x : K) (l : list K)
  : Prop :=
  x ∈ l ∧ ∀ y, occurrences y l ≤ occurrences x l.

(** The session of the room has the entries [replies] added at the end of
    its chat log and keeps its players, votes, phase, pending speakers,
    human votes and room players; every other session is as before. *)
Definition replies_added (room_code : string)
    (games games' : gmap string game_manager.GameSession)
    (replies : list ChatMessage) : Prop :=
  (∀ rc', rc' ≠ room_code → games' !! rc' = games !! rc') ∧
  ∃ s s',
    games !! room_code = Some s ∧ games' !! room_code = Some s' ∧
    chat_history (game_manager.session_state s')
    = chat_history (game_manager.session_state s) ++ replies ∧
    players (game_manager.session_state s')
    = players (game_manager.session_state s) ∧
    votes (game_manager.session_state s')
    = votes (game_manager.session_state s) ∧
    phase (game_manager.session_state s')
    = phase (game_manager.session_state s) ∧
    pending_ai_messages (game_manager.session_state s')
    = pending_ai_messages (game_manager.session_state s) ∧
    game_manager.session_votes s' = game_manager.session_votes s ∧
    game_manager.room_players s' = game_manager.room_players s.

(** [handle_human_message] returned at one of its four refusals. *)
Definition refused (o : game_manager.HumanMessageOutcome) : bool :=
  match o with
  | game_manager.MessageProcessed | game_manager.MessageError _ => false
  | _ => true
  end.

End Spec.

(** * Concrete sessions *)

Module Examples.
Import PyDict PyRandom main.

(** The scenario of the design document: one human and three agents; every
    agent votes for the human, the human votes for the first agent. *)
Definition tape_zero : rng := fun _ => 0%N.

Definition scenario_state (vs : list (string * option string)) : GameState :=
  mkState "ROOM01" 1 VOTING 3
    [ mkPlayer "Player 1" ai false (Some "inquisitive");
      mkPlayer "Player 2" ai false (Some "analytical");
      mkPlayer "Player 3" ai false (Some "humorous");
      mkPlayer "Player 4" human false None ]
    [] "What's your unpopular opinion?" vs
    [ ("Player 1", Some "inquisitive"); ("Player 2", Some "analytical");
      ("Player 3", Some "humorous") ]
    [] "" 0%Q 0%Q None None [] [] [] None None.

Definition scenario_room (vs : list (string * option string)) : Room :=
  mkRoom (scenario_state vs) ∅ in_progress 1 4 "Player 4" ["Player 4"] []
    true None None.

Definition scenario_votes : list (string * option string) :=
  [ ("Player 1", Some "Player 4"); ("Player 2", Some "Player 4");
    ("Player 3", Some "Player 4"); ("Player 4", Some "Player 1") ].

(** Two agents have two votes each: the second and the third. *)
Definition tie_votes : list (string * option string) :=
  [ ("Player 1", Some "Player 2"); ("Player 2", Some "Player 3");
    ("Player 3", Some "Player 2"); ("Player 4", Some "Player 3") ].

(** Every draw is 1. *)
Definition tape_one : rng := fun _ => 1%N.




(** A room with one human and no agent, in the voting phase, without
    votes. *)
Definition humans_only_room : Room :=
  mkRoom
    (mkState "ROOM02" 1 VOTING 0 [mkPlayer "Player 1" human false None] []
       "What's your unpopular opinion?" [] [] [] "" 0%Q 0%Q None None [] []
       [] None None)
    ∅ in_progress 1 1 "Player 1" ["Player 1"] [] true None None.

(** A room in the discussion phase in which the first agent has been
    authorised to speak and its turn is in flight. *)
Definition discussing_room : Room :=
  mkRoom
    (set_pending_ai_messages ["Player 1"]
       (set_phase DISCUSSION (scenario_state [])))
    {[ "Player 1" ]} in_progress 1 4 "Player 4" ["Player 4"] [] true None
    None.

(** The model answers every invocation with the same text. *)
Definition llm_says (content : string) : llm_tape :=
  fun _ => LlmReplies content None.

(** The discussion timer fires while the model is generating; nothing else
    happens. *)
Definition timer_fires_while_generating : Interleaving :=
  mkInterleaving (fun rooms => (discussion_timeout "ROOM01" rooms).1)
    (fun rooms => rooms) (fun rooms => rooms).

(** The discussion timer fires during the typing delay. *)
Definition timer_fires_while_typing : Interleaving :=
  mkInterleaving (fun rooms => rooms)
    (fun rooms => (discussion_timeout "ROOM01" rooms).1) (fun rooms => rooms).

(** The model raises the same exception at every invocation. *)
Definition llm_raises (e : exn) : llm_tape := fun _ => LlmRaises e.

(** The model answers every invocation with a text that decodes to the
    given document. *)
Definition llm_replies (content : string) (doc : json) : llm_tape :=
  fun _ => LlmReplies content (Some doc).

(** The room of the scenario in which the human has voted once. *)
Definition human_voted_room : Room :=
  scenario_room [("Player 4", Some "Player 1")].

(** The room of the scenario in which the human is marked eliminated. *)
Definition eliminated_human_room : Room :=
  mkRoom
    (set_players
       [ mkPlayer "Player 1" ai false (Some "inquisitive");
         mkPlayer "Player 2" ai false (Some "analytical");
         mkPlayer "Player 3" ai false (Some "humorous");
         mkPlayer "Player 4" human true None ] (scenario_state []))
    ∅ in_progress 1 4 "Player 4" ["Player 4"] [] true None None.

(** A session of the chat platform front end in the voting phase: the
    human of the scenario, who is marked eliminated, under the Discord
    identifier 7. *)
Definition discord_session : game_manager.GameSession :=
  game_manager.mkSession (state eliminated_human_room)
    [(7%Z, game_manager.mkDiscordPlayer 7 "alice" "Alice" "Player 4")] []
    ∅.

(** A game as [create_initial_state] returns it for three agents. *)
Definition fresh_state : result GameState :=
  (create_initial_state "ROOM03" 3 0%Q 0%Q tape_zero).1.

(** The state of that game (the scenario without votes if the creation
    had raised). *)
Definition fresh_game : GameState :=
  match fresh_state with
  | Ok st => st
  | Raise _ => scenario_state []
  end.

(** A room that waits for one human, around a given game state. *)
Definition waiting_room (st : GameState) : Room :=
  mkRoom st ∅ waiting 1 4 "" [] [4] false None None.


(** What [elimination_node] returns for the votes of the scenario. *)
Definition scenario_elimination : EliminationResult :=
  mkElimResult ELIMINATION
    [ mkPlayer "Player 1" ai false (Some "inquisitive");
      mkPlayer "Player 2" ai false (Some "analytical");
      mkPlayer "Player 3" ai false (Some "humorous");
      mkPlayer "Player 4" human true None ]
    (Some "Player 4") [BElimination (Some "Player 4") (Some human)].

(** The room of the scenario at the start of the voting phase: the three
    agents are pending and nobody has voted. *)
Definition agents_voting_room : Room :=
  mkRoom
    (set_pending_ai_votes ["Player 1"; "Player 2"; "Player 3"]
       (scenario_state []))
    ∅ in_progress 1 4 "Player 4" ["Player 4"] [] true None None.

(** A room of the chat platform front end with two seats, as [create_room]
    registers it in a new manager with the first code of the tape. *)
Definition lobby_room : utils.DiscordRoom :=
  utils.mkDiscordRoom "AAAAAA" 1 7 "Room" 2 5 utils.waiting 0%Q [] None.

Definition lobby_manager : utils.DiscordRoomManager :=
  utils.mkManager [("AAAAAA", lobby_room)] [].

(** The creator of the room, once added to it. *)
Definition alice : game_manager.DiscordPlayer :=
  game_manager.mkDiscordPlayer 7 "alice" "Alice" "Human_1".

Definition joined_room : utils.DiscordRoom :=
  utils.set_room_players [(7%Z, alice)] lobby_room.

Definition joined_manager : utils.DiscordRoomManager :=
  utils.mkManager [("AAAAAA", joined_room)] [(7%Z, "AAAAAA")].

(** A session of the chat platform front end in the discussion phase:
    the scenario, with its human under the Discord identifier 7. *)
Definition discussing_session : game_manager.GameSession :=
  game_manager.mkSession (set_phase DISCUSSION (scenario_state []))
    [(7%Z, game_manager.mkDiscordPlayer 7 "alice" "Alice" "Player 4")] []
    ∅.

(** The only bot plays the first agent of the room, in channel 1. *)
Definition first_agent_bot : ai_agent_bot.AIAgentBot :=
  ai_agent_bot.mkBot "AI_1"
    [("ROOM01", ai_agent_bot.mkGameInfo 1 "Player 1" false)].

(** The model tells every agent to respond. *)
Definition llm_responds : llm_tape :=
  llm_replies "" (JObj [("should_respond", JBool true)]).

End Examples.

(** * Facts about the dictionaries *)

Section dict_facts.
Context {K V : Type} `{EqDecision K}.
Implicit Types (d : list (K * V)) (k : K) (v : V).

Lemma get_set_eq d k v : PyDict.get (PyDict.set d k v) k = Some v.
Proof.
  induction d as [|[k' v'] d IH]; simpl.
  - by rewrite decide_True.
  - destruct (decide (k' = k)) as [->|Hne]; simpl.
    + by rewrite decide_True.
    + by rewrite decide_False.
Qed.

Lemma get_set_ne d k k' v :
  k ≠ k' → PyDict.get (PyDict.set d k v) k' = PyDict.get d k'.
Proof.
  intros Hne. induction d as [|[k0 v0] d IH]; simpl.
  - by rewrite decide_False.
  - destruct (decide (k0 = k)) as [->|Hk]; simpl.
    + by rewrite !decide_False.
    + by rewrite IH.
Qed.

Lemma get_Some_elem_of d k v : PyDict.get d k = Some v → (k, v) ∈ d.
Proof.
  induction d as [|[k0 v0] d IH]; simpl; [done|].
  destruct (decide (k0 = k)) as [->|Hk].
  - intros [= ->]. left.
  - intros. right. auto.
Qed.

Lemma get_None_not_key d k : PyDict.get d k = None ↔ k ∉ PyDict.keys d.
Proof.
  unfold PyDict.keys. induction d as [|[k0 v0] d IH]; simpl.
  - split; [intros _; apply not_elem_of_nil | done].
  - rewrite not_elem_of_cons. destruct (decide (k0 = k)) as [->|Hk].
    + split; [done | intros [? _]; done].
    + rewrite IH. split; [intros; split; congruence | tauto].
Qed.

Lemma elem_of_get_NoDup d k v :
  NoDup (PyDict.keys d) → (k, v) ∈ d → PyDict.get d k = Some v.
Proof.
  unfold PyDict.keys. induction d as [|[k0 v0] d IH]; simpl.
  - intros _ Hin. by apply elem_of_nil in Hin.
  - rewrite NoDup_cons. intros [Hk0 Hnd] Hin.
    apply elem_of_cons in Hin as [[= -> ->]|Hin].
    + by rewrite decide_True.
    + destruct (decide (k0 = k)) as [->|Hk]; [|by apply IH].
      exfalso. apply Hk0. apply list_elem_of_fmap. by exists (k, v).
Qed.

Lemma keys_set d k v :
  PyDict.keys (PyDict.set d k v)
  = if PyDict.contains d k then PyDict.keys d else PyDict.keys d ++ [k].
Proof.
  unfold PyDict.keys, PyDict.contains.
  induction d as [|[k0 v0] d IH]; simpl; [done|].
  destruct (decide (k0 = k)) as [->|Hk]; simpl; [done|].
  rewrite IH. by destruct (PyDict.get d k).
Qed.

Lemma NoDup_keys_set d k v :
  NoDup (PyDict.keys d) → NoDup (PyDict.keys (PyDict.set d k v)).
Proof.
  intros Hnd. rewrite keys_set. unfold PyDict.contains.
  destruct (PyDict.get d k) eqn:Hg; [done|].
  apply NoDup_app. split_and!; [done| |apply NoDup_singleton].
  intros x Hx Hx'. apply list_elem_of_singleton in Hx' as ->.
  by apply get_None_not_key in Hg.
Qed.

Lemma length_set d k v :
  length (PyDict.set d k v)
  = if PyDict.contains d k then length d else S (length d).
Proof.
  unfold PyDict.contains.
  induction d as [|[k0 v0] d IH]; simpl; [done|].
  destruct (decide (k0 = k)) as [->|Hk]; simpl; [done|].
  rewrite IH. by destruct (PyDict.get d k).
Qed.

End dict_facts.

(** * The random module *)

Lemma randbelow_lt n g : 0 < n → (PyRandom.randbelow n g).1 < n.
Proof.
  intros Hn. unfold PyRandom.randbelow. simpl.
  assert (g 0%nat mod N.of_nat n < N.of_nat n)%N by (apply N.mod_lt; lia).
  lia.
Qed.

Lemma pick_lookup {A : Type} (x : A) (l : list A) g :
  (x :: l) !! N.to_nat (g 0 mod N.of_nat (length (x :: l)))
  = Some (PyRandom.pick x l g).1.
Proof.
  unfold PyRandom.pick, PyRandom.randbelow.
  set (i := N.to_nat _). cbn [fst].
  assert (Hi : i < length (x :: l)).
  { apply (randbelow_lt (length (x :: l)) g). simpl. lia. }
  destruct (lookup_lt_is_Some_2 (x :: l) i Hi) as [y Hy].
  rewrite Hy. f_equal. symmetry. by apply nth_lookup_Some.
Qed.

Lemma pick_rest {A : Type} (x : A) (l : list A) g :
  (PyRandom.pick x l g).2 = PyRandom.advance g.
Proof. reflexivity. Qed.

(** * The tally of [complete_voting] *)

Section tally.
Import PyDict main Spec.
Implicit Types (vs : list (string * option string)) (t : string).

Lemma tally_votes_fold vs : tally_votes vs = fold_left count_vote vs [].
Proof. reflexivity. Qed.

Lemma tally_fold_get vs acc t :
  PyDict.get (fold_left count_vote vs acc) t
  = match vote_count t vs with
    | 0 => PyDict.get acc t
    | S n => Some (default 0 (PyDict.get acc t) + S n)
    end.
Proof.
  revert acc. induction vs as [|[v o] vs IH]; intros acc; [done|].
  cbn [fold_left]. rewrite IH. unfold vote_count. cbn [List.filter snd].
  destruct o as [t0|]; unfold count_vote at 1 2; cbn [snd].
  - destruct (decide (t0 = t)) as [->|Hne].
    + rewrite bool_decide_true by done. cbn [length].
      rewrite get_set_eq. cbn [default].
      destruct (length _); unfold Datatypes.id; f_equal; lia.
    + rewrite bool_decide_false by congruence.
      by rewrite get_set_ne.
  - by rewrite bool_decide_false.
Qed.

Lemma tally_fold_NoDup vs acc :
  NoDup (PyDict.keys acc) → NoDup (PyDict.keys (fold_left count_vote vs acc)).
Proof.
  revert acc. induction vs as [|[v o] vs IH]; intros acc Hnd; [done|].
  cbn [fold_left]. apply IH. unfold count_vote. cbn [snd].
  destruct o; [by apply NoDup_keys_set | done].
Qed.

Lemma tally_get vs t :
  PyDict.get (tally_votes vs) t
  = if Nat.eqb (vote_count t vs) 0 then None else Some (vote_count t vs).
Proof.
  rewrite tally_votes_fold, tally_fold_get.
  by destruct (vote_count t vs).
Qed.

Lemma tally_NoDup vs : NoDup (PyDict.keys (tally_votes vs)).
Proof. rewrite tally_votes_fold. apply tally_fold_NoDup. constructor. Qed.

Lemma tally_elem_of vs t n :
  (t, n) ∈ tally_votes vs ↔ n = vote_count t vs ∧ 0 < n.
Proof.
  split.
  - intros Hin. apply (elem_of_get_NoDup _ _ _ (tally_NoDup vs)) in Hin.
    rewrite tally_get in Hin.
    destruct (Nat.eqb_spec (vote_count t vs) 0); [done|].
    injection Hin as <-. lia.
  - intros [-> Hpos]. apply get_Some_elem_of. rewrite tally_get.
    destruct (Nat.eqb_spec (vote_count t vs) 0); [lia | done].
Qed.

Lemma vote_count_pos vs t : 0 < vote_count t vs ↔ is_target t vs.
Proof.
  unfold vote_count, is_target. induction vs as [|[v o] vs IH]; simpl.
  - split; [lia | intros [v Hv]; by apply elem_of_nil in Hv].
  - case_bool_decide as Ho; simpl in *.
    + subst o. split; [intros _; exists v; left | lia].
    + rewrite IH. split.
      * intros [v' Hv']. exists v'. by right.
      * intros [v' Hv']. apply elem_of_cons in Hv' as [[= ]|Hv']; [done|].
        by exists v'.
Qed.

End tally.

Lemma list_max_elem_of (l : list nat) : l ≠ [] → list_max l ∈ l.
Proof.
  induction l as [|x l IH]; [done|]. intros _. cbn [list_max fold_right].
  fold (list_max l). destruct l as [|y l].
  - simpl. rewrite Nat.max_0_r. left.
  - destruct (Nat.max_spec x (list_max (y :: l))) as [[_ ->]|[_ ->]].
    + right. by apply IH.
    + left.
Qed.

Lemma list_max_ge (l : list nat) x : x ∈ l → x ≤ list_max l.
Proof.
  intros Hx. assert (H := proj1 (list_max_le l (list_max l)) (le_n _)).
  rewrite List.Forall_forall in H. apply H. by apply list_elem_of_In.
Qed.

Section candidates.
Import PyDict main Spec.
Implicit Types (vs : list (string * option string)) (t : string).

Lemma tally_nonempty vs :
  (∃ v t, (v, Some t) ∈ vs) → tally_votes vs ≠ [].
Proof.
  intros (v & t & Hin) Hnil.
  assert (Hpos : 0 < vote_count t vs) by (apply vote_count_pos; by exists v).
  assert (Ht : (t, vote_count t vs) ∈ tally_votes vs)
    by (by apply tally_elem_of).
  rewrite Hnil in Ht. by apply elem_of_nil in Ht.
Qed.

Lemma elem_of_candidates (vc : list (string * nat)) t :
  t ∈ candidates vc ↔ (t, list_max (PyDict.values vc)) ∈ vc.
Proof.
  unfold candidates. rewrite list_elem_of_fmap. split.
  - intros ([t' n] & -> & Hin). apply list_elem_of_In, filter_In in Hin.
    destruct Hin as [Hin Heq]. simpl in *.
    apply Nat.eqb_eq in Heq as ->. by apply list_elem_of_In.
  - intros Hin. exists (t, list_max (PyDict.values vc)). split; [done|].
    apply list_elem_of_In, filter_In. split; [by apply list_elem_of_In|].
    simpl. apply Nat.eqb_refl.
Qed.

Lemma filter_keys_NoDup {V : Type} (f : string * V → bool)
    (d : list (string * V)) :
  NoDup (map fst d) → NoDup (map fst (List.filter f d)).
Proof.
  induction d as [|[t n] d IH]; [done|].
  rewrite map_cons, NoDup_cons. intros [Hnot Hnd]. cbn [List.filter].
  destruct (f (t, n)); [|by apply IH].
  rewrite map_cons, NoDup_cons. split; [|by apply IH].
  intros Hin. apply Hnot. revert Hin. rewrite !list_elem_of_fmap.
  intros (y & Hy1 & Hy). exists y. split; [done|].
  apply list_elem_of_In. apply list_elem_of_In, filter_In in Hy. tauto.
Qed.

Lemma candidates_NoDup (vc : list (string * nat)) :
  NoDup (PyDict.keys vc) → NoDup (candidates vc).
Proof. apply filter_keys_NoDup. Qed.

Lemma candidates_most_voted vs t :
  tally_votes vs ≠ [] →
  t ∈ candidates (tally_votes vs) ↔ most_voted t vs.
Proof.
  intros Hne. rewrite elem_of_candidates, tally_elem_of.
  set (m := list_max (PyDict.values (tally_votes vs))).
  assert (Hle : ∀ t', vote_count t' vs ≤ m).
  { intros t'. destruct (vote_count t' vs) as [|k] eqn:Hk; [lia|].
    rewrite <- Hk. apply list_max_ge. unfold PyDict.values.
    apply list_elem_of_fmap. exists (t', vote_count t' vs). split; [done|].
    apply tally_elem_of. lia. }
  assert (Hm : ∃ t', m = vote_count t' vs ∧ 0 < m).
  { assert (Hin : m ∈ PyDict.values (tally_votes vs)).
    { apply list_max_elem_of. unfold PyDict.values.
      destruct (tally_votes vs); [done | discriminate]. }
    unfold PyDict.values in Hin. apply list_elem_of_fmap in Hin.
    destruct Hin as ([t' n] & Hn & Hin). simpl in Hn. subst n.
    exists t'. by apply tally_elem_of. }
  destruct Hm as (tm & Hm & Hpos). unfold most_voted. split.
  - intros [Heq _]. split; [apply vote_count_pos; lia|].
    intros t'. rewrite <- Heq. apply Hle.
  - intros [Htgt Hall]. apply vote_count_pos in Htgt.
    specialize (Hall tm). specialize (Hle t). lia.
Qed.

Lemma candidates_nonempty vs :
  tally_votes vs ≠ [] → candidates (tally_votes vs) ≠ [].
Proof.
  intros Hne Hnil.
  assert (Hin : list_max (PyDict.values (tally_votes vs))
                ∈ PyDict.values (tally_votes vs)).
  { apply list_max_elem_of. unfold PyDict.values.
    destruct (tally_votes vs); [done | discriminate]. }
  unfold PyDict.values in Hin. apply list_elem_of_fmap in Hin.
  destruct Hin as ([t n] & Hn & Hin). simpl in Hn. subst n.
  apply elem_of_candidates in Hin. rewrite Hnil in Hin.
  by apply elem_of_nil in Hin.
Qed.

Lemma elem_of_first_occurrences l t : t ∈ first_occurrences l ↔ t ∈ l.
Proof.
  induction l as [|x l IH]; [done|]. cbn [first_occurrences].
  rewrite !elem_of_cons, list_elem_of_In, filter_In, <- list_elem_of_In, IH.
  rewrite negb_true_iff, String.eqb_neq.
  destruct (decide (t = x)); tauto.
Qed.

Lemma first_occurrences_NoDup l : NoDup (first_occurrences l).
Proof.
  induction l as [|x l IH]; [constructor|]. cbn [first_occurrences].
  apply NoDup_cons. split.
  - rewrite list_elem_of_In, filter_In, negb_true_iff, String.eqb_neq. tauto.
  - apply NoDup_ListNoDup, List.NoDup_filter, NoDup_ListNoDup, IH.
Qed.

Lemma first_occurrences_snoc l t :
  first_occurrences (l ++ [t])
  = if bool_decide (t ∈ l) then first_occurrences l
    else first_occurrences l ++ [t].
Proof.
  induction l as [|x l IH]; [done|].
  cbn [app first_occurrences]. rewrite IH.
  destruct (decide (t = x)) as [->|Hne].
  - rewrite (bool_decide_true (x ∈ x :: l)) by left.
    case_bool_decide; [done|].
    rewrite List.filter_app. cbn [List.filter].
    rewrite String.eqb_refl. cbn [negb]. by rewrite app_nil_r.
  - case_bool_decide as Hin.
    + rewrite bool_decide_true by (by right). done.
    + rewrite bool_decide_false by (rewrite elem_of_cons; tauto).
      rewrite List.filter_app. cbn [List.filter].
      assert (String.eqb t x = false) as -> by (by apply String.eqb_neq).
      done.
Qed.

Lemma targets_snoc vs v o :
  targets (vs ++ [(v, o)])
  = targets vs ++ match o with Some t => [t] | None => [] end.
Proof. unfold targets. rewrite omap_app. by destruct o. Qed.

Lemma elem_of_targets vs t : t ∈ targets vs ↔ is_target t vs.
Proof.
  unfold targets, is_target. rewrite list_elem_of_omap. split.
  - intros ([v o] & Hin & Ho). simpl in Ho. subst o. by exists v.
  - intros [v Hv]. by exists (v, Some t).
Qed.

Lemma tally_votes_snoc vs kv :
  tally_votes (vs ++ [kv]) = count_vote (tally_votes vs) kv.
Proof. unfold tally_votes. by rewrite fold_left_app. Qed.

Lemma tally_keys vs :
  PyDict.keys (tally_votes vs) = first_occurrences (targets vs).
Proof.
  induction vs as [|[v o] vs IH] using rev_ind; [done|].
  rewrite tally_votes_snoc, targets_snoc. unfold count_vote. cbn [snd].
  destruct o as [t|]; [|by rewrite app_nil_r].
  rewrite keys_set, first_occurrences_snoc, IH.
  unfold PyDict.contains. rewrite tally_get.
  case_bool_decide as Hin.
  - apply elem_of_targets, vote_count_pos in Hin.
    by destruct (Nat.eqb_spec (vote_count t vs) 0); [lia|].
  - rewrite elem_of_targets, <- vote_count_pos in Hin.
    by destruct (Nat.eqb_spec (vote_count t vs) 0); [|lia].
Qed.

Lemma tally_items vs :
  tally_votes vs
  = map (fun t => (t, vote_count t vs)) (first_occurrences (targets vs)).
Proof.
  rewrite <- tally_keys. unfold PyDict.keys.
  assert (H : ∀ t n, (t, n) ∈ tally_votes vs → n = vote_count t vs).
  { intros t n Hin. by apply tally_elem_of in Hin as [-> _]. }
  induction (tally_votes vs) as [|[t n] d IH]; [done|].
  cbn [map fst]. rewrite <- IH.
  - f_equal. f_equal. apply H. left.
  - intros t' n' Hin. apply H. by right.
Qed.

Lemma list_max_ext (l1 l2 : list nat) :
  (∀ x, x ∈ l1 → x ∈ l2) → list_max l1 ≤ list_max l2.
Proof.
  intros H. apply list_max_le, List.Forall_forall. intros x Hx.
  apply list_max_ge, H. by apply list_elem_of_In.
Qed.

Lemma max_vote_count_first vs :
  list_max (map (fun t => vote_count t vs) (first_occurrences (targets vs)))
  = max_vote_count vs.
Proof.
  unfold max_vote_count. apply Nat.le_antisymm; apply list_max_ext;
    intros n; rewrite !list_elem_of_fmap; intros (t & -> & Ht); exists t;
    (split; [done|]); by apply elem_of_first_occurrences.
Qed.

(** The list [candidates] of [complete_voting] holds the targets tied for
    the greatest count in the order in which the votes first name them. *)
Lemma candidates_tied_targets vs :
  candidates (tally_votes vs) = tied_targets vs.
Proof.
  unfold candidates, tied_targets, PyDict.values.
  rewrite tally_items. rewrite map_map. cbn [snd].
  rewrite max_vote_count_first.
  induction (first_occurrences (targets vs)) as [|t l IH]; [done|].
  cbn [map List.filter snd]. destruct (Nat.eqb _ _); cbn [map fst]; by rewrite IH.
Qed.

(** What [select_suspect] returns when some vote has a target and no
    target is the empty string: the draw indexes the list of the tied
    targets. *)
Lemma select_suspect_most_voted (st : GameState) (g : PyRandom.rng) :
  (∃ v t, (v, Some t) ∈ votes st) →
  (∀ v, (v, Some "") ∉ votes st) →
  ∃ s,
    NoDup (tied_targets (votes st)) ∧
    (∀ t, t ∈ tied_targets (votes st) ↔ most_voted t (votes st)) ∧
    tied_targets (votes st)
      !! N.to_nat (g 0 mod N.of_nat (length (tied_targets (votes st))))
    = Some s ∧
    (select_suspect st g).1.1.1 = Some s ∧
    (select_suspect st g).1.1.2 = role_of s (players st) ∧
    (select_suspect st g).1.2 = tally_votes (votes st).
Proof.
  intros Hsome Hempty.
  assert (Hne := tally_nonempty _ Hsome).
  assert (Hcne := candidates_nonempty _ Hne).
  assert (Hnd := candidates_NoDup _ (tally_NoDup (votes st))).
  assert (Hmv := fun t => candidates_most_voted (votes st) t Hne).
  rewrite <- candidates_tied_targets.
  unfold select_suspect. fold (candidates (tally_votes (votes st))).
  destruct (tally_votes (votes st)) as [|kv vc] eqn:Hvc; [done|].
  rewrite <- Hvc in *. clear Hvc kv vc.
  set (tied := candidates (tally_votes (votes st))) in *.
  assert (Hpick : ∃ s g1,
    tied !! N.to_nat (g 0 mod N.of_nat (length tied)) = Some s ∧
    match tied with
    | [] => (None, g)
    | [x] => (Some x, g)
    | x :: (_ :: _) as l => let '(a, g1) := PyRandom.pick x l g in (Some a, g1)
    end = (Some s, g1)).
  { destruct tied as [|x [|y l]] eqn:Ht; [done| |].
    - exists x, g. split; [|done]. simpl. by rewrite N.mod_1_r.
    - exists (PyRandom.pick x (y :: l) g).1, (PyRandom.pick x (y :: l) g).2.
      split; [apply pick_lookup|]. by destruct (PyRandom.pick x (y :: l) g). }
  destruct Hpick as (s & g1 & Hlook & ->).
  assert (Hnot : not_ (Some s) = false).
  { assert (Hs : s ∈ tied) by (eapply list_elem_of_lookup_2; done).
    apply Hmv in Hs as [[v Hv] _].
    assert (s ≠ "") by (intros ->; by apply (Hempty v)).
    unfold not_. by apply String.eqb_neq. }
  exists s. rewrite Hnot. by split_and!.
Qed.

End candidates.

(** * Resolution of the vote: [complete_voting] *)

Section resolution.
Import PyDict PyRandom main Spec.

(** The registry after a resolution that found the room in the voting
    phase, field by field. *)
Lemma complete_voting_commits rc now g rooms room :
  rooms !! rc = Some room →
  phase (state room) = VOTING →
  ∃ st',
    state_of (complete_voting rc now g rooms).1.1 rc = Some st' ∧
    selected_suspect st' = (select_suspect (state room) g).1.1.1 ∧
    suspect_role st' = (select_suspect (state room) g).1.1.2 ∧
    winner st' = Some (winning_side (suspect_role st')) ∧
    phase st' = GAME_OVER ∧
    votes st' = votes (state room) ∧
    players st' = players (state room) ∧
    chat_history st' = chat_history (state room).
Proof.
  intros Hroom Hphase. unfold complete_voting, state_of.
  rewrite Hroom. rewrite bool_decide_false by (rewrite Hphase; auto).
  destruct (select_suspect (state room) g) as [[[s r] vc] g'].
  cbn [game_over_node fst snd]. rewrite lookup_insert_eq.
  cbn [fmap option_fmap option_map].
  eexists. split; [reflexivity|]. cbn.
  split_and!; try done.
  f_equal. destruct r as [[]|]; done.
Qed.

(** C1 (amended): when some vote names a target and no vote names the
    empty string, the resolution of a room in the voting phase selects a
    target with the greatest number of votes.  The targets tied for the
    greatest number, each once and in the order in which the votes first
    name them, form the list from which the suspect is taken: the suspect
    is the element at the position that the random draw gives, the draw
    modulo the length of the list (the single maximiser when the list has
    one element).  The human side wins when the role of the suspect is
    agent, the agent side otherwise. *)
Theorem complete_voting_selects_most_voted rc now g rooms room :
  rooms !! rc = Some room →
  phase (state room) = VOTING →
  (∃ v t, (v, Some t) ∈ votes (state room)) →
  (∀ v, (v, Some "") ∉ votes (state room)) →
  ∃ st' s,
    state_of (complete_voting rc now g rooms).1.1 rc = Some st' ∧
    NoDup (tied_targets (votes (state room))) ∧
    (∀ t, t ∈ tied_targets (votes (state room))
          ↔ most_voted t (votes (state room))) ∧
    tied_targets (votes (state room))
      !! N.to_nat
           (g 0 mod N.of_nat (length (tied_targets (votes (state room)))))
    = Some s ∧
    selected_suspect st' = Some s ∧
    most_voted s (votes (state room)) ∧
    suspect_role st' = role_of s (players (state room)) ∧
    winner st' = Some (winning_side (suspect_role st')) ∧
    phase st' = GAME_OVER.
Proof.
  intros Hroom Hphase Hsome Hempty.
  destruct (complete_voting_commits rc now g rooms room Hroom Hphase)
    as (st' & Hst & Hsus & Hrole & Hwin & Hover & _).
  destruct (select_suspect_most_voted (state room) g Hsome Hempty)
    as (s & Hnd & Htied & Hlook & Hsel & Hr & _).
  exists st', s. split_and!; try done.
  - by rewrite Hsus.
  - apply Htied. by eapply list_elem_of_lookup_2.
  - by rewrite Hrole.
Qed.

End resolution.

Section examples.
Import PyDict PyRandom main Spec Examples.

(** Two targets are tied and the draw is 1: the suspect is the second of
    them in the order of the votes. *)
Lemma complete_voting_selects_most_voted_witness :
  tied_targets tie_votes = ["Player 2"; "Player 3"] ∧
  N.to_nat (tape_one 0 mod N.of_nat (length (tied_targets tie_votes))) = 1 ∧
  selected_suspect
    <$> state_of
          (complete_voting "ROOM01" 0%Q tape_one
             {[ "ROOM01" := scenario_room tie_votes ]}).1.1 "ROOM01"
  = Some (Some "Player 3") ∧
  ∃ st' s,
    state_of
      (complete_voting "ROOM01" 0%Q tape_one
         {[ "ROOM01" := scenario_room tie_votes ]}).1.1 "ROOM01"
    = Some st' ∧
    NoDup (tied_targets tie_votes) ∧
    (∀ t, t ∈ tied_targets tie_votes ↔ most_voted t tie_votes) ∧
    tied_targets tie_votes
      !! N.to_nat (tape_one 0 mod N.of_nat (length (tied_targets tie_votes)))
    = Some s ∧
    selected_suspect st' = Some s ∧
    most_voted s tie_votes ∧
    suspect_role st' = role_of s (players (scenario_state tie_votes)) ∧
    winner st' = Some (winning_side (suspect_role st')) ∧
    phase st' = GAME_OVER.
Proof.
  split; [reflexivity|]. split; [reflexivity|]. split; [reflexivity|].
  apply (complete_voting_selects_most_voted "ROOM01" 0%Q tape_one
           {[ "ROOM01" := scenario_room tie_votes ]}
           (scenario_room tie_votes)).
  - reflexivity.
  - reflexivity.
  - exists "Player 1", "Player 2". left.
  - intros v Hin. repeat (apply elem_of_cons in Hin as [Hin|Hin]; [discriminate|]).
    by apply elem_of_nil in Hin.
Defined.

(** C1, as stated, fails: a vote without a target, or with the empty
    string as target, makes the mapping non-empty, and the suspect is an
    agent that nobody voted for. *)
Lemma complete_voting_null_target_counterexample :
  let suspect_for vs :=
    selected_suspect
      <$> state_of
            (complete_voting "ROOM01" 0%Q tape_zero
               {[ "ROOM01" := scenario_room vs ]}).1.1 "ROOM01" in
  [("Player 4", @None string)] ≠ [] ∧
  phase (scenario_state [("Player 4", None)]) = VOTING ∧
  suspect_for [("Player 4", None)] = Some (Some "Player 1") ∧
  vote_count "Player 1" [("Player 4", None)] = 0 ∧
  suspect_for [("Player 4", Some "")] = Some (Some "Player 1") ∧
  vote_count "Player 1" [("Player 4", Some "")] = 0 ∧
  vote_count "" [("Player 4", Some "")] = 1.
Proof. by split_and!. Qed.

End examples.

Section idempotence.
Import PyDict PyRandom main Spec.




End idempotence.

Section idempotence_examples.
Import PyDict PyRandom main Spec Examples.


End idempotence_examples.

(** * Resolution without votes *)

Section fallback.
Import PyDict PyRandom main Spec.

Lemma select_suspect_no_votes (st : GameState) (g : rng) x l :
  votes st = [] →
  agent_ids st = x :: l →
  (select_suspect st g).1.1.1 = Some (pick x l g).1.
Proof.
  intros Hvotes Hagents. unfold select_suspect. rewrite Hvotes.
  cbn [tally_votes fold_left not_]. fold (agent_ids st). rewrite Hagents.
  by destruct (pick x l g).
Qed.

(** C5 (amended): when the votes mapping is empty and the session has at
    least one agent, the resolution of a room in the voting phase produces
    a suspect: the agent at the position that the random draw gives in the
    list of the agents of the session.  When no agent is marked eliminated
    this list is the list of the non-eliminated agents. *)
Theorem complete_voting_without_votes_picks_agent rc now g rooms room :
  rooms !! rc = Some room →
  phase (state room) = VOTING →
  votes (state room) = [] →
  agent_ids (state room) ≠ [] →
  ∃ st' s,
    state_of (complete_voting rc now g rooms).1.1 rc = Some st' ∧
    selected_suspect st' = Some s ∧
    agent_ids (state room)
      !! N.to_nat (g 0 mod N.of_nat (length (agent_ids (state room))))
    = Some s ∧
    ((∀ p, p ∈ players (state room) → role p = ai → eliminated p = false) →
     agent_ids (state room) = active_ais (state room)) ∧
    phase st' = GAME_OVER.
Proof.
  intros Hroom Hphase Hvotes Hagents.
  destruct (complete_voting_commits rc now g rooms room Hroom Hphase)
    as (st' & Hst & Hsus & _ & _ & Hover & _).
  destruct (agent_ids (state room)) as [|x l] eqn:Hids; [done|].
  exists st', (pick x l g).1. split_and!; try done.
  - rewrite Hsus. by apply select_suspect_no_votes.
  - apply pick_lookup.
  - intros Hlive. rewrite <- Hids. unfold agent_ids, active_ais. f_equal.
    apply filter_ext_in. intros p Hp. apply list_elem_of_In in Hp.
    case_bool_decide as Hr; [|done]. by rewrite (Hlive p Hp Hr).
Qed.

End fallback.

Section fallback_examples.
Import PyDict PyRandom main Spec Examples.

Lemma complete_voting_without_votes_picks_agent_witness :
  ∃ st' s,
    state_of
      (complete_voting "ROOM01" 0%Q tape_zero
         {[ "ROOM01" := scenario_room [] ]}).1.1 "ROOM01" = Some st' ∧
    selected_suspect st' = Some s ∧
    agent_ids (scenario_state [])
      !! N.to_nat
           (tape_zero 0 mod N.of_nat (length (agent_ids (scenario_state []))))
    = Some s ∧
    ((∀ p, p ∈ players (scenario_state []) → role p = ai
           → eliminated p = false) →
     agent_ids (scenario_state []) = active_ais (scenario_state [])) ∧
    phase st' = GAME_OVER.
Proof.
  apply (complete_voting_without_votes_picks_agent "ROOM01" 0%Q tape_zero
           {[ "ROOM01" := scenario_room [] ]} (scenario_room []));
    [reflexivity | reflexivity | reflexivity | discriminate].
Defined.

(** C5, as stated, fails: in a session without agents the resolution of an
    empty vote leaves the suspect undefined. *)
Lemma complete_voting_no_agent_counterexample :
  let rooms := {[ "ROOM02" := humans_only_room ]} in
  votes (state humans_only_room) = [] ∧
  phase (state humans_only_room) = VOTING ∧
  (selected_suspect
     <$> state_of (complete_voting "ROOM02" 0%Q tape_zero rooms).1.1 "ROOM02")
  = Some None ∧
  (phase
     <$> state_of (complete_voting "ROOM02" 0%Q tape_zero rooms).1.1 "ROOM02")
  = Some GAME_OVER.
Proof. by split_and!. Qed.

End fallback_examples.

(** * Completion detection *)

Section completion.
Import PyDict PyRandom main Spec.


Lemma complete_voting_phase rc now g rooms room :
  rooms !! rc = Some room →
  phase (state room) = VOTING →
  phase <$> state_of (complete_voting rc now g rooms).1.1 rc = Some GAME_OVER.
Proof.
  intros Hroom Hphase.
  destruct (complete_voting_commits rc now g rooms room Hroom Hphase)
    as (st' & -> & _ & _ & _ & Hover & _).
  simpl. by rewrite Hover.
Qed.





End completion.

Section completion_examples.
Import PyDict PyRandom main Spec Examples.


End completion_examples.

(** * The turn of an agent *)

Section agent_turn.
Import PyDict PyRandom main Spec.

Lemma state_of_finally rc ai rooms rc' :
  state_of (single_ai_finally rc ai rooms) rc' = state_of rooms rc'.
Proof.
  unfold single_ai_finally, state_of.
  destruct (rooms !! rc) as [room|] eqn:Hroom; [|done].
  destruct (decide (rc = rc')) as [<-|Hne].
  - by rewrite lookup_insert_eq, Hroom.
  - by rewrite lookup_insert_ne.
Qed.

Lemma chat_of_finally rc ai rooms rc' :
  chat_of (single_ai_finally rc ai rooms) rc' = chat_of rooms rc'.
Proof. unfold chat_of. by rewrite state_of_finally. Qed.

Lemma finally_not_in_flight rc ai rooms :
  ¬ in_flight (single_ai_finally rc ai rooms) rc ai.
Proof.
  unfold single_ai_finally, in_flight. intros (room & Hroom & Hin).
  destruct (rooms !! rc) as [room0|] eqn:Hroom0; [|congruence].
  rewrite lookup_insert_eq in Hroom. injection Hroom as <-.
  cbn in Hin. apply elem_of_difference in Hin as [_ Hnot].
  apply Hnot. by apply elem_of_singleton.
Qed.

Lemma no_typing_speaks rc ai a b :
  ¬ speaks rc ai [EBroadcast rc (BTyping a true) None;
                  EBroadcast rc (BTyping b false) None].
Proof.
  intros (m & excl & Hin).
  apply elem_of_cons in Hin as [Heq|Hin']; [discriminate|].
  apply list_elem_of_singleton in Hin'. discriminate.
Qed.

Lemma nil_not_speaks rc ai : ¬ speaks rc ai [].
Proof. intros (m & excl & Hin). by apply elem_of_nil in Hin. Qed.

(** Defense layers 1 and 2: the phase has left the discussion when the
    node returns. *)
Lemma single_ai_generated_aborts rc ai result rooms room :
  rooms !! rc = Some room →
  phase (state room) ≠ DISCUSSION →
  ∃ rooms',
    single_ai_generated rc ai result rooms = Returned rooms' [] ∧
    chat_of rooms' rc = chat_of rooms rc ∧
    ¬ in_flight rooms' rc ai.
Proof.
  intros Hroom Hphase. unfold single_ai_generated.
  destruct result as [[res|]|e].
  - rewrite Hroom. rewrite bool_decide_true by done.
    eexists. split; [reflexivity|]. split; [|apply finally_not_in_flight].
    rewrite chat_of_finally. unfold chat_of, state_of.
    by rewrite lookup_insert_eq, Hroom.
  - eexists. split; [reflexivity|].
    split; [apply chat_of_finally | apply finally_not_in_flight].
  - eexists. split; [reflexivity|].
    split; [apply chat_of_finally | apply finally_not_in_flight].
Qed.

(** Defense layer 3: the phase has left the discussion when the typing
    delay ends. *)
Lemma single_ai_delayed_aborts rc ai res rooms room :
  rooms !! rc = Some room →
  phase (state room) ≠ DISCUSSION →
  single_ai_delayed rc ai res rooms
  = Awaiting TypingCancelled rooms
      [EBroadcast rc (BTyping (res_ai_sender res) false) None].
Proof.
  intros Hroom Hphase. unfold single_ai_delayed.
  rewrite Hroom. by rewrite bool_decide_true.
Qed.

(** The begin segment of a turn in flight hands the state to the node and
    leaves the registry alone. *)
Lemma single_ai_begin_pending rc ai rooms room :
  rooms !! rc = Some room →
  ai ∈ pending_ai_messages (state room) →
  single_ai_begin rc ai rooms = Awaiting (state room) rooms [].
Proof.
  intros Hroom Hpending. unfold single_ai_begin.
  rewrite Hroom. by rewrite bool_decide_true.
Qed.

(** C2: a turn in flight aborts when a phase guard finds the session out of
    the discussion phase.  At defense layers 1 and 2 (after the generation,
    before the typing indicator and the delay): the chat log is the one the
    other tasks left, nothing was handed to the transport, and the agent is
    no longer marked as in flight.  At defense layer 3 (after the delay,
    before the append): the chat log is the one the other tasks left, no
    chat message of the agent was handed to the transport, and the agent is
    no longer marked as in flight. *)
Theorem stale_turn_aborts rc ai llm t_msg t_last g env rooms room :
  rooms !! rc = Some room →
  ai ∈ pending_ai_messages (state room) →
  let out := process_single_ai_message rc ai llm t_msg t_last g env rooms in
  let r1 := while_generating env rooms in
  let r2 := while_typing env r1 in
  let r3 := while_closing env r2 in
  (∀ room1,
     r1 !! rc = Some room1 → phase (state room1) ≠ DISCUSSION →
     chat_of out.1.1 rc = chat_of r1 rc ∧
     out.1.2 = [] ∧
     ¬ in_flight out.1.1 rc ai) ∧
  (∀ res room1 room2,
     (ai_chat_agent_node (state room) (Some ai) llm t_msg t_last g).1
     = Ok (Some res) →
     r1 !! rc = Some room1 → phase (state room1) = DISCUSSION →
     r2 !! rc = Some room2 → phase (state room2) ≠ DISCUSSION →
     chat_of out.1.1 rc = chat_of r3 rc ∧
     ¬ speaks rc ai out.1.2 ∧
     ¬ in_flight out.1.1 rc ai).
Proof.
  intros Hroom Hpending out r1 r2 r3. subst out.
  unfold process_single_ai_message.
  rewrite (single_ai_begin_pending rc ai rooms room Hroom Hpending).
  destruct (ai_chat_agent_node (state room) (Some ai) llm t_msg t_last g)
    as [result g'].
  fold r1. split.
  - intros room1 Hroom1 Hphase1.
    destruct (single_ai_generated_aborts rc ai result r1 room1 Hroom1 Hphase1)
      as (rooms' & -> & Hchat & Hflight).
    by cbn [fst snd app].
  - intros res room1 room2 Hres Hroom1 Hphase1 Hroom2 Hphase2.
    cbn [fst] in Hres. subst result.
    unfold single_ai_generated.
    rewrite Hroom1. rewrite !bool_decide_false by (by intros []).
    fold r2.
    rewrite (single_ai_delayed_aborts rc ai res r2 room2 Hroom2 Hphase2).
    fold r3. cbn [single_ai_wrapup fst snd app].
    split_and!;
      [apply chat_of_finally | apply no_typing_speaks
      | apply finally_not_in_flight].
Qed.

End agent_turn.

Section agent_turn_examples.
Import PyDict PyRandom main Spec Examples.

(** The scenario of the design document: the discussion timer fires while
    the turn of an agent is in flight.  Afterwards the phase is the voting
    phase, the chat log is empty and the agent is not marked in flight. *)
Lemma stale_turn_aborts_witness :
  let out :=
    process_single_ai_message "ROOM01" "Player 1" (llm_says "late message")
      1%Q 1%Q tape_zero timer_fires_while_generating
      {[ "ROOM01" := discussing_room ]} in
  chat_of out.1.1 "ROOM01" = Some [] ∧
  phase <$> state_of out.1.1 "ROOM01" = Some VOTING ∧
  out.1.2 = [] ∧
  ¬ in_flight out.1.1 "ROOM01" "Player 1".
Proof.
  edestruct (proj1 (stale_turn_aborts "ROOM01" "Player 1"
                      (llm_says "late message") 1%Q 1%Q tape_zero
                      timer_fires_while_generating
                      {[ "ROOM01" := discussing_room ]} discussing_room
                      (lookup_singleton_eq _ _)
                      (list_elem_of_here _ _)))
    as (Hchat & Hevs & Hflight).
  - reflexivity.
  - discriminate.
  - split_and!; [ | reflexivity | exact Hevs | exact Hflight].
    rewrite Hchat. reflexivity.
Defined.

(** The timer fires during the typing delay instead: the typing indicator
    is started and cancelled, and nothing is appended. *)
Example stale_turn_aborts_after_typing :
  let out :=
    process_single_ai_message "ROOM01" "Player 1" (llm_says "late message")
      1%Q 1%Q tape_zero timer_fires_while_typing
      {[ "ROOM01" := discussing_room ]} in
  chat_of out.1.1 "ROOM01" = Some [] ∧
  phase <$> state_of out.1.1 "ROOM01" = Some VOTING ∧
  out.1.2 = [ EBroadcast "ROOM01" (BTyping "Player 1" true) None;
              EBroadcast "ROOM01" (BTyping "Player 1" false) None ] ∧
  ai_processing_agents <$> out.1.1 !! "ROOM01" = Some ∅.
Proof. by split_and!. Qed.

(** Without interference the message is appended and announced, and a new
    engagement wave is scheduled without the speaker. *)
Example turn_commits_in_discussion :
  let out :=
    process_single_ai_message "ROOM01" "Player 1" (llm_says "hello there")
      1%Q 1%Q tape_zero
      (mkInterleaving (fun r => r) (fun r => r) (fun r => r))
      {[ "ROOM01" := discussing_room ]} in
  chat_of out.1.1 "ROOM01" = Some [mkChat "Player 1" "hello there" 1%Q] ∧
  out.1.2 = [ EBroadcast "ROOM01" (BTyping "Player 1" true) None;
              EBroadcast "ROOM01" (BMessage "Player 1" "hello there") None;
              EBroadcast "ROOM01" (BTyping "Player 1" false) None;
              ECreateTask (TriggerAgentDecisions "ROOM01" ["Player 1"]) ] ∧
  ai_processing_agents <$> out.1.1 !! "ROOM01" = Some ∅.
Proof. by split_and!. Qed.

End agent_turn_examples.

(** * One vote per voter *)

Section single_vote.
Import PyDict PyRandom main Spec.

(** The REST endpoint rejects a second vote of a voter and changes
    nothing. *)
Lemma cast_vote_rejects_second_vote rc vote_data now g rooms room first :
  rooms !! rc = Some room →
  phase (state room) = VOTING →
  PyDict.get (votes (state room))
    (default "StreamlitUser" (vd_player_id vote_data)) = Some first →
  cast_vote rc vote_data now g rooms = (AlreadyVoted, rooms, [], g).
Proof.
  intros Hroom Hphase Hfirst. unfold cast_vote. rewrite Hroom.
  rewrite bool_decide_false by (rewrite Hphase; auto).
  unfold PyDict.contains. by rewrite Hfirst.
Qed.

(** [process_human_vote] writes the target whatever the mapping holds. *)
Lemma process_human_vote_overwrites st player_id voted_for :
  PyDict.get (votes (process_human_vote st player_id voted_for)) player_id
  = Some voted_for.
Proof. unfold process_human_vote. cbn. apply get_set_eq. Qed.

End single_vote.

Section single_vote_examples.
Import PyDict PyRandom main Spec Examples.

Lemma cast_vote_rejects_second_vote_witness :
  cast_vote "ROOM01" (mkVoteData (Some "Player 4") (Some "Player 2")) 0%Q
    tape_zero {[ "ROOM01" := human_voted_room ]}
  = (AlreadyVoted, {[ "ROOM01" := human_voted_room ]}, [], tape_zero).
Proof.
  apply (cast_vote_rejects_second_vote "ROOM01" _ 0%Q tape_zero _
           human_voted_room (Some "Player 1"));
    [apply lookup_singleton_eq | reflexivity | reflexivity].
Defined.

(** C4 at the failing input: the human of the scenario has voted for the
    first agent and sends a second vote over the WebSocket; the entry is
    overwritten, and the vote is announced again. *)
Theorem websocket_vote_overwrites_first_vote :
  let out :=
    websocket_vote "ROOM01" "Player 4" (Some "Player 2") 0%Q tape_zero
      {[ "ROOM01" := human_voted_room ]} in
  votes (state human_voted_room) = [("Player 4", Some "Player 1")] ∧
  votes <$> state_of out.1.1 "ROOM01" = Some [("Player 4", Some "Player 2")] ∧
  out.1.2 = [EBroadcast "ROOM01" (BVoted "Player 4") None].
Proof. by split_and!. Qed.

End single_vote_examples.

(** * The decision to respond *)

Section decision.
Import PyDict PyRandom main Spec.

(** [random.random() < 0.3] in terms of the raw draw: 2702159776422298 of
    the 2^53 values of the draw are below the double 0.3. *)
Lemma lt_0_3_random g :
  lt_0_3 (random_random g).1
  = (g 0%nat mod 2 ^ 53 <=? 2702159776422297)%N.
Proof.
  unfold random_random, lt_0_3, Qle_bool. cbn [fst Qnum Qden].
  set (k := (g 0%nat mod 2 ^ 53)%N).
  change (Z.pos (2 ^ 53)) with 9007199254740992%Z.
  change (Z.pos (2 ^ 54)) with 18014398509481984%Z.
  destruct (N.leb_spec k 2702159776422297) as [Hle|Hgt].
  - apply negb_true_iff, Z.leb_gt. lia.
  - apply negb_false_iff, Z.leb_le. lia.
Qed.

Lemma should_respond_fallback st ai llm g :
  is_Some (PyDict.get (ai_personalities st) ai) →
  decision_call_fails (llm 0) →
  _should_agent_respond st ai llm g
  = (Ok (JBool (lt_0_3 (random_random g).1)), advance g).
Proof.
  intros [pers Hpers] Hfails. unfold _should_agent_respond. rewrite Hpers.
  destruct (llm 0) as [e|content [[| | | | |fields]|]]; try done.
Qed.

(** C8 (amended): when the decision call raises or returns a text that is
    not a JSON object, the decision is drawn at random: the agent responds
    exactly when a draw of [random.random()] is below 0.3, that is for
    2702159776422298 of the 2^53 values of the draw, and this is the
    decision that the engagement wave acts on.  The decision is false
    without a draw only when the reply is a JSON object that has no key
    [should_respond]. *)
Theorem decision_failure_is_random st ai llm g :
  is_Some (PyDict.get (ai_personalities st) ai) →
  (decision_call_fails (llm 0) →
   _should_agent_respond st ai llm g
   = (Ok (JBool (lt_0_3 (random_random g).1)), advance g) ∧
   (lt_0_3 (random_random g).1 = true
    ↔ (g 0%nat mod 2 ^ 53 ≤ 2702159776422297)%N) ∧
   (decide_responders st [ai] (fun _ => llm) g).1
   = if lt_0_3 (random_random g).1 then [ai] else []) ∧
  (∀ content fields,
     llm 0 = LlmReplies content (Some (JObj fields)) →
     PyDict.get fields "should_respond" = None →
     _should_agent_respond st ai llm g = (Ok (JBool false), g)).
Proof.
  intros Hpers. split.
  - intros Hfails.
    assert (Hfb := should_respond_fallback st ai llm g Hpers Hfails).
    split_and!; [done | |].
    + rewrite lt_0_3_random. apply N.leb_le.
    + cbn [decide_responders]. rewrite Hfb. cbn [fst truthy].
      by destruct (lt_0_3 _).
  - intros content fields Hreply Hkey. destruct Hpers as [pers Hpers].
    unfold _should_agent_respond. rewrite Hpers, Hreply.
    cbn [json_get]. by rewrite Hkey.
Qed.

End decision.

Section decision_examples.
Import PyDict PyRandom main Spec Examples.

Lemma decision_failure_is_random_witness :
  _should_agent_respond (scenario_state []) "Player 1"
    (llm_says "I think so") (fun _ => 2702159776422298%N)
  = (Ok (JBool false), advance (fun _ => 2702159776422298%N)).
Proof.
  destruct (proj1 (decision_failure_is_random (scenario_state []) "Player 1"
                     (llm_says "I think so") (fun _ => 2702159776422298%N)
                     (ex_intro _ (Some "inquisitive") eq_refl)) I)
    as (Hdecision & _ & _).
  exact Hdecision.
Defined.

(** C8, as stated, fails: the decision call raises, or returns a text that
    is not JSON, and with a random draw of zero the agent responds. *)
Lemma decision_failure_counterexample :
  let st := scenario_state [] in
  decision_call_fails (llm_raises OtherError 0) ∧
  decision_call_fails (llm_says "I think so" 0) ∧
  (_should_agent_respond st "Player 1" (llm_raises OtherError) tape_zero).1
  = Ok (JBool true) ∧
  (_should_agent_respond st "Player 1" (llm_says "I think so") tape_zero).1
  = Ok (JBool true) ∧
  (decide_responders st ["Player 1"] (fun _ => llm_raises OtherError)
     tape_zero).1 = ["Player 1"].
Proof. by split_and!. Qed.

End decision_examples.

(** * The vote of an agent *)

Section agent_vote.
Import PyDict PyRandom main Spec.

Lemma elem_of_eligible_targets st ai t :
  t ∈ eligible_targets st ai ↔ eligible st ai t.
Proof.
  unfold eligible_targets, eligible. rewrite list_elem_of_fmap. split.
  - intros (p & -> & Hp). apply list_elem_of_In, filter_In in Hp.
    destruct Hp as [Hp Hcond]. apply andb_true_iff in Hcond as [He Hne].
    exists p. split_and!; [by apply list_elem_of_In | done | |].
    + by destruct (eliminated p).
    + apply negb_true_iff in Hne. by apply String.eqb_neq.
  - intros (p & Hp & <- & He & Hne). exists p. split; [done|].
    apply list_elem_of_In, filter_In. split; [by apply list_elem_of_In|].
    rewrite He. simpl. apply negb_true_iff. by apply String.eqb_neq.
Qed.

Lemma vote_attempt_returned targets reply t :
  vote_attempt targets reply = Ok (Some t) → t ∈ targets.
Proof.
  unfold vote_attempt.
  destruct reply as [e|content [[| | | | |fields]|]]; cbn [json_get];
    try (destruct (vote_except_catches _); discriminate); try discriminate.
  destruct (PyDict.get fields "vote") as [[| | |s| |]|]; try discriminate.
  case_bool_decide; [|discriminate]. by intros [= <-].
Qed.

Lemma vote_attempt_handled targets reply :
  vote_reply_handled reply → ∃ o, vote_attempt targets reply = Ok o.
Proof.
  unfold vote_attempt, vote_reply_handled.
  destruct reply as [e|content [[| | | | |fields]|]]; cbn [json_get];
    try done.
  - intros ->. by eexists.
  - intros _. destruct (PyDict.get fields "vote") as [[| | |s| |]|];
      try by eexists.
    case_bool_decide; by eexists.
  - intros _. by eexists.
Qed.

Lemma vote_attempts_calls n targets llm :
  (vote_attempts n targets llm).2 ≤ n.
Proof.
  revert llm. induction n as [|n IH]; intros llm; [done|].
  cbn [vote_attempts].
  destruct (vote_attempt targets (llm 0)) as [[t|]|e]; cbn [snd]; try lia.
  specialize (IH (llm_advance 1 llm)).
  destruct (vote_attempts n targets (llm_advance 1 llm)). cbn [snd] in *. lia.
Qed.

Lemma vote_attempts_returned n targets llm t :
  (vote_attempts n targets llm).1 = Ok (Some t) → t ∈ targets.
Proof.
  revert llm. induction n as [|n IH]; intros llm; [done|].
  cbn [vote_attempts].
  destruct (vote_attempt targets (llm 0)) as [[t'|]|e] eqn:Hattempt;
    cbn [fst]; try discriminate.
  - intros [= <-]. by apply vote_attempt_returned in Hattempt.
  - specialize (IH (llm_advance 1 llm)).
    by destruct (vote_attempts n targets (llm_advance 1 llm)).
Qed.

Lemma vote_attempts_handled n targets llm :
  (∀ k, k < n → vote_reply_handled (llm k)) →
  ∃ o, (vote_attempts n targets llm).1 = Ok o.
Proof.
  revert llm. induction n as [|n IH]; intros llm Hall; [by eexists|].
  cbn [vote_attempts].
  destruct (vote_attempt_handled targets (llm 0)) as [[t|] ->];
    [apply Hall; lia | by eexists |].
  destruct (IH (llm_advance 1 llm)) as [o Ho].
  { intros k Hk. unfold llm_advance. apply Hall. lia. }
  destruct (vote_attempts n targets (llm_advance 1 llm)). by exists o.
Qed.

Lemma vote_attempts_exhausted n targets llm :
  (∀ k, k < n → vote_attempt targets (llm k) = Ok None) →
  vote_attempts n targets llm = (Ok None, n).
Proof.
  revert llm. induction n as [|n IH]; intros llm Hall; [done|].
  cbn [vote_attempts]. rewrite (Hall 0) by lia.
  rewrite IH; [done|]. intros k Hk. unfold llm_advance. apply Hall. lia.
Qed.

(** Vote generation on the replies that its retry loop handles: the model
    is invoked at most three times; a target that is returned is a
    non-eliminated player other than the voter; when every reply is of a
    handled kind a target is returned; and when none of the three attempts
    yields the name of an eligible target the result is the random choice
    among the eligible targets. *)
Theorem generate_ai_vote_bounded_and_eligible st ai llm g :
  eligible_targets st ai ≠ [] →
  let out := _generate_ai_vote st ai llm g in
  out.1.2 ≤ 3 ∧
  (∀ t, out.1.1 = Ok t → eligible st ai t) ∧
  ((∀ k, k < 3 → vote_reply_handled (llm k)) →
   ∃ t, out.1.1 = Ok t ∧ eligible st ai t) ∧
  ((∀ k, k < 3 → vote_attempt (eligible_targets st ai) (llm k) = Ok None) →
   out.1.2 = 3 ∧
   out.1.1 = (choice (eligible_targets st ai) g).1 ∧
   ∃ t, eligible_targets st ai
          !! N.to_nat (g 0 mod N.of_nat (length (eligible_targets st ai)))
        = Some t ∧ out.1.1 = Ok t).
Proof.
  intros Hne out.
  assert (Hcalls := vote_attempts_calls 3 (eligible_targets st ai) llm).
  assert (Hret := vote_attempts_returned 3 (eligible_targets st ai) llm).
  assert (Hchoice : ∃ t,
    eligible_targets st ai
      !! N.to_nat (g 0 mod N.of_nat (length (eligible_targets st ai)))
    = Some t ∧ (choice (eligible_targets st ai) g).1 = Ok t).
  { unfold choice. destruct (eligible_targets st ai) as [|x l]; [done|].
    exists (pick x l g).1. split; [apply pick_lookup|].
    by destruct (pick x l g). }
  destruct Hchoice as (tc & Hlook & Hc).
  assert (Helig : eligible st ai tc).
  { apply elem_of_eligible_targets. by eapply list_elem_of_lookup_2. }
  assert (Hall : ∀ t, out.1.1 = Ok t → eligible st ai t).
  { subst out. unfold _generate_ai_vote.
    destruct (vote_attempts 3 (eligible_targets st ai) llm)
      as [[[t'|]|e] calls]; cbn [fst] in *.
    - intros t [= <-]. apply elem_of_eligible_targets. by apply Hret.
    - destruct (choice (eligible_targets st ai) g) as [r g'].
      cbn [fst] in *. intros t Ht. congruence.
    - discriminate. }
  split_and!; [| done | |].
  - subst out. unfold _generate_ai_vote.
    destruct (vote_attempts 3 (eligible_targets st ai) llm)
      as [[[t'|]|e] calls]; cbn [fst snd] in *; try done.
    by destruct (choice (eligible_targets st ai) g).
  - intros Hhandled.
    destruct (vote_attempts_handled 3 (eligible_targets st ai) llm Hhandled)
      as [o Ho].
    assert (Hex : ∃ t, out.1.1 = Ok t).
    { subst out. unfold _generate_ai_vote.
      destruct (vote_attempts 3 (eligible_targets st ai) llm) as [r calls].
      cbn [fst] in Ho. subst r. destruct o as [t'|].
      - by exists t'.
      - destruct (choice (eligible_targets st ai) g) as [r g'].
        cbn [fst] in *. subst r. by exists tc. }
    destruct Hex as [t Ht]. exists t. split; [done | by apply Hall].
  - intros Hnone. subst out. unfold _generate_ai_vote.
    rewrite (vote_attempts_exhausted 3 _ _ Hnone).
    destruct (choice (eligible_targets st ai) g) as [r g'].
    cbn [fst snd] in *. split_and!; [done | done |]. by exists tc.
Qed.

End agent_vote.

Section agent_vote_examples.
Import PyDict PyRandom main Spec Examples.

Lemma generate_ai_vote_bounded_and_eligible_witness :
  let out :=
    _generate_ai_vote (scenario_state []) "Player 1"
      (llm_says "I vote for the bot") tape_zero in
  out.1.2 = 3 ∧
  out.1.1 = Ok "Player 2" ∧
  eligible (scenario_state []) "Player 1" "Player 2".
Proof.
  destruct (generate_ai_vote_bounded_and_eligible (scenario_state [])
              "Player 1" (llm_says "I vote for the bot") tape_zero)
    as (_ & Helig & _ & Hfallback); [discriminate|].
  destruct Hfallback as (Hcalls & Hchoice & _); [reflexivity|].
  split_and!; [exact Hcalls | exact Hchoice | apply Helig; exact Hchoice].
Defined.

(** C9 at the failing inputs: the reply of the model is the JSON document
    null, or an empty JSON array, or the invocation raises an exception
    that is none of JSONDecodeError, KeyError and ValueError.  Eligible
    targets exist, yet vote generation raises at the first attempt: no
    retry, no random choice, no target; and the turn of [process_ai_votes]
    ends with the exception and leaves the registry as it was. *)
Theorem generate_ai_vote_unhandled_reply :
  let st := scenario_state [] in
  let rooms : gmap string Room := {[ "ROOM01" := scenario_room [] ]} in
  eligible_targets st "Player 1" = ["Player 2"; "Player 3"; "Player 4"] ∧
  (_generate_ai_vote st "Player 1" (llm_replies "null" JNull) tape_zero).1
  = (Raise AttributeError, 1) ∧
  (_generate_ai_vote st "Player 1" (llm_replies "[]" (JArr [])) tape_zero).1
  = (Raise AttributeError, 1) ∧
  (_generate_ai_vote st "Player 1" (llm_raises OtherError) tape_zero).1
  = (Raise OtherError, 1) ∧
  (process_ai_votes_turn "ROOM01"
     (set_pending_ai_votes ["Player 1"; "Player 2"; "Player 3"] st)
     (llm_replies "null" JNull) 0%Q tape_zero rooms).1.1
  = (Raise AttributeError, rooms, []).
Proof. by split_and!. Qed.

End agent_vote_examples.

(** * Creation of a game *)

Section creation.
Import PyDict PyRandom main Spec.

Lemma swap_Permutation {A : Type} (x : list A) i j :
  PyRandom.swap x i j ≡ₚ x.
Proof.
  unfold PyRandom.swap.
  destruct (x !! i) as [a|] eqn:Hi; [|done].
  destruct (x !! j) as [b|] eqn:Hj; [|done].
  by apply Permutation_insert_swap.
Qed.

Lemma shuffle_from_Permutation {A : Type} i (x : list A) g :
  (shuffle_from i x g).1 ≡ₚ x.
Proof.
  revert x g. induction i as [|i IH]; intros x g; [done|].
  cbn [shuffle_from]. destruct (randbelow (S (S i)) g) as [j g'].
  rewrite IH. apply swap_Permutation.
Qed.

Lemma shuffle_Permutation {A : Type} (x : list A) g : (shuffle x g).1 ≡ₚ x.
Proof. apply shuffle_from_Permutation. Qed.

Lemma make_ai_players_ok names g :
  ∃ ps g',
    make_ai_players names g = (Ok ps, g') ∧
    map id ps = names ∧
    Forall (fun p => role p = ai ∧ eliminated p = false) ps.
Proof.
  revert g. induction names as [|name rest IH]; intros g.
  - by exists [], g.
  - cbn [make_ai_players]. unfold choice, config.AI_PERSONALITIES.
    destruct (pick _ _ g) as [pers g1].
    destruct (IH g1) as (ps & g2 & -> & Hids & Hall).
    eexists _, g2. split; [reflexivity|]. split.
    + cbn [map id]. by rewrite Hids.
    + by constructor.
Qed.

Lemma create_initial_state_ok rc n t1 t2 g :
  ∃ st g',
    create_initial_state rc n t1 t2 g = (Ok st, g') ∧
    map id (players st) ≡ₚ map player_name (seq 1 n) ∧
    Forall (fun p => role p = ai ∧ eliminated p = false) (players st) ∧
    phase st = DISCUSSION ∧ round st = 1 ∧
    votes st = [] ∧ chat_history st = [].
Proof.
  unfold create_initial_state.
  assert (Hperm := shuffle_Permutation (map player_name (seq 1 n)) g).
  destruct (shuffle (map player_name (seq 1 n)) g) as [ai_names g1].
  cbn [fst] in Hperm.
  destruct (make_ai_players_ok ai_names g1) as (ps & g2 & -> & Hids & Hall).
  destruct (shuffle _ g2) as [pseudos g3].
  unfold choice, config.GAME_TOPICS. destruct (pick _ _ g3) as [tp g4].
  eexists _, g4. split; [reflexivity|]. cbn.
  split_and!; try done. by rewrite Hids.
Qed.

(** A direct call of [create_initial_state] with its two arguments returns
    a state in the discussion phase of round one, without votes or
    messages, whose players are agents, none eliminated, and whose
    identifiers are Player 1 .. Player n in some order. *)
Theorem create_initial_state_agents rc n t1 t2 g :
  ∃ st g',
    create_initial_state rc n t1 t2 g = (Ok st, g') ∧
    map id (players st) ≡ₚ map player_name (seq 1 n) ∧
    Forall (fun p => role p = ai ∧ eliminated p = false) (players st) ∧
    phase st = DISCUSSION ∧ round st = 1 ∧
    votes st = [] ∧ chat_history st = [].
Proof. apply create_initial_state_ok. Qed.

Lemma create_game_for_room_type_error rc n ai_player_ids t1 t2 g :
  create_game_for_room rc n ai_player_ids t1 t2 g = (Raise TypeError, g).
Proof. unfold create_game_for_room. by destruct ai_player_ids. Qed.

(** C10 at the failing inputs: [create_game_for_room] forwards three
    positional arguments to the two-parameter [create_initial_state]
    whatever [ai_player_ids] is, so every call raises TypeError, the call
    without [ai_player_ids] included; with it the reset of a room by
    [start_game] raises and leaves the registry as it was. *)
Theorem create_game_for_room_raises rc n ai_player_ids t1 t2 g :
  create_game_for_room rc n ai_player_ids t1 t2 g = (Raise TypeError, g) ∧
  create_game_for_room rc n None t1 t2 g = (Raise TypeError, g) ∧
  (∀ rooms, is_Some (rooms !! rc) →
     start_game rc t1 t2 g rooms = (Raise TypeError, rooms, [], g)).
Proof.
  split_and!.
  - apply create_game_for_room_type_error.
  - apply create_game_for_room_type_error.
  - intros rooms [room Hroom]. unfold start_game. rewrite Hroom.
    by rewrite create_game_for_room_type_error.
Qed.

End creation.

(** * Eliminated voters *)

Section nobody_eliminated.
Import PyDict PyRandom main Spec.
Implicit Types (rooms : gmap string Room) (room : Room).







End nobody_eliminated.

Section eliminated_voters.
Import PyDict PyRandom main Spec.

(** The handler of the /vote command turns away a voter that is marked
    eliminated and records nothing. *)
Lemma handle_channel_vote_rejects_eliminated rc discord_id player_id
    (games : gmap string game_manager.GameSession) session player p :
  games !! rc = Some session →
  phase (game_manager.session_state session) = VOTING →
  PyDict.get (game_manager.room_players session) discord_id = Some player →
  List.find
    (fun q => String.eqb (id q) (game_manager.game_player_id player))
    (players (game_manager.session_state session)) = Some p →
  eliminated p = true →
  game_manager.handle_channel_vote rc discord_id player_id games
  = (game_manager.EliminatedCannotVote, games).
Proof.
  intros Hsession Hphase Hplayer Hfind Helim.
  unfold game_manager.handle_channel_vote. rewrite Hsession.
  rewrite bool_decide_false by (rewrite Hphase; auto).
  rewrite Hplayer, Hfind. by rewrite Helim.
Qed.


End eliminated_voters.

Section eliminated_voters_examples.
Import PyDict PyRandom main Spec Examples.





(** The /vote command of an eliminated human is turned away. *)
Example channel_vote_of_eliminated_human :
  game_manager.handle_channel_vote "ROOM01" 7 "Player 1"
    {[ "ROOM01" := discord_session ]}
  = (game_manager.EliminatedCannotVote, {[ "ROOM01" := discord_session ]}).
Proof.
  apply (handle_channel_vote_rejects_eliminated "ROOM01" 7 "Player 1" _
           discord_session
           (game_manager.mkDiscordPlayer 7 "alice" "Alice" "Player 4")
           (mkPlayer "Player 4" human true None));
    [apply lookup_singleton_eq | reflexivity..].
Qed.

End eliminated_voters_examples.

(** * [Counter] and [most_common] *)

Section counter.
Import PyDict langgraph_game game_manager Spec.
Context {K : Type} `{EqDecision K}.
Implicit Types (l : list K) (x : K) (c : list (K * nat)).

Lemma occurrences_pos x l : 0 < occurrences x l ↔ x ∈ l.
Proof.
  unfold occurrences. induction l as [|y l IH]; simpl.
  - split; [lia | intros Hx; by apply elem_of_nil in Hx].
  - case_bool_decide as Hy; simpl.
    + subst y. split; [intros _; left | lia].
    + rewrite IH, elem_of_cons. split; [tauto | intros [->|]; done].
Qed.

Lemma occurrences_app x l l' :
  occurrences x (l ++ l') = occurrences x l + occurrences x l'.
Proof. unfold occurrences. by rewrite List.filter_app, length_app. Qed.

Lemma counter_fold_get l (acc : list (K * nat)) x :
  PyDict.get
    (fold_left
       (fun acc y => PyDict.set acc y (default 0 (PyDict.get acc y) + 1))
       l acc) x
  = match occurrences x l with
    | 0 => PyDict.get acc x
    | S n => Some (default 0 (PyDict.get acc x) + S n)
    end.
Proof.
  revert acc. induction l as [|y l IH]; intros acc; [done|].
  cbn [fold_left]. rewrite IH. unfold occurrences. cbn [List.filter].
  destruct (decide (y = x)) as [->|Hne].
  - rewrite bool_decide_true by done. cbn [length].
    rewrite get_set_eq. cbn [default].
    destruct (length _); unfold Datatypes.id; f_equal; lia.
  - rewrite bool_decide_false by done. by rewrite get_set_ne.
Qed.

Lemma counter_fold_NoDup l (acc : list (K * nat)) :
  NoDup (PyDict.keys acc) →
  NoDup
    (PyDict.keys
       (fold_left
          (fun acc y => PyDict.set acc y (default 0 (PyDict.get acc y) + 1))
          l acc)).
Proof.
  revert acc. induction l as [|y l IH]; intros acc Hnd; [done|].
  cbn [fold_left]. apply IH. by apply NoDup_keys_set.
Qed.

Lemma counter_get l x :
  PyDict.get (counter l) x
  = if Nat.eqb (occurrences x l) 0 then None else Some (occurrences x l).
Proof.
  unfold counter. rewrite counter_fold_get. by destruct (occurrences x l).
Qed.

Lemma counter_NoDup l : NoDup (PyDict.keys (counter l)).
Proof. apply counter_fold_NoDup. constructor. Qed.

Lemma counter_elem_of l x n :
  (x, n) ∈ counter l ↔ n = occurrences x l ∧ 0 < n.
Proof.
  split.
  - intros Hin. apply (elem_of_get_NoDup _ _ _ (counter_NoDup l)) in Hin.
    rewrite counter_get in Hin.
    destruct (Nat.eqb_spec (occurrences x l) 0); [done|].
    injection Hin as <-. lia.
  - intros [-> Hpos]. apply get_Some_elem_of. rewrite counter_get.
    destruct (Nat.eqb_spec (occurrences x l) 0); [lia | done].
Qed.

Lemma counter_key l x : x ∈ PyDict.keys (counter l) ↔ x ∈ l.
Proof.
  rewrite <- (occurrences_pos x l). unfold PyDict.keys.
  rewrite list_elem_of_fmap. split.
  - intros ([y n] & -> & Hin). apply counter_elem_of in Hin. simpl. lia.
  - intros Hpos. exists (x, occurrences x l). split; [done|].
    by apply counter_elem_of.
Qed.

Lemma counter_nil l : counter l = [] ↔ l = [].
Proof.
  split; [|by intros ->].
  destruct l as [|x l]; [done|]. intros Hnil.
  assert (Hx : x ∈ PyDict.keys (counter (x :: l))) by (apply counter_key; left).
  rewrite Hnil in Hx. by apply elem_of_nil in Hx.
Qed.

(** The keys of a counter come in the order of the first occurrences. *)
Lemma counter_snoc_keys l x :
  PyDict.keys (counter (l ++ [x]))
  = if bool_decide (x ∈ l) then PyDict.keys (counter l)
    else PyDict.keys (counter l) ++ [x].
Proof.
  unfold counter at 1. rewrite fold_left_app. cbn [fold_left].
  fold (counter l). rewrite keys_set. unfold PyDict.contains.
  rewrite counter_get.
  case_bool_decide as Hx.
  - apply occurrences_pos in Hx.
    by destruct (Nat.eqb_spec (occurrences x l) 0); [lia|].
  - rewrite <- occurrences_pos in Hx.
    by destruct (Nat.eqb_spec (occurrences x l) 0); [|lia].
Qed.

Lemma counter_keys_first l (c1 c2 : list K) x :
  PyDict.keys (counter l) = c1 ++ x :: c2 →
  ∃ l1 l2, l = l1 ++ x :: l2 ∧ ∀ y, y ∈ l1 → y ∈ c1.
Proof.
  revert c1 c2. induction l as [|z l IH] using rev_ind; intros c1 c2.
  - intros Hk. by destruct c1.
  - rewrite counter_snoc_keys. case_bool_decide as Hz.
    + intros Hk. destruct (IH _ _ Hk) as (l1 & l2 & -> & Hl1).
      exists l1, (l2 ++ [z]). split; [|done]. by rewrite <- app_assoc.
    + intros Hk. destruct c2 as [|y c2 _] using rev_ind.
      * apply app_inj_tail in Hk as [Hk ->].
        exists l, []. split; [done|]. intros y Hy.
        rewrite <- Hk. by apply counter_key.
      * rewrite app_comm_cons, app_assoc in Hk.
        apply app_inj_tail in Hk as [Hk _].
        destruct (IH _ _ Hk) as (l1 & l2 & -> & Hl1).
        exists l1, (l2 ++ [z]). split; [|done]. by rewrite <- app_assoc.
Qed.

(** [max] with a key returns the first of the items of greatest count. *)
Lemma most_common_fold c (b r : K * nat) :
  fold_left
    (fun best kv =>
       match best with
       | None => Some kv
       | Some b => if Nat.ltb (snd b) (snd kv) then Some kv else best
       end) c (Some b) = Some r →
  (r = b ∧ ∀ kv, kv ∈ c → snd kv ≤ snd b)
  ∨ (∃ c1 c2, c = c1 ++ r :: c2 ∧ snd b < snd r ∧
       (∀ kv, kv ∈ c1 → snd kv < snd r) ∧ ∀ kv, kv ∈ c2 → snd kv ≤ snd r).
Proof.
  revert b. induction c as [|kv c IH]; intros b; cbn [fold_left].
  - intros [= ->]. left. split; [done|]. intros kv Hkv.
    by apply elem_of_nil in Hkv.
  - destruct (Nat.ltb_spec (snd b) (snd kv)) as [Hlt|Hge]; intros Hr.
    + right. destruct (IH _ Hr) as [[-> Hall]|(c1 & c2 & -> & Hlt' & H1 & H2)].
      * exists [], c. split_and!; [done|done| |done].
        intros x Hx. by apply elem_of_nil in Hx.
      * exists (kv :: c1), c2. split_and!; [done|lia| |done].
        intros x Hx. apply elem_of_cons in Hx as [->|Hx]; [lia|by apply H1].
    + destruct (IH _ Hr) as [[-> Hall]|(c1 & c2 & -> & Hlt' & H1 & H2)].
      * left. split; [done|]. intros x Hx.
        apply elem_of_cons in Hx as [->|Hx]; [done|by apply Hall].
      * right. exists (kv :: c1), c2. split_and!; [done|done| |done].
        intros x Hx. apply elem_of_cons in Hx as [->|Hx]; [lia|by apply H1].
Qed.

Lemma most_common_1_first c (r : K * nat) :
  most_common_1 c = Some r →
  ∃ c1 c2, c = c1 ++ r :: c2 ∧
    (∀ kv, kv ∈ c1 → snd kv < snd r) ∧ ∀ kv, kv ∈ c2 → snd kv ≤ snd r.
Proof.
  unfold most_common_1. destruct c as [|b c]; [done|]. cbn [fold_left].
  intros Hr. apply most_common_fold in Hr
    as [[-> Hall]|(c1 & c2 & -> & Hlt & H1 & H2)].
  - exists [], c. split_and!; [done| |done].
    intros x Hx. by apply elem_of_nil in Hx.
  - exists (b :: c1), c2. split_and!; [done| |done].
    intros x Hx. apply elem_of_cons in Hx as [->|Hx]; [done|by apply H1].
Qed.

Lemma most_common_1_is_Some c : c ≠ [] → is_Some (most_common_1 c).
Proof.
  unfold most_common_1. destruct c as [|b c]; [done|]. intros _.
  cbn [fold_left]. generalize b. induction c as [|kv c IH]; intros b'.
  - by eexists.
  - cbn [fold_left]. destruct (Nat.ltb _ _); apply IH.
Qed.

(** What [Counter(l).most_common(1)] names: an element that nothing
    outnumbers, and that outnumbers everything that occurs before its
    first occurrence. *)
Lemma most_common_1_counter l x n :
  most_common_1 (counter l) = Some (x, n) →
  n = occurrences x l ∧ most_frequent x l ∧
  ∃ l1 l2, l = l1 ++ x :: l2 ∧
    ∀ y, y ∈ l1 → occurrences y l < occurrences x l.
Proof.
  intros Hmc. apply most_common_1_first in Hmc as (c1 & c2 & Hc & H1 & H2).
  assert (Hin : (x, n) ∈ counter l)
    by (rewrite Hc; apply elem_of_app; right; left).
  apply counter_elem_of in Hin as [Hn Hpos]. split; [done|].
  assert (Hle : ∀ y, occurrences y l ≤ n).
  { intros y. destruct (occurrences y l) as [|k] eqn:Hk; [lia|].
    assert (Hy : (y, S k) ∈ counter l) by (apply counter_elem_of; lia).
    rewrite Hc in Hy. apply elem_of_app in Hy as [Hy|Hy].
    - apply H1 in Hy. simpl in Hy. lia.
    - apply elem_of_cons in Hy as [[= -> ->]|Hy]; [done|].
      apply H2 in Hy. simpl in Hy. lia. }
  split.
  - split; [apply occurrences_pos; lia|]. intros y. rewrite <- Hn. apply Hle.
  - assert (Hk : PyDict.keys (counter l) = PyDict.keys c1 ++ x :: PyDict.keys c2).
    { rewrite Hc. unfold PyDict.keys. by rewrite map_app. }
    apply counter_keys_first in Hk as (l1 & l2 & -> & Hl1).
    exists l1, l2. split; [done|]. intros y Hy.
    apply Hl1 in Hy. unfold PyDict.keys in Hy.
    apply list_elem_of_fmap in Hy as ([y' k] & -> & Hy). simpl.
    assert (Hyk : (y', k) ∈ counter (l1 ++ x :: l2))
      by (rewrite Hc; apply elem_of_app; by left).
    apply counter_elem_of in Hyk as [-> _].
    apply H1 in Hy. simpl in Hy. lia.
Qed.

End counter.

(** * The round-based nodes: elimination and the win check *)

Section elimination.
Import PyDict PyRandom langgraph_game Spec.

Lemma max_keys_elem_of {K : Type} (c : list (K * nat)) x :
  x ∈ map fst (List.filter (fun kv => Nat.eqb (snd kv) (list_max (PyDict.values c))) c)
  ↔ (x, list_max (PyDict.values c)) ∈ c.
Proof.
  rewrite list_elem_of_fmap. split.
  - intros ([x' n] & -> & Hin). apply list_elem_of_In, filter_In in Hin.
    destruct Hin as [Hin Heq]. simpl in *.
    apply Nat.eqb_eq in Heq as ->. by apply list_elem_of_In.
  - intros Hin. exists (x, list_max (PyDict.values c)). split; [done|].
    apply list_elem_of_In, filter_In. split; [by apply list_elem_of_In|].
    simpl. apply Nat.eqb_refl.
Qed.

Lemma max_keys_nonempty {K : Type} (c : list (K * nat)) :
  c ≠ [] →
  map fst (List.filter (fun kv => Nat.eqb (snd kv) (list_max (PyDict.values c))) c)
  ≠ [].
Proof.
  intros Hne Hnil.
  assert (Hin : list_max (PyDict.values c) ∈ PyDict.values c).
  { apply list_max_elem_of. unfold PyDict.values. by destruct c. }
  unfold PyDict.values in Hin. apply list_elem_of_fmap in Hin.
  destruct Hin as ([x n] & Hn & Hin). simpl in Hn. subst n.
  apply max_keys_elem_of in Hin. rewrite Hnil in Hin.
  by apply elem_of_nil in Hin.
Qed.

Lemma counter_max_keys {K : Type} `{EqDecision K} (l : list K) x :
  l ≠ [] →
  (x, list_max (PyDict.values (counter l))) ∈ counter l ↔ most_frequent x l.
Proof.
  intros Hne. rewrite counter_elem_of.
  set (m := list_max (PyDict.values (counter l))).
  assert (Hle : ∀ y, occurrences y l ≤ m).
  { intros y. destruct (occurrences y l) as [|k] eqn:Hk; [lia|].
    rewrite <- Hk. apply list_max_ge. unfold PyDict.values.
    apply list_elem_of_fmap. exists (y, occurrences y l). split; [done|].
    apply counter_elem_of. lia. }
  assert (Hm : ∃ y, m = occurrences y l ∧ 0 < m).
  { assert (Hin : m ∈ PyDict.values (counter l)).
    { apply list_max_elem_of. unfold PyDict.values.
      destruct (counter l) eqn:Hc; [by apply (proj1 (counter_nil l)) in Hc | done]. }
    unfold PyDict.values in Hin. apply list_elem_of_fmap in Hin.
    destruct Hin as ([y n] & Hn & Hin). simpl in Hn. subst n.
    exists y. by apply counter_elem_of. }
  destruct Hm as (ym & Hm & Hpos). unfold most_frequent. split.
  - intros [Heq _]. split; [apply occurrences_pos; lia|].
    intros y. rewrite <- Heq. apply Hle.
  - intros [Hx Hall]. apply occurrences_pos in Hx.
    specialize (Hall ym). specialize (Hle x). lia.
Qed.

Lemma marked_players (e : option string) (ps : list PlayerInfo) :
  Forall2
    (fun p p' =>
       id p' = id p ∧ role p' = role p ∧ personality p' = personality p ∧
       eliminated p' = eliminated p || id_is p e)
    ps (map (fun p => if id_is p e then mark_eliminated p else p) ps).
Proof.
  induction ps as [|p ps IH]; [constructor|]. cbn [map]. constructor; [|done].
  destruct (id_is p e); cbn.
  - by rewrite orb_true_r.
  - by rewrite orb_false_r.
Qed.

(** X6: [elimination_node] never raises.  When votes were cast it
    eliminates a value of the votes mapping that no other value outnumbers
    (the null target counts like a name).  When none was cast it
    eliminates a non-eliminated player not called "You", or nobody when
    there is no such player.  In the player list it returns, the players
    called like the eliminated one are marked, and nothing else changes. *)
Theorem elimination_node_most_voted (st : GameState) (g : rng) :
  ∃ r g',
    elimination_node st g = (Ok r, g') ∧
    res_phase r = ELIMINATION ∧
    (votes st ≠ [] →
       most_frequent (res_eliminated_player r) (PyDict.values (votes st))) ∧
    (votes st = [] →
       match res_eliminated_player r with
       | Some a =>
           ∃ p, p ∈ players st ∧ id p = a ∧ eliminated p = false ∧ a ≠ "You"
       | None => ∀ p, p ∈ players st → eliminated p = true ∨ id p = "You"
       end) ∧
    Forall2
      (fun p p' =>
         id p' = id p ∧ role p' = role p ∧ personality p' = personality p ∧
         eliminated p' = eliminated p || id_is p (res_eliminated_player r))
      (players st) (res_players r).
Proof.
  unfold elimination_node.
  set (l := PyDict.values (votes st)).
  destruct (counter l) as [|kv c] eqn:Hc.
  - apply (proj1 (counter_nil l)) in Hc.
    assert (Hv : votes st = []).
    { unfold l, PyDict.values in Hc. by destruct (votes st). }
    set (act := List.filter _ (players st)).
    assert (Hact : ∀ p, p ∈ act ↔
              p ∈ players st ∧ eliminated p = false ∧ id p ≠ "You").
    { intros p. unfold act. rewrite list_elem_of_In, filter_In, <- list_elem_of_In.
      rewrite andb_true_iff, !negb_true_iff, String.eqb_neq. tauto. }
    destruct (map id act) as [|x rest] eqn:Hact'.
    + eexists _, g. split; [reflexivity|].
      cbn [res_phase res_eliminated_player res_players].
      split_and!; [done|done| |apply marked_players].
      intros _ p Hp. destruct act as [|q act']; [|done].
      destruct (eliminated p) eqn:He; [by left|]. right.
      destruct (decide (id p = "You")) as [|Hne]; [done|].
      assert (Hin : p ∈ []) by (by apply Hact). by apply elem_of_nil in Hin.
    + assert (Hin := pick_lookup x rest g).
      destruct (pick x rest g) as [a g1]. cbn [fst] in Hin.
      apply list_elem_of_lookup_2 in Hin. rewrite <- Hact' in Hin.
      apply list_elem_of_fmap in Hin as (p & -> & Hp). apply Hact in Hp.
      eexists _, g1. split; [reflexivity|].
      cbn [res_phase res_eliminated_player res_players].
      split_and!; [done|done| |apply marked_players].
      intros _. exists p. tauto.
  - assert (Hl : l ≠ []).
    { intros Hl. rewrite Hl in Hc. discriminate. }
    assert (Hv : votes st ≠ []).
    { intros Hv. apply Hl. unfold l. by rewrite Hv. }
    rewrite <- Hc. clear Hc kv c.
    set (cands := map fst (List.filter _ (counter l))).
    assert (Hne : cands ≠ []) by (apply max_keys_nonempty; by rewrite counter_nil).
    assert (Hmf : ∀ x, x ∈ cands → most_frequent x l).
    { intros x Hx. apply max_keys_elem_of in Hx. by apply counter_max_keys in Hx. }
    assert (Hch : ∃ e g1,
      (if Nat.ltb 1 (length cands) then choice cands g
       else match cands with
            | c :: _ => (Ok c, g)
            | [] => (Raise IndexError, g)
            end) = (Ok e, g1) ∧ e ∈ cands).
    { destruct cands as [|x rest]; [done|].
      destruct (Nat.ltb 1 (length (x :: rest))).
      - unfold choice. assert (Hin := pick_lookup x rest g).
        destruct (pick x rest g) as [a g1]. cbn [fst] in Hin.
        apply list_elem_of_lookup_2 in Hin. by exists a, g1.
      - exists x, g. split; [done|left]. }
    destruct Hch as (e & g1 & -> & He).
    eexists _, g1. split; [reflexivity|].
    cbn [res_phase res_eliminated_player res_players].
    split_and!; [done| |done|apply marked_players].
    intros _. by apply Hmf.
Qed.

Lemma elimination_node_players (st : GameState) (g : rng) r g' :
  elimination_node st g = (Ok r, g') →
  res_players r
  = map (fun p => if id_is p (res_eliminated_player r)
                  then mark_eliminated p else p) (players st).
Proof.
  unfold elimination_node.
  destruct (match counter (PyDict.values (votes st)) with
            | [] => _ | _ => _ end) as [[e|err] g1]; [|discriminate].
  by intros [= <- <-].
Qed.

(** X7: with [ROUNDS_TO_WIN] at its default 1, the win check that
    follows an elimination always finds a winner when the eliminated name
    is the name of a player, so that [check_game_status] routes to the end
    of the game: the agents win when a human is marked eliminated, the
    humans otherwise.  A next round is reached when nobody was eliminated
    before and the eliminated name is no player's. *)
Theorem elimination_ends_game (st : GameState) (g : rng) r g' :
  elimination_node st g = (Ok r, g') →
  let st' := set_players (res_players r) st in
  ((∃ p, p ∈ players st ∧ id_is p (res_eliminated_player r) = true) →
   ∃ w, check_win_condition_node st' = Some w ∧
        check_game_status (set_winner (Some w) st') = "game_over" ∧
        (w = ai ↔ ∃ p, p ∈ players st' ∧ role p = human ∧ eliminated p = true)) ∧
  ((∀ p, p ∈ players st →
      eliminated p = false ∧ id_is p (res_eliminated_player r) = false) →
   check_win_condition_node st' = None ∧
   check_game_status (set_winner None st') = "continue" ∧
   players st' = players st).
Proof.
  intros Hel st'.
  assert (Hmark := marked_players (res_eliminated_player r) (players st)).
  rewrite <- (elimination_node_players _ _ _ _ Hel) in Hmark.
  set (e := res_eliminated_player r) in *.
  assert (Hhum : existsb (fun p => bool_decide (role p = human) && eliminated p)
                   (players st') = true
                 ↔ ∃ p, p ∈ players st' ∧ role p = human ∧ eliminated p = true).
  { rewrite existsb_exists. split.
    - intros (p & Hp & Hb). apply andb_true_iff in Hb as [Hr He].
      apply bool_decide_eq_true in Hr. exists p. by rewrite list_elem_of_In.
    - intros (p & Hp & Hr & He). exists p. rewrite <- list_elem_of_In.
      split; [done|]. rewrite He, andb_true_r. by apply bool_decide_eq_true. }
  split.
  - intros (p & Hp & Hid).
    unfold check_win_condition_node.
    destruct (existsb _ (players st')) eqn:Hex.
    + exists ai. split_and!; [done|done|]. split; [intros _; by apply Hhum|done].
    + assert (Hp' : ∃ p', p' ∈ players st' ∧ role p' = role p ∧ eliminated p' = true).
      { apply list_elem_of_lookup in Hp as [i Hi].
        destruct (Forall2_lookup_l _ _ _ _ _ Hmark Hi) as (p' & Hi' & _ & Hr & _ & He).
        exists p'. split_and!; [by eapply list_elem_of_lookup_2|done|].
        rewrite He. fold e. rewrite Hid. apply orb_true_r. }
      destruct Hp' as (p' & Hp' & Hr & He).
      assert (Hai : role p' = ai).
      { destruct (role p') eqn:Hrole; [|done].
        assert (Hc : false = true) by (apply Hhum; by exists p').
        discriminate. }
      assert (Hcount : 1 ≤ length (List.filter
                 (fun p => bool_decide (role p = ai) && eliminated p) (players st'))).
      { assert (Hin : p' ∈ List.filter
                 (fun p => bool_decide (role p = ai) && eliminated p) (players st')).
        { apply list_elem_of_In, filter_In. split; [by apply list_elem_of_In|].
          rewrite He, andb_true_r. by apply bool_decide_eq_true. }
        destruct (List.filter _ (players st')); [by apply elem_of_nil in Hin|].
        simpl. lia. }
      unfold config.ROUNDS_TO_WIN.
      destruct (Nat.leb_spec 1 (length (List.filter
                 (fun p => bool_decide (role p = ai) && eliminated p) (players st'))));
        [|lia].
      exists human. split_and!; [done|done|].
      split; [done|]. intros Hh. apply Hhum in Hh. discriminate.
  - intros Hnone.
    assert (Hsame : players st' = players st).
    { unfold st'. cbn [players set_players].
      rewrite (elimination_node_players _ _ _ _ Hel). fold e.
      rewrite <- (map_id (players st)) at 2. apply map_ext_in.
      intros p Hp. apply list_elem_of_In in Hp.
      by rewrite (proj2 (Hnone p Hp)). }
    assert (Hno : ∀ p, p ∈ players st' → eliminated p = false).
    { intros p Hp. rewrite Hsame in Hp. by apply Hnone. }
    unfold check_win_condition_node.
    destruct (existsb _ (players st')) eqn:Hex.
    { destruct (proj1 Hhum eq_refl) as (p & Hp & _ & He).
      rewrite (Hno p Hp) in He. done. }
    assert (Hnil : List.filter (fun p => bool_decide (role p = ai) && eliminated p)
                     (players st') = []).
    { destruct (List.filter _ (players st')) as [|q qs] eqn:Hf; [done|].
      assert (Hq : q ∈ q :: qs) by left. rewrite <- Hf in Hq.
      apply list_elem_of_In, filter_In in Hq as [Hq Hb].
      apply list_elem_of_In in Hq.
      rewrite (Hno q Hq), andb_false_r in Hb. done. }
    by rewrite Hnil.
Qed.
End elimination.

Section elimination_examples.
Import PyDict PyRandom langgraph_game Spec Examples.

Lemma elimination_ends_game_witness :
  elimination_node (scenario_state scenario_votes) tape_zero
  = (Ok scenario_elimination, tape_zero) ∧
  check_win_condition_node
    (set_players (res_players scenario_elimination)
       (scenario_state scenario_votes)) = Some ai.
Proof.
  split; [reflexivity|].
  destruct (elimination_ends_game (scenario_state scenario_votes) tape_zero
              scenario_elimination tape_zero eq_refl) as [Hend _].
  destruct Hend as (w & Hw & _ & Hai).
  - exists (mkPlayer "Player 4" human false None). split; [|reflexivity].
    apply list_elem_of_In. simpl. tauto.
  - rewrite Hw. f_equal. apply Hai.
    exists (mkPlayer "Player 4" human true None). split_and!; [|done|done].
    apply list_elem_of_In. simpl. tauto.
Defined.

End elimination_examples.


(** * The chat platform front end: the count of the votes *)

Section process_votes.
Import PyDict PyRandom game_manager Spec.

Lemma eliminate_first_find (e : option string) (ps : list PlayerInfo) p :
  List.find (fun p => id_is p e) ps = Some p →
  ∃ ps1 ps2,
    ps = ps1 ++ p :: ps2 ∧ id_is p e = true ∧
    (∀ q, q ∈ ps1 → id_is q e = false) ∧
    eliminate_first e ps = ps1 ++ mark_eliminated p :: ps2.
Proof.
  induction ps as [|q ps IH]; [done|]. cbn [List.find eliminate_first].
  destruct (id_is q e) eqn:Hq.
  - intros [= ->]. exists [], ps. split_and!; [done|done| |done].
    intros q Hq'. by apply elem_of_nil in Hq'.
  - intros Hf. destruct (IH Hf) as (ps1 & ps2 & -> & Hp & Hbefore & ->).
    exists (q :: ps1), ps2. split_and!; [done|done| |done].
    intros q' Hq'. apply elem_of_cons in Hq' as [->|Hq']; [done|by apply Hbefore].
Qed.

Lemma find_none_id_is (e : option string) (ps : list PlayerInfo) :
  List.find (fun p => id_is p e) ps = None → ∀ p, p ∈ ps → id_is p e = false.
Proof.
  intros Hf p Hp. apply list_elem_of_In in Hp.
  by apply (find_none _ _ Hf).
Qed.

(** X16: [process_votes] of the chat platform front end merges the votes
    of the agents with the votes of the humans and eliminates the most
    common target: a value of the merged mapping that no other value
    outnumbers and that outnumbers every value found before its first
    occurrence, so that a tie goes to the target that was voted first.  The
    first player of that name is marked eliminated and nothing else
    changes.  Without a session, without votes, or when the target is no
    player's name, the games are left as they were. *)
Theorem process_votes_eliminates_first_most_voted rc
    (games : gmap string GameSession) :
  let out := process_votes rc games in
  match out.1 with
  | VotesNoSession => games !! rc = None ∧ out.2 = games
  | VotesNone =>
      (∃ session, games !! rc = Some session ∧ all_votes session = []) ∧
      out.2 = games
  | VotesUnknownPlayer e =>
      (∃ session, games !! rc = Some session ∧
         most_frequent e (PyDict.values (all_votes session)) ∧
         ∀ p, p ∈ players (session_state session) → id_is p e = false) ∧
      out.2 = games
  | VotesEliminated e was_human vote_counts =>
      ∃ session l1 l2 ps1 p ps2,
        games !! rc = Some session ∧
        let l := PyDict.values (all_votes session) in
        vote_counts = counter l ∧
        most_frequent e l ∧
        l = l1 ++ e :: l2 ∧
        (∀ y, y ∈ l1 → occurrences y l < occurrences e l) ∧
        players (session_state session) = ps1 ++ p :: ps2 ∧
        id_is p e = true ∧ (∀ q, q ∈ ps1 → id_is q e = false) ∧
        was_human = bool_decide (role p = human) ∧
        out.2
        = <[rc := set_session_state
                    (set_players (ps1 ++ mark_eliminated p :: ps2)
                       (session_state session)) session]> games
  end.
Proof.
  unfold process_votes. destruct (games !! rc) as [session|] eqn:Hs; [|done].
  set (l := PyDict.values (all_votes session)).
  destruct (most_common_1 (counter l)) as [[e n]|] eqn:Hmc.
  - apply most_common_1_counter in Hmc as (_ & Hmf & l1 & l2 & Hl & Hfirst).
    destruct (List.find _ (players (session_state session))) as [p|] eqn:Hf.
    + apply eliminate_first_find in Hf as (ps1 & ps2 & Hps & Hp & Hbefore & Hel).
      cbn [fst snd]. exists session, l1, l2, ps1, p, ps2.
      rewrite Hel. by split_and!.
    + cbn [fst snd]. split; [|done]. exists session.
      split_and!; [done|done|]. by apply find_none_id_is.
  - cbn [fst snd]. split; [|done]. exists session. split; [done|].
    destruct (counter l) as [|kv c] eqn:Hc.
    + apply (proj1 (counter_nil l)) in Hc. unfold l, PyDict.values in Hc.
      by destruct (all_votes session).
    + destruct (most_common_1_is_Some (kv :: c)) as [x Hx]; [done|]. congruence.
Qed.

End process_votes.

(** * Creation of rooms and games *)

Section room_creation.
Import PyDict PyRandom main Spec.

(** X15: [create_room] answers its three validation errors in the
    order of the checks, and raises TypeError for every request that passes
    them, because [create_game_for_room] does; in no case is a room added
    to the registry.  [join_room] on a code that is not registered takes
    the legacy path, which raises TypeError as well and leaves the registry
    as it was. *)
Theorem create_room_never_creates max_humans total_players rc t1 t2 g
    (rooms : gmap string Room) :
  let mh := default 1 max_humans in
  let tp := default 5 total_players in
  let out := create_room max_humans total_players rc t1 t2 g rooms in
  out.1.2 = rooms ∧
  (∀ code number, out.1.1 ≠ Ok (Created code number)) ∧
  out.1.1
  = (if negb (Nat.leb 1 mh && Nat.leb mh 4) then Ok CreateBadMaxHumans
     else if Nat.ltb tp mh then Ok CreateTooFewPlayers
     else if Nat.ltb 12 tp then Ok CreateTooManyPlayers
     else Raise TypeError) ∧
  (rooms !! rc = None →
   join_room rc t1 t2 g rooms
   = (Raise TypeError, rooms, [], (shuffle (seq 1 (config.NUM_AI_PLAYERS + 1)) g).2)).
Proof.
  cbn zeta.
  assert (Hjoin : rooms !! rc = None →
    join_room rc t1 t2 g rooms
    = (Raise TypeError, rooms, [],
       (shuffle (seq 1 (config.NUM_AI_PLAYERS + 1)) g).2)).
  { intros Hnone. unfold join_room. rewrite Hnone.
    destruct (shuffle _ g) as [numbers g2].
    by rewrite create_game_for_room_type_error. }
  unfold create_room.
  destruct (negb _) eqn:H1; [by split_and!|].
  destruct (Nat.ltb _ _) eqn:H2; [by split_and!|].
  destruct (Nat.ltb 12 _) eqn:H3; [by split_and!|].
  destruct (shuffle (seq 1 (default 5 total_players)) g) as [all_numbers g1].
  rewrite create_game_for_room_type_error. cbn [fst snd].
  by split_and!.
Qed.

End room_creation.

Section discord_initialization.
Import PyDict PyRandom game_manager game_manager_rooms Spec.

(** X18: [initialize_game] of the chat platform front end never
    starts a game.  When the room is missing or cannot start it gives up;
    when the room is full and waiting, [create_game_for_room] raises
    TypeError, which the [try] catches.  In every case the answer is
    [False], no session is registered, and the room manager is left as it
    was. *)
Theorem initialize_game_never_starts rc channel_found t1 t2 g
    (m : utils.DiscordRoomManager) (games : gmap string GameSession) :
  let out := initialize_game rc channel_found t1 t2 g m games in
  initialized out.1.1.1 = false ∧
  out.1.1.2 = m ∧ out.1.2 = games ∧ out.2 = g ∧
  (out.1.1.1 = InitFailed TypeError
   ↔ ∃ room, utils.get_room m rc = Some room ∧ utils.can_start room = true).
Proof.
  cbn zeta. unfold initialize_game.
  destruct (utils.get_room m rc) as [room|].
  - destruct (utils.can_start room) eqn:Hcan; cbn [negb].
    + rewrite create_game_for_room_type_error. cbn.
      split_and!; try done. split; [|done]. intros _. by exists room.
    + cbn. split_and!; try done. split; [done|].
      intros (room' & [= <-] & Hc). congruence.
  - cbn. split_and!; try done. split; [done|]. by intros (room' & [=] & _).
Qed.

End discord_initialization.

(** * Engagement waves *)

Section waves.
Import PyDict PyRandom main Spec.

Lemma filter_sublist {A : Type} (f : A → bool) (l : list A) :
  sublist (List.filter f l) l.
Proof.
  induction l as [|x l IH]; [constructor|]. cbn [List.filter].
  destruct (f x); by constructor.
Qed.

Lemma decide_responders_sublist st ais llm g :
  sublist (decide_responders st ais llm g).1 ais.
Proof.
  revert g. induction ais as [|a ais IH]; intros g; [constructor|].
  cbn [decide_responders].
  destruct (_should_agent_respond st a (llm a) g) as [r g1].
  specialize (IH g1). destruct (decide_responders st ais llm g1) as [more g2].
  cbn [fst] in *. destruct r as [j|e]; [destruct (truthy j)|]; by constructor.
Qed.


Lemma filter_in_flight_nil (P : gset string) (l : list string) :
  List.filter
    (fun a => negb (bool_decide
       (a ∈ P ∪ list_to_set
                  (List.filter (fun a => negb (bool_decide (a ∈ P))) l))))
    l = [].
Proof.
  set (Q := P ∪ _).
  assert (Hall : ∀ a, a ∈ l → a ∈ Q).
  { intros a Ha. unfold Q. destruct (decide (a ∈ P)) as [HP|HP]; [set_solver|].
    apply elem_of_union_r, elem_of_list_to_set, list_elem_of_In, filter_In.
    split; [by apply list_elem_of_In|]. by rewrite bool_decide_false. }
  clearbody Q. induction l as [|a l IH]; [done|]. cbn [List.filter].
  rewrite bool_decide_true by (apply Hall; left). cbn [negb].
  apply IH. intros b Hb. apply Hall. by right.
Qed.

Lemma occurrences_filter (P : string → bool) (l : list string) a :
  occurrences a (List.filter P l) = if P a then occurrences a l else 0.
Proof.
  unfold occurrences. induction l as [|x l IH]; [by destruct (P a)|].
  cbn [List.filter]. destruct (P x) eqn:Hx; cbn [List.filter].
  - case_bool_decide as Hxa; cbn [length]; rewrite IH.
    + subst x. by rewrite Hx.
    + done.
  - rewrite IH. case_bool_decide as Hxa; [|done]. subst x. by rewrite Hx.
Qed.

(** X10: [process_ai_messages] leaves the game state alone and
    creates tasks only in the discussion phase.  The tasks are the turns of
    the entries of the pending list whose agent has no turn in flight, in
    the order of the list: such an agent gets as many tasks as the list
    names it (one when the list has no duplicates, two when it is listed
    twice), an agent in flight gets none.  Afterwards those agents are in
    flight together with the ones that were before, and no one else.  A
    second call before a turn has finished creates nothing. *)
Theorem process_ai_messages_tasks rc (rooms : gmap string Room) :
  let out := process_ai_messages rc rooms in
  state_of out.1 rc = state_of rooms rc ∧
  (∃ todo,
     out.2 = map (fun a => ECreateTask (ProcessSingleAiMessage rc a)) todo ∧
     (∀ a, a ∈ todo →
        ∃ st, state_of rooms rc = Some st ∧ phase st = DISCUSSION ∧
              a ∈ pending_ai_messages st ∧ ¬ in_flight rooms rc a) ∧
     (∀ a st, state_of rooms rc = Some st → phase st = DISCUSSION →
        ¬ in_flight rooms rc a →
        occurrences a todo = occurrences a (pending_ai_messages st)) ∧
     (∀ st, state_of rooms rc = Some st →
        sublist todo (pending_ai_messages st) ∧
        (NoDup (pending_ai_messages st) → NoDup todo)) ∧
     (∀ a, in_flight out.1 rc a ↔ in_flight rooms rc a ∨ a ∈ todo)) ∧
  process_ai_messages rc out.1 = (out.1, []).
Proof.
  cbn zeta. destruct (process_ai_messages rc rooms) as [rooms' evs] eqn:Hout.
  cbn [fst snd]. unfold process_ai_messages in Hout.
  unfold state_of, in_flight.
  assert (Hnil : ∀ a : string, a ∈ @nil string → False)
    by (intros a Ha; by apply elem_of_nil in Ha).
  destruct (rooms !! rc) as [room|] eqn:Hroom.
  2:{ injection Hout as <- <-. rewrite Hroom. split_and!; try done.
      - exists []. split_and!;
          [done | intros a Ha; by destruct (Hnil a) | done | done |].
        intros a. split; [by left|]. intros [H|H]; [done|by destruct (Hnil a)].
      - unfold process_ai_messages. by rewrite Hroom. }
  case_bool_decide as Hphase.
  { injection Hout as <- <-. rewrite Hroom. split_and!; try done.
    - exists []. split_and!;
        [done | intros a Ha; by destruct (Hnil a)
        | intros a st [= <-] Hd'; by destruct Hphase
        | intros st _; split; [apply sublist_nil_l | intros; constructor] |].
      intros a. split; [by left|]. intros [H|H]; [done|by destruct (Hnil a)].
    - unfold process_ai_messages. rewrite Hroom.
      by rewrite bool_decide_true. }
  assert (Hd : phase (state room) = DISCUSSION).
  { destruct (decide (phase (state room) = DISCUSSION)); [done|by destruct Hphase]. }
  set (todo := List.filter _ (pending_ai_messages (state room))) in Hout.
  assert (Htodo : ∀ a, a ∈ todo ↔
            a ∈ pending_ai_messages (state room) ∧ a ∉ ai_processing_agents room).
  { intros a. unfold todo.
    rewrite list_elem_of_In, filter_In, <- list_elem_of_In.
    by rewrite negb_true_iff, bool_decide_eq_false. }
  assert (Hocc : ∀ a, a ∉ ai_processing_agents room →
            occurrences a todo = occurrences a (pending_ai_messages (state room))).
  { intros a Ha. unfold todo. rewrite occurrences_filter.
    by rewrite bool_decide_false. }
  assert (Hnd : NoDup (pending_ai_messages (state room)) → NoDup todo).
  { intros H. by apply NoDup_ListNoDup, List.NoDup_filter, NoDup_ListNoDup. }
  assert (Hflight : ∀ a, (∃ room0, Some room = Some room0 ∧ a ∈ ai_processing_agents room0)
                         ↔ a ∈ ai_processing_agents room).
  { intros a. split; [by intros (? & [= <-] & ?)|]. intros. by exists room. }
  destruct todo as [|a0 todo0] eqn:Ht.
  { injection Hout as <- <-. rewrite Hroom. split_and!; try done.
    - exists []. split_and!;
        [done | intros a Ha; by destruct (Hnil a)
        | intros a st [= <-] _ Hnot; apply Hocc; by rewrite <- Hflight
        | intros st _; split; [apply sublist_nil_l | intros; constructor] |].
      intros a. split; [by left|]. intros [H|H]; [done|by destruct (Hnil a)].
    - unfold process_ai_messages. rewrite Hroom.
      rewrite bool_decide_false by (rewrite Hd; auto). fold todo. by rewrite Ht. }
  rewrite <- Ht in *. injection Hout as <- <-. rewrite lookup_insert_eq.
  split_and!.
  - done.
  - exists todo. split_and!.
    + done.
    + intros a Ha. apply Htodo in Ha as [Ha Hnot]. exists (state room).
      split_and!; try done. by rewrite Hflight.
    + intros a st [= <-] _ Hnot. apply Hocc. by rewrite <- Hflight.
    + intros st [= <-]. split; [apply filter_sublist | apply Hnd].
    + intros a. rewrite Hflight. split.
      * intros (room' & [= <-] & Hin). cbn in Hin.
        apply elem_of_union in Hin as [Hin|Hin]; [by left|].
        right. by apply elem_of_list_to_set in Hin.
      * intros Hin. eexists. split; [reflexivity|]. cbn.
        destruct Hin as [Hin|Hin]; [by apply elem_of_union_l|].
        by apply elem_of_union_r, elem_of_list_to_set.
  - unfold process_ai_messages. rewrite lookup_insert_eq. cbn.
    rewrite bool_decide_false by (rewrite Hd; auto). unfold todo.
    by rewrite filter_in_flight_nil.
Qed.

End waves.

(** * Joining a room *)

Section joining.
Import PyDict PyRandom main Spec.

(** X14: a call of [join_room] that takes the last seat finds the
    room registered and waiting, with a free seat; it appends the new
    human to the humans of the room and to the players of the game, and
    marks the room as in progress.  From then on every call of [join_room]
    for the room is refused as in progress and changes nothing, so that
    the game of a room is started once. *)
Theorem join_room_starts_once rc t1 t2 g (rooms : gmap string Room) pid :
  let out := join_room rc t1 t2 g rooms in
  out.1.1.1 = Ok (Joined pid true) →
  ∃ room room',
    rooms !! rc = Some room ∧ room_status room = waiting ∧
    length (current_humans room) < max_humans room ∧
    out.1.1.2 !! rc = Some room' ∧
    room_status room' = in_progress ∧
    current_humans room' = current_humans room ++ [pid] ∧
    max_humans room' ≤ length (current_humans room') ∧
    players (state room')
    = players (state room) ++ [mkPlayer pid human false None] ∧
    ∀ t1' t2' g2,
      join_room rc t1' t2' g2 out.1.1.2
      = (Ok JoinInProgress, out.1.1.2, [], g2).
Proof.
  cbn zeta.
  destruct (join_room rc t1 t2 g rooms) as [[[r rooms'] evs] g'] eqn:Hout.
  cbn [fst snd]. intros ->. unfold join_room in Hout.
  destruct (rooms !! rc) as [room|] eqn:Hroom.
  2:{ destruct (shuffle _ g) as [numbers g1].
      rewrite create_game_for_room_type_error in Hout. discriminate. }
  rewrite Hroom in Hout.
  destruct (room_status room) eqn:Hstatus; [|discriminate..].
  destruct (Nat.leb_spec (max_humans room) (length (current_humans room)))
    as [|Hfree]; [discriminate|].
  set (alloc := match available_numbers room with [] => _ | _ => _ end) in Hout.
  destruct alloc as [[number rest] g''].
  destruct (Nat.leb_spec (max_humans room)
              (length (current_humans room ++ [player_name number])))
    as [Hfull|]; [|discriminate].
  assert (Hlater : ∀ room', room_status room' = in_progress →
    ∀ t1' t2' g2,
      join_room rc t1' t2' g2 (<[rc := room']> rooms)
      = (Ok JoinInProgress, <[rc := room']> rooms, [], g2)).
  { intros room' Hst t1' t2' g2. unfold join_room.
    rewrite lookup_insert_eq. cbn beta iota zeta.
    rewrite lookup_insert_eq. by rewrite Hst. }
  destruct (initialized room).
  - injection Hout as <- <- <- <-. rewrite lookup_insert_eq.
    eexists room, _. split_and!; try done. by apply Hlater.
  - cbn [start_phases] in Hout. injection Hout as <- <- <- <-.
    rewrite lookup_insert_eq.
    eexists room, _. split_and!; try done. by apply Hlater.
Qed.

End joining.

Section joining_examples.
Import PyDict PyRandom main Spec Examples.

Lemma join_room_starts_once_witness :
  (join_room "ROOM03" 0%Q 0%Q tape_zero
     {[ "ROOM03" := waiting_room fresh_game ]}).1.1.1
  = Ok (Joined "Player 4" true) ∧
  ∀ t1 t2 g,
    (join_room "ROOM03" t1 t2 g
       (join_room "ROOM03" 0%Q 0%Q tape_zero
          {[ "ROOM03" := waiting_room fresh_game ]}).1.1.2).1.1.1
    = Ok JoinInProgress.
Proof.
  assert (Hjoined :
    (join_room "ROOM03" 0%Q 0%Q tape_zero
       {[ "ROOM03" := waiting_room fresh_game ]}).1.1.1
    = Ok (Joined "Player 4" true)) by (vm_compute; reflexivity).
  split; [exact Hjoined|]. intros t1 t2 g.
  destruct (join_room_starts_once "ROOM03" 0%Q 0%Q tape_zero
              {[ "ROOM03" := waiting_room fresh_game ]} "Player 4" Hjoined)
    as (room & room' & _ & _ & _ & _ & _ & _ & _ & _ & Hlater).
  by rewrite Hlater.
Defined.

End joining_examples.


(** * The state of a new game *)

Section initial_state.
Import PyDict PyRandom main Spec.

Lemma str_of_nat_inj n m : str_of_nat n = str_of_nat m → n = m.
Proof.
  unfold str_of_nat. intros Heq.
  assert (H : NilEmpty.uint_of_string (NilEmpty.string_of_uint (Nat.to_uint n))
              = NilEmpty.uint_of_string (NilEmpty.string_of_uint (Nat.to_uint m)))
    by (by rewrite Heq).
  rewrite !NilEmpty.usu in H. injection H as H.
  by apply Unsigned.to_uint_inj in H.
Qed.

Lemma player_name_inj n m : player_name n = player_name m → n = m.
Proof. unfold player_name. intros [= H]. by apply str_of_nat_inj. Qed.

Lemma set_fresh {V : Type} (d : list (string * V)) k v :
  k ∉ PyDict.keys d → PyDict.set d k v = d ++ [(k, v)].
Proof.
  unfold PyDict.keys. induction d as [|[k0 v0] d IH]; [done|].
  cbn [map fst]. rewrite not_elem_of_cons. intros [Hne Hnot].
  cbn [PyDict.set]. rewrite decide_False by done. cbn. by rewrite IH.
Qed.

Lemma fold_set_fresh {V : Type} (l acc : list (string * V)) :
  NoDup (PyDict.keys (acc ++ l)) →
  fold_left (fun acc kv => PyDict.set acc (fst kv) (snd kv)) l acc = acc ++ l.
Proof.
  revert acc. induction l as [|[k v] l IH]; intros acc Hnd.
  - by rewrite app_nil_r.
  - cbn [fold_left fst snd]. rewrite set_fresh.
    + rewrite IH; rewrite <- app_assoc; done.
    + unfold PyDict.keys in *. rewrite map_app in Hnd.
      apply NoDup_app in Hnd as (_ & Hdisj & _).
      intros Hin. apply (Hdisj _ Hin). left.
Qed.

Lemma personalities_of_agents (ps : list PlayerInfo) :
  NoDup (map id ps) → Forall (fun p => role p = ai) ps →
  personalities_of ps = map (fun p => (id p, personality p)) ps.
Proof.
  intros Hnd Hai. unfold personalities_of.
  transitivity
    (fold_left (fun acc kv => PyDict.set acc (fst kv) (snd kv))
       (map (fun p => (id p, personality p)) ps) []).
  - generalize (@nil (string * option string)). clear Hnd.
    induction Hai as [|p ps Hp Hai IH]; intros acc; [done|].
    cbn [fold_left map fst snd]. rewrite Hp. apply IH.
  - apply (fold_set_fresh _ []). rewrite app_nil_l. unfold PyDict.keys.
    by rewrite map_map.
Qed.

Lemma combine_keys {V : Type} (ks : list string) (vs : list V) :
  length ks = length vs → PyDict.keys (combine ks vs) = ks.
Proof.
  unfold PyDict.keys.
  revert vs. induction ks as [|k ks IH]; intros [|v vs]; try done.
  intros [= Hlen]. cbn. by rewrite IH.
Qed.

Lemma combine_values {V : Type} (ks : list string) (vs : list V) :
  length ks = length vs → PyDict.values (combine ks vs) = vs.
Proof.
  unfold PyDict.values.
  revert vs. induction ks as [|k ks IH]; intros [|v vs]; try done.
  intros [= Hlen]. cbn. by rewrite IH.
Qed.

Lemma dict_of_zip_combine {V : Type} (ks : list string) (vs : list V) :
  NoDup ks → length ks = length vs → dict_of_zip ks vs = combine ks vs.
Proof.
  intros Hnd Hlen. unfold dict_of_zip. rewrite fold_set_fresh; [done|].
  rewrite app_nil_l. by rewrite combine_keys.
Qed.

Lemma make_ai_players_personalities names g ps g' :
  make_ai_players names g = (Ok ps, g') →
  Forall (fun p => ∃ s, personality p = Some s ∧ s ∈ config.AI_PERSONALITIES) ps.
Proof.
  revert g ps g'. induction names as [|name rest IH]; intros g ps g'.
  - intros [= <- _]. constructor.
  - cbn [make_ai_players]. unfold choice.
    unfold config.AI_PERSONALITIES at 1.
    assert (Hin := pick_lookup "slightly sarcastic"
      (tl config.AI_PERSONALITIES) g).
    unfold config.AI_PERSONALITIES at 2 in Hin. cbn [tl] in Hin.
    destruct (pick _ _ g) as [pers g1]. cbn [fst] in Hin.
    apply list_elem_of_lookup_2 in Hin.
    destruct (make_ai_players rest g1) as [[ps'|e] g2] eqn:Hrest; [|discriminate].
    intros [= <- <-]. constructor; [|by eapply IH].
    by exists pers.
Qed.

(** What [create_initial_state] returns, field by field. *)
Lemma create_initial_state_spec rc n t1 t2 g :
  ∃ st g',
    create_initial_state rc n t1 t2 g = (Ok st, g') ∧
    room_code st = rc ∧ num_ai_players st = n ∧ length (players st) = n ∧
    NoDup (map id (players st)) ∧
    ai_personalities st = map (fun p => (id p, personality p)) (players st) ∧
    Forall
      (fun p => ∃ s, personality p = Some s ∧ s ∈ config.AI_PERSONALITIES)
      (players st) ∧
    PyDict.keys (pseudonym_map st) = map id (players st) ∧
    PyDict.values (pseudonym_map st)
    ≡ₚ map (fun i => "P" +:+ str_of_nat i) (seq 1 n) ∧
    topic st ∈ config.GAME_TOPICS ∧
    winner st = None ∧ pending_ai_messages st = [] ∧ pending_ai_votes st = [].
Proof.
  unfold create_initial_state.
  assert (Hperm := shuffle_Permutation (map player_name (seq 1 n)) g).
  destruct (shuffle (map player_name (seq 1 n)) g) as [ai_names g1].
  cbn [fst] in Hperm.
  assert (Hnd : NoDup ai_names).
  { rewrite Hperm. apply NoDup_fmap_2; [|apply NoDup_seq].
    intros a b. apply player_name_inj. }
  assert (Hlen : length ai_names = n).
  { by rewrite Hperm, length_map, length_seq. }
  destruct (make_ai_players_ok ai_names g1) as (ps & g2 & Hmk & Hids & Hall).
  assert (Hpers := make_ai_players_personalities _ _ _ _ Hmk).
  rewrite Hmk.
  set (pseudos0 := map (fun i => "P" +:+ str_of_nat (i + 1))
                     (seq 0 (length (map id ps)))).
  assert (Hperm2 := shuffle_Permutation pseudos0 g2).
  destruct (shuffle pseudos0 g2) as [pseudos g3]. cbn [fst] in Hperm2.
  unfold choice. unfold config.GAME_TOPICS at 1.
  assert (Hin := pick_lookup "What's the best topping for pizza?"
    (tl config.GAME_TOPICS) g3).
  unfold config.GAME_TOPICS at 2 in Hin. cbn [tl] in Hin.
  destruct (pick _ _ g3) as [tp g4]. cbn [fst] in Hin.
  apply list_elem_of_lookup_2 in Hin.
  eexists _, g4. split; [reflexivity|].
  cbn [room_code num_ai_players players ai_personalities pseudonym_map topic
         winner pending_ai_messages pending_ai_votes].
  assert (Hlen2 : length (map id ps) = length pseudos).
  { rewrite Hperm2. unfold pseudos0. by rewrite !length_map, length_seq. }
  assert (Hps0 : pseudos0 = map (fun i => "P" +:+ str_of_nat i) (seq 1 n)).
  { unfold pseudos0. rewrite Hids, Hlen. rewrite <- (fmap_S_seq 0).
    rewrite <- list_fmap_compose. apply map_ext. intros i. cbn.
    by rewrite Nat.add_1_r. }
  split_and!; try done.
  - by rewrite <- (length_map id), Hids.
  - by rewrite Hids.
  - apply personalities_of_agents; [by rewrite Hids|].
    eapply Forall_impl; [exact Hall|]. by intros p [? _].
  - rewrite dict_of_zip_combine; [|by rewrite Hids|done].
    by apply combine_keys.
  - rewrite dict_of_zip_combine; [|by rewrite Hids|done].
    rewrite combine_values by done. by rewrite Hperm2, Hps0.
Qed.

(** X4: [create_initial_state] never raises.  The state it returns
    has [n] players with distinct names; the personalities mapping has one
    entry per player, in the order of the players, with the personality of
    the player, which is one of [AI_PERSONALITIES]; the pseudonym mapping
    has the names of the players as its keys, in that order, and the
    labels P1 .. Pn in some order as its values; the topic is one of
    [GAME_TOPICS]; there is no winner and nothing is pending. *)
Theorem create_initial_state_maps rc n t1 t2 g :
  ∃ st g',
    create_initial_state rc n t1 t2 g = (Ok st, g') ∧
    room_code st = rc ∧ num_ai_players st = n ∧ length (players st) = n ∧
    NoDup (map id (players st)) ∧
    ai_personalities st = map (fun p => (id p, personality p)) (players st) ∧
    Forall
      (fun p => ∃ s, personality p = Some s ∧ s ∈ config.AI_PERSONALITIES)
      (players st) ∧
    PyDict.keys (pseudonym_map st) = map id (players st) ∧
    PyDict.values (pseudonym_map st)
    ≡ₚ map (fun i => "P" +:+ str_of_nat i) (seq 1 n) ∧
    topic st ∈ config.GAME_TOPICS ∧
    winner st = None ∧ pending_ai_messages st = [] ∧ pending_ai_votes st = [].
Proof. apply create_initial_state_spec. Qed.

Lemma should_agent_respond_ok st a llm g :
  is_Some (PyDict.get (ai_personalities st) a) →
  ∃ j g', _should_agent_respond st a llm g = (Ok j, g').
Proof.
  intros [pers Hp]. unfold _should_agent_respond. rewrite Hp.
  destruct (llm 0) as [e|content [doc|]].
  - destruct (random_random g). by eexists _, _.
  - destruct (json_get doc "should_respond" (JBool false)) as [j|e].
    + destruct (json_get doc "reason" (JStr "No reason provided")) as [j'|e].
      * by eexists _, _.
      * destruct (random_random g). by eexists _, _.
    + destruct (random_random g). by eexists _, _.
  - destruct (random_random g). by eexists _, _.
Qed.

Lemma responding_ais_ok st ais llm g :
  (∀ a, a ∈ ais → is_Some (PyDict.get (ai_personalities st) a)) →
  responding_ais st ais llm g
  = (Ok (decide_responders st ais llm g).1, (decide_responders st ais llm g).2).
Proof.
  revert g. induction ais as [|a ais IH]; intros g Hall; [done|].
  cbn [responding_ais decide_responders].
  destruct (should_agent_respond_ok st a (llm a) g) as (j & g1 & Hj);
    [apply Hall; left|].
  rewrite Hj. rewrite IH by (intros b Hb; apply Hall; by right).
  by destruct (decide_responders st ais llm g1) as [more g2].
Qed.

(** X5: in a state that [create_initial_state] returned, the lookup
    of the personality succeeds for every player, so that
    [_should_agent_respond] and [_generate_ai_message] return for each of
    them whatever the model does, and [discussion_phase_node], which has no
    [try] around the decisions, does not raise: it selects speakers among
    the players, in their order, the same that the decision loop of
    [trigger_agent_decisions] selects. *)
Theorem fresh_state_agents_decide rc n t1 t2 g0 st g1 llm g :
  create_initial_state rc n t1 t2 g0 = (Ok st, g1) →
  (∀ a, a ∈ map id (players st) →
     (∃ j g2, _should_agent_respond st a (llm a) g = (Ok j, g2)) ∧
     ∃ text, _generate_ai_message st a (llm a) = Ok text) ∧
  ∃ responding g',
    discussion_phase_node st llm g = (Ok (DISCUSSION, responding), g') ∧
    sublist responding (map id (players st)) ∧
    decide_responders st (active_ais st) llm g = (responding, g').
Proof.
  intros Hcreate.
  destruct (create_initial_state_spec rc n t1 t2 g0)
    as (st0 & g1' & Hc & _ & _ & _ & Hnd & Hpers & _).
  rewrite Hcreate in Hc. injection Hc as <- <-.
  assert (Hget : ∀ a, a ∈ map id (players st) →
            is_Some (PyDict.get (ai_personalities st) a)).
  { intros a Ha. destruct (PyDict.get (ai_personalities st) a) eqn:Hg; [done|].
    apply get_None_not_key in Hg. destruct Hg.
    rewrite Hpers. unfold PyDict.keys. by rewrite map_map. }
  split.
  - intros a Ha. split; [by apply should_agent_respond_ok, Hget|].
    unfold _generate_ai_message. destruct (Hget a Ha) as [pers ->].
    destruct (llm a 0); by eexists.
  - unfold discussion_phase_node. fold (active_ais st).
    assert (Hact : sublist (active_ais st) (map id (players st))).
    { unfold active_ais. apply (fmap_sublist id), filter_sublist. }
    rewrite responding_ais_ok.
    + eexists _, _. split; [reflexivity|]. split.
      * etrans; [apply decide_responders_sublist|done].
      * by destruct (decide_responders st (active_ais st) llm g).
    + intros a Ha. apply Hget. by eapply elem_of_sublist.
Qed.

End initial_state.

Section initial_state_examples.
Import PyDict PyRandom main Spec Examples.

Lemma fresh_state_agents_decide_witness :
  create_initial_state "ROOM03" 3 0%Q 0%Q tape_zero
  = (Ok fresh_game, (create_initial_state "ROOM03" 3 0%Q 0%Q tape_zero).2) ∧
  ∃ responding g',
    discussion_phase_node fresh_game (fun _ => llm_raises OtherError) tape_zero
    = (Ok (DISCUSSION, responding), g').
Proof.
  assert (Hcreate :
    create_initial_state "ROOM03" 3 0%Q 0%Q tape_zero
    = (Ok fresh_game, (create_initial_state "ROOM03" 3 0%Q 0%Q tape_zero).2)).
  { rewrite (surjective_pairing
               (create_initial_state "ROOM03" 3 0%Q 0%Q tape_zero)) at 1.
    f_equal. }
  split; [exact Hcreate|].
  destruct (fresh_state_agents_decide "ROOM03" 3 0%Q 0%Q tape_zero fresh_game
              _ (fun _ => llm_raises OtherError) tape_zero Hcreate)
    as [_ (responding & g' & Hnode & _)].
  by exists responding, g'.
Defined.

End initial_state_examples.


(** * The voting loop of the agents *)

Section ai_votes_loop.
Import PyDict PyRandom main Spec.

Lemma generate_ai_vote_calls st a llm g : (_generate_ai_vote st a llm g).1.2 ≤ 3.
Proof.
  unfold _generate_ai_vote.
  assert (H := vote_attempts_calls 3 (eligible_targets st a) llm).
  destruct (vote_attempts 3 (eligible_targets st a) llm) as [[[t|]|e] calls];
    cbn [fst snd] in *; try done.
  by destruct (choice (eligible_targets st a) g).
Qed.

Lemma update_keys {V : Type} (d other : list (string * V)) k :
  k ∈ PyDict.keys d ∨ k ∈ PyDict.keys other → k ∈ PyDict.keys (PyDict.update d other).
Proof.
  unfold PyDict.update. revert d. induction other as [|[k0 v0] other IH]; intros d.
  - intros [H|H]; [done|]. by apply elem_of_nil in H.
  - cbn [fold_left fst snd]. intros H. apply IH.
    rewrite keys_set. destruct (PyDict.contains d k0) eqn:Hc.
    + destruct H as [H|H]; [by left|].
      unfold PyDict.keys in H. cbn [map fst] in H.
      apply elem_of_cons in H as [->|H]; [|by right]. left.
      unfold PyDict.contains in Hc.
      destruct (PyDict.get d k0) eqn:Hg; [|done].
      apply get_Some_elem_of in Hg. unfold PyDict.keys.
      apply list_elem_of_fmap. by exists (k0, v).
    + destruct H as [H|H]; [left; apply elem_of_app; by left|].
      unfold PyDict.keys in H. cbn [map fst] in H.
      apply elem_of_cons in H as [->|H]; [|by right]. left.
      apply elem_of_app. right. left.
Qed.

Lemma filter_ne_length (a : string) (l : list string) :
  length (List.filter (fun aid => negb (String.eqb aid a)) l) ≤ length l.
Proof.
  induction l as [|x l IH]; [done|]. cbn [List.filter].
  destruct (negb _); simpl; lia.
Qed.

(** What a turn of the loop leaves. *)
Lemma process_ai_votes_turn_step rc st llm now g (rooms : gmap string Room)
    room a rest :
  rooms !! rc = Some room →
  pending_ai_votes st = a :: rest →
  let out := process_ai_votes_turn rc st llm now g rooms in
  out.1.2 ≤ 3 ∧
  ∀ st1 continue, out.1.1.1.1 = Ok (st1, continue) →
    phase st1 = phase st ∧
    pending_ai_votes st1
    = List.filter (fun aid => negb (String.eqb aid a)) rest ∧
    a ∈ PyDict.keys (votes st1) ∧
    (∀ k, k ∈ PyDict.keys (votes st) → k ∈ PyDict.keys (votes st1)) ∧
    if continue then out.1.1.1.2 = <[rc := set_state st1 room]> rooms
    else ∃ g1,
      Nat.leb (length (active_players st1)) (length (votes st1)) = true ∧
      out.1.1.1.2
      = (complete_voting rc now g1 (<[rc := set_state st1 room]> rooms)).1.1.
Proof.
  intros Hroom Hp. cbn zeta. unfold process_ai_votes_turn. rewrite Hp.
  unfold ai_vote_agent_node. rewrite Hp.
  destruct (uniform _ _ g) as [u g0].
  assert (Hcalls := generate_ai_vote_calls st a llm g0).
  destruct (_generate_ai_vote st a llm g0) as [[[t|e] calls] g1];
    cbn [fst snd] in Hcalls; [|by split].
  rewrite Hroom. cbn [res_pending_ai_votes res_votes res_broadcast_queue].
  set (st1 := set_pending_ai_votes _ _).
  assert (Hst1 : phase st1 = phase st ∧
    pending_ai_votes st1
    = List.filter (fun aid => negb (String.eqb aid a)) rest ∧
    a ∈ PyDict.keys (votes st1) ∧
    (∀ k, k ∈ PyDict.keys (votes st) → k ∈ PyDict.keys (votes st1))).
  { unfold st1. cbn [phase pending_ai_votes votes set_pending_ai_votes set_votes].
    split_and!; [done| | |].
    - cbn [List.filter]. by rewrite String.eqb_refl.
    - apply update_keys. right. rewrite keys_set.
      destruct (PyDict.contains (votes st) a) eqn:Hc.
      + unfold PyDict.contains in Hc.
        destruct (PyDict.get (votes st) a) eqn:Hg; [|done].
        apply get_Some_elem_of in Hg. unfold PyDict.keys.
        apply list_elem_of_fmap. by exists (a, o).
      + apply elem_of_app. right. left.
    - intros k Hk. apply update_keys. by left. }
  destruct (Nat.leb _ _) eqn:Hleb.
  - destruct (complete_voting rc now g1 _) as [[rooms2 evs2] g2] eqn:Hcv.
    cbn [fst snd]. split; [done|]. intros st1' c [= <- <-].
    destruct Hst1 as (? & ? & ? & ?). split_and!; try done.
    exists g1. by rewrite Hcv.
  - cbn [fst snd]. split; [done|]. intros st1' c [= <- <-].
    destruct Hst1 as (? & ? & ? & ?). by split_and!.
Qed.

Lemma process_ai_votes_loop_ends fuel rc st llm now g
    (rooms : gmap string Room) room :
  rooms !! rc = Some room → state room = st →
  length (pending_ai_votes st) ≤ fuel →
  ∃ run,
    process_ai_votes_loop fuel rc st llm now g rooms = Some run ∧
    run_calls run ≤ 3 * length (pending_ai_votes st) ∧
    (run_result run = Ok tt → phase st = VOTING →
     ∃ st', state_of (run_rooms run) rc = Some st' ∧
       (phase st' = GAME_OVER
        ∨ (phase st' = VOTING ∧ pending_ai_votes st' = [] ∧
           (∀ a, a ∈ pending_ai_votes st → a ∈ PyDict.keys (votes st')) ∧
           ∀ k, k ∈ PyDict.keys (votes st) → k ∈ PyDict.keys (votes st')))).
Proof.
  revert st llm g rooms room.
  induction fuel as [|fuel IH]; intros st llm g rooms room Hroom Hst Hlen.
  - destruct (pending_ai_votes st) eqn:Hp; [|simpl in Hlen; lia].
    cbn [process_ai_votes_loop]. unfold ai_votes_pending. rewrite Hp.
    eexists. split; [reflexivity|]. cbn. split; [lia|].
    intros _ Hphase. exists st. unfold state_of. rewrite Hroom. cbn.
    split; [by rewrite Hst|]. right. split_and!; try done.
    intros a Ha. by apply elem_of_nil in Ha.
  - cbn [process_ai_votes_loop]. unfold ai_votes_pending.
    destruct (pending_ai_votes st) as [|a rest] eqn:Hp.
    { eexists. split; [reflexivity|]. cbn. split; [lia|].
      intros _ Hphase. exists st. unfold state_of. rewrite Hroom. cbn.
      split; [by rewrite Hst|]. right. split_and!; try done.
      intros a Ha. by apply elem_of_nil in Ha. }
    case_bool_decide as Hphase; cbn [negb].
    2:{ eexists. split; [reflexivity|]. cbn. split; [lia|]. by intros _ ?. }
    destruct (process_ai_votes_turn_step rc st llm now g rooms room a rest
                Hroom Hp) as [Hcalls Hstep].
    destruct (process_ai_votes_turn rc st llm now g rooms)
      as [[[[[[st1 continue]|e] rooms1] evs] calls] g1]; cbn [fst snd] in *.
    2:{ eexists. split; [reflexivity|]. cbn. split; [lia|]. done. }
    destruct (Hstep st1 continue eq_refl) as (Hph & Hpend & Ha & Hkeys & Hrooms).
    destruct continue.
    + subst rooms1.
      assert (Hlen1 : length (pending_ai_votes st1) ≤ fuel).
      { rewrite Hpend. etrans; [apply filter_ne_length|]. simpl in Hlen. lia. }
      destruct (IH st1 (llm_advance calls llm) g1
                  (<[rc := set_state st1 room]> rooms) (set_state st1 room))
        as (run & Hrun & Hc & Hfinal);
        [apply lookup_insert_eq | done | done |].
      rewrite Hrun. eexists. split; [reflexivity|]. cbn.
      split.
      { assert (length (pending_ai_votes st1) ≤ length rest)
          by (rewrite Hpend; apply filter_ne_length).
        lia. }
      intros Hok _. destruct (Hfinal Hok) as (st' & Hst' & Hend);
        [congruence|].
      exists st'. split; [done|].
      destruct Hend as [Hover|(Hv & Hnil & Hall & Hk)]; [by left|right].
      split_and!; try done.
      * intros b Hb. apply elem_of_cons in Hb as [->|Hb]; [by apply Hk|].
        destruct (String.eqb_spec b a) as [->|Hne]; [by apply Hk|].
        apply Hall. rewrite Hpend. apply list_elem_of_In, filter_In.
        split; [by apply list_elem_of_In|].
        apply negb_true_iff. by apply String.eqb_neq.
      * intros k Hk'. by apply Hk, Hkeys.
    + destruct Hrooms as (g0 & Hleb & ->).
      eexists. split; [reflexivity|]. cbn. split; [lia|].
      intros _ _.
      assert (Hover := complete_voting_phase rc now g0
                (<[rc := set_state st1 room]> rooms) (set_state st1 room)).
      rewrite lookup_insert_eq in Hover.
      specialize (Hover eq_refl). cbn [state set_state] in Hover.
      specialize (Hover ltac:(congruence)).
      destruct (state_of _ rc) as [st'|]; [|done].
      exists st'. split; [done|]. left. by injection Hover.
Qed.

(** X13: [process_ai_votes], when no other task writes the room while
    it is suspended, ends after at most one turn per pending agent, and
    invokes the model at most three times per pending agent.  When it ends
    without an exception in a room that was in the voting phase, either
    the vote has been resolved and the game is over, or the phase is still
    the voting phase, no agent is pending, every agent that was pending has
    an entry in the votes mapping, and no entry of the mapping was lost. *)
Theorem process_ai_votes_terminates rc llm now g (rooms : gmap string Room)
    room fuel :
  rooms !! rc = Some room →
  length (pending_ai_votes (state room)) ≤ fuel →
  ∃ run,
    process_ai_votes fuel rc llm now g rooms = Some run ∧
    run_calls run ≤ 3 * length (pending_ai_votes (state room)) ∧
    (run_result run = Ok tt → phase (state room) = VOTING →
     ∃ st', state_of (run_rooms run) rc = Some st' ∧
       (phase st' = GAME_OVER
        ∨ (phase st' = VOTING ∧ pending_ai_votes st' = [] ∧
           (∀ a, a ∈ pending_ai_votes (state room) →
              a ∈ PyDict.keys (votes st')) ∧
           ∀ k, k ∈ PyDict.keys (votes (state room)) →
              k ∈ PyDict.keys (votes st')))).
Proof.
  intros Hroom Hlen. unfold process_ai_votes. rewrite Hroom.
  by apply (process_ai_votes_loop_ends fuel rc _ llm now g rooms room).
Qed.

End ai_votes_loop.

Section ai_votes_loop_examples.
Import PyDict PyRandom main Spec Examples.

Lemma process_ai_votes_terminates_witness :
  ∃ run,
    process_ai_votes 3 "ROOM01"
      (llm_replies "{}" (JObj [("vote", JStr "Player 4")])) 0%Q tape_zero
      {[ "ROOM01" := agents_voting_room ]} = Some run ∧
    run_calls run ≤ 9.
Proof.
  destruct (process_ai_votes_terminates "ROOM01"
              (llm_replies "{}" (JObj [("vote", JStr "Player 4")])) 0%Q
              tape_zero {[ "ROOM01" := agents_voting_room ]}
              agents_voting_room 3 (lookup_singleton_eq _ _) (le_n 3))
    as (run & Hrun & Hcalls & _).
  exists run. split; [exact Hrun | exact Hcalls].
Defined.

End ai_votes_loop_examples.


(** * The turn of an agent that nothing disturbs *)

Section undisturbed_turn.
Import PyDict PyRandom main Spec.

(** X11: the turn of an agent that is authorised to speak, in a room
    that stays in the discussion phase and that no other task writes
    meanwhile, commits: the typing indicator is started, the message is
    appended to the chat log as its last entry (the text of the model, or
    "hmm" when the model raises), announced, and the indicator is stopped;
    the agent leaves the pending speakers and the set of turns in flight;
    one engagement wave is scheduled, from which the speaker is excluded.
    Votes, players and the other rooms are untouched. *)
Theorem undisturbed_turn_commits rc ai llm t_msg t_last g
    (rooms : gmap string Room) room pers :
  rooms !! rc = Some room →
  phase (state room) = DISCUSSION →
  ai ∈ pending_ai_messages (state room) →
  PyDict.get (ai_personalities (state room)) ai = Some pers →
  let out :=
    process_single_ai_message rc ai llm t_msg t_last g
      (mkInterleaving (fun r => r) (fun r => r) (fun r => r)) rooms in
  let text :=
    match llm 0 with
    | LlmReplies content _ => content
    | LlmRaises _ => "hmm"
    end in
  ∃ room',
    out.1.1 !! rc = Some room' ∧
    chat_history (state room')
    = chat_history (state room) ++ [mkChat ai text t_msg] ∧
    pending_ai_messages (state room')
    = List.filter (fun aid => negb (String.eqb aid ai))
        (pending_ai_messages (state room)) ∧
    last_message_time (state room') = t_last ∧
    phase (state room') = DISCUSSION ∧
    votes (state room') = votes (state room) ∧
    players (state room') = players (state room) ∧
    ai_processing_agents room' = ai_processing_agents room ∖ {[ai]} ∧
    out.1.2 = [ EBroadcast rc (BTyping ai true) None;
                EBroadcast rc (BMessage ai text) None;
                EBroadcast rc (BTyping ai false) None;
                ECreateTask (TriggerAgentDecisions rc [ai]) ] ∧
    ∀ rc', rc' ≠ rc → out.1.1 !! rc' = rooms !! rc'.
Proof.
  intros Hroom Hphase Hpending Hpers. cbn zeta.
  unfold process_single_ai_message, single_ai_begin. rewrite Hroom.
  rewrite bool_decide_true by done.
  unfold ai_chat_agent_node, _generate_ai_message. rewrite Hpers.
  set (text := match llm 0 with LlmReplies content _ => content | LlmRaises _ => "hmm" end).
  assert (Hmsg : match llm 0 with
                 | LlmRaises _ => Ok "hmm"
                 | LlmReplies content _ => Ok content
                 end = Ok text) by (unfold text; by destruct (llm 0)).
  rewrite Hmsg. destruct (uniform 1 2 g) as [delay g'].
  cbn [while_generating while_typing while_closing].
  unfold single_ai_generated. rewrite Hroom.
  rewrite !bool_decide_false by (rewrite Hphase; auto).
  unfold single_ai_delayed. rewrite Hroom.
  rewrite bool_decide_false by (rewrite Hphase; auto).
  cbn [res_ai_sender res_ai_message res_pending_ai_messages
       res_last_message_time res_chat_history].
  unfold single_ai_wrapup. rewrite lookup_insert_eq.
  cbn [state set_state phase set_pending_ai_messages set_last_message_time
       set_chat_history].
  rewrite bool_decide_true by done.
  unfold single_ai_finally. rewrite lookup_insert_eq. cbn [fst snd].
  rewrite lookup_insert_eq. eexists. split; [reflexivity|].
  cbn. split_and!; try done.
  intros rc' Hne. by rewrite !lookup_insert_ne.
Qed.

End undisturbed_turn.

Section undisturbed_turn_examples.
Import PyDict PyRandom main Spec Examples.

Lemma undisturbed_turn_commits_witness :
  ∃ room',
    (process_single_ai_message "ROOM01" "Player 1" (llm_says "hello there")
       1%Q 1%Q tape_zero
       (mkInterleaving (fun r => r) (fun r => r) (fun r => r))
       {[ "ROOM01" := discussing_room ]}).1.1 !! "ROOM01" = Some room' ∧
    chat_history (state room') = [mkChat "Player 1" "hello there" 1%Q] ∧
    pending_ai_messages (state room') = [].
Proof.
  destruct (undisturbed_turn_commits "ROOM01" "Player 1"
              (llm_says "hello there") 1%Q 1%Q tape_zero
              {[ "ROOM01" := discussing_room ]} discussing_room
              (Some "inquisitive")
              (lookup_singleton_eq _ _) eq_refl (list_elem_of_here _ _) eq_refl)
    as (room' & Hlook & Hchat & Hpending & _).
  exists room'. split; [exact Hlook|]. split; [exact Hchat | exact Hpending].
Defined.

End undisturbed_turn_examples.


(** * The room manager of the chat platform front end *)

Section dict_del.
Context {K V : Type} `{EqDecision K}.
Implicit Types (d : list (K * V)) (k : K).

Lemma get_del d k k' :
  PyDict.get (PyDict.del d k) k'
  = if decide (k = k') then None else PyDict.get d k'.
Proof.
  unfold PyDict.del. induction d as [|[k0 v0] d IH]; cbn [List.filter PyDict.get fst].
  - by destruct (decide (k = k')).
  - case_bool_decide as Hk0; cbn [negb PyDict.get].
    + subst k0. rewrite IH. by destruct (decide (k = k')).
    + rewrite IH. destruct (decide (k0 = k')) as [->|]; [|done].
      by rewrite decide_False by congruence.
Qed.

Lemma del_absent d k : PyDict.contains d k = false → PyDict.del d k = d.
Proof.
  unfold PyDict.contains, PyDict.del.
  induction d as [|[k0 v0] d IH]; [done|]. cbn [PyDict.get List.filter fst].
  destruct (decide (k0 = k)) as [->|Hne]; [done|].
  rewrite bool_decide_false by done. cbn [negb]. intros Hc. by rewrite IH.
Qed.

Lemma del_guarded d k :
  (if PyDict.contains d k then PyDict.del d k else d) = PyDict.del d k.
Proof.
  destruct (PyDict.contains d k) eqn:Hc; [done|]. by rewrite del_absent.
Qed.

Lemma length_del d k : length (PyDict.del d k) ≤ length d.
Proof.
  unfold PyDict.del. induction d as [|kv d IH]; [done|]. cbn [List.filter].
  destruct (negb _); simpl; lia.
Qed.

Lemma get_set d k k' v :
  PyDict.get (PyDict.set d k v) k'
  = if decide (k = k') then Some v else PyDict.get d k'.
Proof.
  destruct (decide (k = k')) as [->|Hne]; [apply get_set_eq|by apply get_set_ne].
Qed.

Lemma length_set_le d k v : length (PyDict.set d k v) ≤ S (length d).
Proof. rewrite length_set. destruct (PyDict.contains d k); lia. Qed.

Lemma contains_is_Some d k :
  PyDict.contains d k = true ↔ is_Some (PyDict.get d k).
Proof.
  unfold PyDict.contains. destruct (PyDict.get d k); split; try done.
Qed.

Lemma NoDup_keys_del d k :
  NoDup (PyDict.keys d) → NoDup (PyDict.keys (PyDict.del d k)).
Proof.
  unfold PyDict.keys, PyDict.del. induction d as [|[k0 v0] d IH]; [done|].
  rewrite map_cons, NoDup_cons. intros [Hnot Hnd]. cbn [List.filter].
  destruct (negb _); [|by apply IH].
  rewrite map_cons, NoDup_cons. split; [|by apply IH].
  intros Hin. apply Hnot. revert Hin. rewrite !list_elem_of_fmap.
  intros (y & Hy1 & Hy). exists y. split; [done|].
  apply list_elem_of_In. apply list_elem_of_In, filter_In in Hy. tauto.
Qed.

End dict_del.

Section room_manager.
Import PyDict PyRandom game_manager Spec.
Implicit Types (m : utils.DiscordRoomManager) (rc : string) (d : Z).

(** What [remove_player_from_room] leaves, entry by entry. *)
Lemma remove_player_from_room_spec m rc d room :
  PyDict.get (utils.rooms m) rc = Some room →
  let m' := (utils.remove_player_from_room m rc d).2 in
  let room1 := utils.set_room_players (PyDict.del (utils.players room) d) room in
  (∀ d', PyDict.get (utils.player_to_room m') d'
         = if decide (d = d') then None
           else PyDict.get (utils.player_to_room m) d') ∧
  (∀ rc', rc' ≠ rc →
     PyDict.get (utils.rooms m') rc' = PyDict.get (utils.rooms m) rc') ∧
  (PyDict.get (utils.rooms m') rc = None
   ∨ PyDict.get (utils.rooms m') rc = Some room1).
Proof.
  intros Hroom. cbn zeta. unfold utils.remove_player_from_room. rewrite Hroom.
  rewrite del_guarded.
  assert (Hr1 : (if PyDict.contains (utils.players room) d
                 then utils.set_room_players
                        (PyDict.del (utils.players room) d) room
                 else room)
                = utils.set_room_players (PyDict.del (utils.players room) d) room).
  { destruct (PyDict.contains (utils.players room) d) eqn:Hc; [done|].
    rewrite del_absent by done. by destruct room. }
  rewrite Hr1.
  destruct (_ && _); cbn [snd utils.rooms utils.player_to_room].
  - split_and!.
    + intros d'. apply get_del.
    + intros rc' Hne. rewrite get_del, decide_False by done.
      by rewrite get_set, decide_False.
    + left. by rewrite get_del, decide_True.
  - split_and!.
    + intros d'. apply get_del.
    + intros rc' Hne. by rewrite get_set, decide_False.
    + right. by rewrite get_set, decide_True.
Qed.

Lemma remove_player_from_room_missing m rc d :
  PyDict.get (utils.rooms m) rc = None →
  (utils.remove_player_from_room m rc d).2 = m.
Proof. intros Hnone. unfold utils.remove_player_from_room. by rewrite Hnone. Qed.

(** Removing a player from the room that the player is mapped to keeps the
    invariant, and leaves the player in no registered room. *)
Lemma remove_player_from_room_inv m rc d :
  manager_inv m →
  PyDict.get (utils.player_to_room m) d = Some rc →
  let m' := (utils.remove_player_from_room m rc d).2 in
  manager_inv m' ∧
  (∀ rc' room', PyDict.get (utils.rooms m') rc' = Some room' →
     PyDict.get (utils.players room') d = None ∧
     ∃ room, PyDict.get (utils.rooms m) rc' = Some room ∧
       utils.max_humans room' = utils.max_humans room ∧
       utils.status room' = utils.status room ∧
       length (utils.players room') ≤ length (utils.players room)) ∧
  ∀ d', d' ≠ d →
    PyDict.get (utils.player_to_room m') d'
    = PyDict.get (utils.player_to_room m) d'.
Proof.
  intros Hinv Hmap. cbn zeta.
  destruct (PyDict.get (utils.rooms m) rc) as [room|] eqn:Hroom.
  2:{ rewrite remove_player_from_room_missing by done. split_and!; [done| |done].
      intros rc' room' Hr'. split.
      - destruct (PyDict.get (utils.players room') d) eqn:Hd; [|done].
        destruct (Hinv rc' room' Hr') as (_ & _ & _ & _ & Hp).
        rewrite Hp in Hmap by done. congruence.
      - by exists room'. }
  destruct (remove_player_from_room_spec m rc d room Hroom) as (Hp2r & Hother & Hrc).
  set (m' := (utils.remove_player_from_room m rc d).2) in *.
  assert (Hrooms : ∀ rc' room', PyDict.get (utils.rooms m') rc' = Some room' →
    (rc' = rc ∧
     room' = utils.set_room_players (PyDict.del (utils.players room) d) room)
    ∨ (rc' ≠ rc ∧ PyDict.get (utils.rooms m) rc' = Some room')).
  { intros rc' room' Hr'. destruct (decide (rc' = rc)) as [->|Hne].
    - left. split; [done|]. destruct Hrc as [Hrc|Hrc]; congruence.
    - right. split; [done|]. by rewrite <- Hother. }
  split_and!.
  - intros rc' room' Hr'. destruct (Hrooms rc' room' Hr') as [[-> ->]|[Hne Hold]].
    + destruct (Hinv rc room Hroom) as (Hcode & Hne & Hst & Hcap & Hp).
      cbn [utils.room_code utils.status utils.players utils.max_humans
           utils.set_room_players].
      split_and!; try done.
      * assert (Hl := length_del (utils.players room) d). lia.
      * intros d'. rewrite get_del. destruct (decide (d = d')) as [->|Hd].
        { by intros [? ?]. }
        intros Hsome. rewrite Hp2r, decide_False by done. by apply Hp.
    + destruct (Hinv rc' room' Hold) as (Hcode & Hne' & Hst & Hcap & Hp).
      split_and!; try done.
      intros d' Hsome. rewrite Hp2r. destruct (decide (d = d')) as [<-|Hd].
      * rewrite Hp in Hmap by done. congruence.
      * by apply Hp.
  - intros rc' room' Hr'. destruct (Hrooms rc' room' Hr') as [[-> ->]|[Hne Hold]].
    + cbn [utils.players utils.set_room_players utils.max_humans utils.status].
      split; [by rewrite get_del, decide_True|].
      exists room. split_and!; try done. apply length_del.
    + split; [|by exists room'].
      destruct (PyDict.get (utils.players room') d) eqn:Hd; [|done].
      destruct (Hinv rc' room' Hold) as (_ & _ & _ & _ & Hp).
      rewrite Hp in Hmap by done. congruence.
  - intros d' Hd. rewrite Hp2r. by rewrite decide_False.
Qed.

Lemma add_player_to_room_inv m rc d name display :
  manager_inv m →
  manager_inv (utils.add_player_to_room m rc d name display).2.
Proof.
  intros Hinv. unfold utils.add_player_to_room.
  destruct (PyDict.get (utils.rooms m) rc) as [room|] eqn:Hroom; [|done].
  destruct (utils.is_full room) eqn:Hfull; [done|].
  case_bool_decide as Hwaiting; [done|].
  set (m1 := match PyDict.get (utils.player_to_room m) d with
             | Some old => (utils.remove_player_from_room m old d).2
             | None => m
             end).
  assert (Hm1 : manager_inv m1 ∧
    (∀ rc' room', PyDict.get (utils.rooms m1) rc' = Some room' →
       PyDict.get (utils.players room') d = None ∧
       ∃ room0, PyDict.get (utils.rooms m) rc' = Some room0 ∧
         utils.max_humans room' = utils.max_humans room0 ∧
         utils.status room' = utils.status room0 ∧
         length (utils.players room') ≤ length (utils.players room0)) ∧
    ∀ d', d' ≠ d →
      PyDict.get (utils.player_to_room m1) d'
      = PyDict.get (utils.player_to_room m) d').
  { unfold m1. destruct (PyDict.get (utils.player_to_room m) d) as [old|] eqn:Hold.
    - by apply remove_player_from_room_inv.
    - split_and!; [done| |done]. intros rc' room' Hr'. split; [|by exists room'].
      destruct (PyDict.get (utils.players room') d) eqn:Hd; [|done].
      destruct (Hinv rc' room' Hr') as (_ & _ & _ & _ & Hp).
      rewrite Hp in Hold by done. discriminate. }
  clearbody m1. destruct Hm1 as (Hinv1 & Habsent & Hp2r).
  destruct (PyDict.get (utils.rooms m1) rc) as [room1|] eqn:Hroom1;
    cbn [snd]; intros rc' room' Hr'; cbn [utils.rooms utils.player_to_room] in *.
  - rewrite get_set in Hr'. destruct (decide (rc = rc')) as [<-|Hne].
    + injection Hr' as <-.
      destruct (Hinv1 rc room1 Hroom1) as (Hcode & Hne & Hst & Hcap & Hp).
      destruct (Habsent rc room1 Hroom1) as (Hd & room0 & Hr0 & Hmax & _ & Hlen).
      rewrite Hroom in Hr0. injection Hr0 as <-.
      cbn [utils.room_code utils.status utils.players utils.max_humans
           utils.set_room_players].
      split_and!; try done.
      * unfold utils.is_full, utils.num_humans in Hfull.
        apply Z.leb_gt in Hfull.
        assert (Hl := length_set_le (utils.players room1) d
                        (mkDiscordPlayer d name display
                           (utils.human_name (length (utils.players room1) + 1)))).
        lia.
      * intros d'. rewrite !get_set. destruct (decide (d = d')); [done|].
        apply Hp.
    + destruct (Hinv1 rc' room' Hr') as (Hcode & Hne' & Hst & Hcap & Hp).
      split_and!; try done. intros d' Hsome. rewrite get_set.
      destruct (decide (d = d')) as [<-|Hd]; [|by apply Hp].
      destruct (Habsent rc' room' Hr') as [Hnone _].
      rewrite Hnone in Hsome. by destruct Hsome.
  - destruct (Hinv1 rc' room' Hr') as (Hcode & Hne' & Hst & Hcap & Hp).
    split_and!; try done. intros d' Hsome. rewrite get_set.
    destruct (decide (d = d')) as [<-|Hd]; [|by apply Hp].
    destruct (Habsent rc' room' Hr') as [Hnone _].
    rewrite Hnone in Hsome. by destruct Hsome.
Qed.

Lemma random_code_length n g : String.length (utils.random_code n g).1 = n.
Proof.
  revert g. induction n as [|n IH]; intros g; [done|].
  cbn [utils.random_code]. destruct (pick _ _ g) as [c g1].
  specialize (IH g1). destruct (utils.random_code n g1) as [code g2].
  cbn [fst] in *. cbn. by rewrite IH.
Qed.

Lemma generate_room_code_fresh fuel m g code g' :
  utils.generate_room_code fuel m g = Some (code, g') →
  PyDict.get (utils.rooms m) code = None ∧ String.length code = 6.
Proof.
  revert g. induction fuel as [|fuel IH]; intros g; [done|].
  cbn [utils.generate_room_code].
  assert (Hlen := random_code_length 6 g).
  destruct (utils.random_code 6 g) as [c g1]. cbn [fst] in Hlen.
  destruct (PyDict.contains (utils.rooms m) c) eqn:Hc; [apply IH|].
  intros [= <- <-]. split; [|done].
  unfold PyDict.contains in Hc. by destruct (PyDict.get (utils.rooms m) c).
Qed.

Lemma create_room_inv m channel creator name max_humans total_players now
    fuel g room m' g' :
  manager_inv m →
  utils.create_room m channel creator name max_humans total_players now fuel g
  = Some (room, m', g') →
  manager_inv m'.
Proof.
  intros Hinv. unfold utils.create_room.
  destruct (utils.generate_room_code fuel m g) as [[code g1]|] eqn:Hgen;
    [|done].
  apply generate_room_code_fresh in Hgen as [Hfresh Hlen].
  intros [= <- <- <-] rc' room'. cbn [utils.rooms utils.player_to_room].
  rewrite get_set. destruct (decide (code = rc')) as [<-|Hne].
  - intros [= <-]. cbn. split_and!; try done.
    + intros ->. done.
    + lia.
  - apply Hinv.
Qed.

Lemma start_game_inv m rc : manager_inv m → manager_inv (utils.start_game m rc).2.
Proof.
  intros Hinv. unfold utils.start_game.
  destruct (PyDict.get (utils.rooms m) rc) as [room|] eqn:Hroom; [|done].
  case_bool_decide; [done|]. cbn [snd]. intros rc' room'.
  cbn [utils.rooms utils.player_to_room]. rewrite get_set.
  destruct (decide (rc = rc')) as [<-|Hne]; [|apply Hinv].
  intros [= <-]. destruct (Hinv rc room Hroom) as (? & ? & ? & ? & ?).
  by split_and!.
Qed.

Lemma fold_del_get (ks : list Z) (p : list (Z * string)) d :
  PyDict.get
    (fold_left
       (fun acc discord_id =>
          if PyDict.contains acc discord_id then PyDict.del acc discord_id
          else acc) ks p) d
  = if bool_decide (d ∈ ks) then None else PyDict.get p d.
Proof.
  revert p. induction ks as [|k ks IH]; intros p; [done|].
  cbn [fold_left]. rewrite IH, del_guarded, get_del.
  destruct (decide (k = d)) as [->|Hne].
  - rewrite (bool_decide_true (d ∈ d :: ks)) by left.
    by destruct (bool_decide (d ∈ ks)).
  - destruct (bool_decide (d ∈ ks)) eqn:Hin.
    + apply bool_decide_eq_true in Hin.
      by rewrite bool_decide_true by (by right).
    + apply bool_decide_eq_false in Hin.
      rewrite bool_decide_false; [done|].
      intros Hc. apply elem_of_cons in Hc as [->|Hc]; done.
Qed.

(** What [end_game] leaves, entry by entry. *)
Lemma end_game_spec m rc room :
  PyDict.get (utils.rooms m) rc = Some room →
  let m' := (utils.end_game m rc).2 in
  (∀ rc', PyDict.get (utils.rooms m') rc'
          = if decide (rc = rc') then None else PyDict.get (utils.rooms m) rc') ∧
  ∀ d, PyDict.get (utils.player_to_room m') d
       = if bool_decide (is_Some (PyDict.get (utils.players room) d))
         then None else PyDict.get (utils.player_to_room m) d.
Proof.
  intros Hroom. cbn zeta. unfold utils.end_game. rewrite Hroom.
  cbn [snd utils.rooms utils.player_to_room]. split.
  - intros rc'. rewrite del_guarded, get_del.
    destruct (decide (rc = rc')); [done|]. by rewrite get_set, decide_False.
  - intros d. rewrite fold_del_get.
    destruct (PyDict.get (utils.players room) d) as [pl|] eqn:Hd.
    + rewrite bool_decide_true.
      * by rewrite bool_decide_true.
      * apply get_Some_elem_of in Hd. unfold PyDict.keys.
        apply list_elem_of_fmap. by exists (d, pl).
    + apply get_None_not_key in Hd. rewrite bool_decide_false by done.
      rewrite bool_decide_false; [done|]. by intros [? ?].
Qed.

Lemma end_game_missing m rc :
  PyDict.get (utils.rooms m) rc = None → (utils.end_game m rc).2 = m.
Proof. intros Hnone. unfold utils.end_game. by rewrite Hnone. Qed.

Lemma end_game_inv m rc : manager_inv m → manager_inv (utils.end_game m rc).2.
Proof.
  intros Hinv.
  destruct (PyDict.get (utils.rooms m) rc) as [room|] eqn:Hroom;
    [|by rewrite end_game_missing].
  destruct (end_game_spec m rc room Hroom) as [Hrooms Hp2r].
  intros rc' room'. rewrite Hrooms. destruct (decide (rc = rc')) as [|Hne]; [done|].
  intros Hr'. destruct (Hinv rc' room' Hr') as (? & ? & ? & ? & Hp).
  split_and!; try done. intros d Hsome. rewrite Hp2r.
  case_bool_decide as Hd; [|by apply Hp].
  destruct (Hinv rc room Hroom) as (_ & _ & _ & _ & Hp0).
  assert (Hrc := Hp0 d Hd). assert (Hrc' := Hp d Hsome). congruence.
Qed.

Lemma cleanup_inactive_rooms_inv m timeout now :
  manager_inv m → manager_inv (utils.cleanup_inactive_rooms m timeout now).
Proof.
  unfold utils.cleanup_inactive_rooms. generalize (PyDict.keys (List.filter
    (fun kv => negb (Qle_bool (now - utils.created_at (snd kv)) (inject_Z timeout))
               && (bool_decide (utils.status (snd kv) = utils.waiting)
                   || bool_decide (utils.status (snd kv) = utils.completed)))
    (utils.rooms m))).
  intros ks. revert m. induction ks as [|k ks IH]; intros m Hinv; [done|].
  cbn [fold_left]. apply IH. by apply end_game_inv.
Qed.

Lemma leave_impl_inv m user :
  manager_inv m → manager_inv (coordinator_bot.leave_impl m user).2.
Proof.
  intros Hinv. unfold coordinator_bot.leave_impl, utils.get_player_room.
  destruct (PyDict.get (utils.player_to_room m) user) as [code|] eqn:Hmap;
    [|done].
  destruct (String.eqb code ""); [done|].
  destruct (PyDict.get (utils.rooms m) code) as [room|] eqn:Hroom; [|done].
  cbn [snd]. destruct (Hinv code room Hroom) as (-> & _).
  by apply remove_player_from_room_inv.
Qed.

Lemma manager_reachable_inv m : manager_reachable m → manager_inv m.
Proof.
  induction 1.
  - by intros rc room.
  - by eapply create_room_inv.
  - by apply add_player_to_room_inv.
  - by apply leave_impl_inv.
  - by apply start_game_inv.
  - by apply end_game_inv.
  - by apply cleanup_inactive_rooms_inv.
Qed.

Lemma remove_player_from_room_NoDup m rc d :
  NoDup (PyDict.keys (utils.rooms m)) →
  NoDup (PyDict.keys (utils.rooms (utils.remove_player_from_room m rc d).2)).
Proof.
  intros Hnd. unfold utils.remove_player_from_room.
  destruct (PyDict.get (utils.rooms m) rc); [|done].
  destruct (_ && _); cbn [snd utils.rooms].
  - by apply NoDup_keys_del, NoDup_keys_set.
  - by apply NoDup_keys_set.
Qed.

Lemma end_game_NoDup m rc :
  NoDup (PyDict.keys (utils.rooms m)) →
  NoDup (PyDict.keys (utils.rooms (utils.end_game m rc).2)).
Proof.
  intros Hnd. unfold utils.end_game.
  destruct (PyDict.get (utils.rooms m) rc); [|done].
  cbn [snd utils.rooms]. rewrite del_guarded.
  by apply NoDup_keys_del, NoDup_keys_set.
Qed.

Lemma manager_reachable_NoDup m :
  manager_reachable m → NoDup (PyDict.keys (utils.rooms m)).
Proof.
  induction 1 as [|m ? ? ? ? ? ? ? ? room m' g' _ IH Hcreate
                  |m rc d name display _ IH|m user _ IH|m rc _ IH|m rc _ IH
                  |m timeout now _ IH].
  - constructor.
  - unfold utils.create_room in Hcreate.
    destruct (utils.generate_room_code _ _ _) as [[code g1]|]; [|done].
    injection Hcreate as <- <- <-. by apply NoDup_keys_set.
  - unfold utils.add_player_to_room.
    destruct (PyDict.get (utils.rooms m) rc); [|done].
    destruct (utils.is_full _); [done|]. case_bool_decide; [done|].
    set (m1 := match PyDict.get (utils.player_to_room m) d with
               | Some old => _ | None => m end).
    assert (Hnd : NoDup (PyDict.keys (utils.rooms m1))).
    { unfold m1. destruct (PyDict.get (utils.player_to_room m) d); [|done].
      by apply remove_player_from_room_NoDup. }
    destruct (PyDict.get (utils.rooms m1) rc); cbn [snd utils.rooms]; [|done].
    by apply NoDup_keys_set.
  - unfold coordinator_bot.leave_impl.
    destruct (utils.get_player_room m user); [|done].
    by apply remove_player_from_room_NoDup.
  - unfold utils.start_game.
    destruct (PyDict.get (utils.rooms m) rc); [|done].
    case_bool_decide; [done|]. by apply NoDup_keys_set.
  - by apply end_game_NoDup.
  - unfold utils.cleanup_inactive_rooms.
    generalize (PyDict.keys (List.filter
      (fun kv => negb (Qle_bool (now - utils.created_at (snd kv)) (inject_Z timeout))
                 && (bool_decide (utils.status (snd kv) = utils.waiting)
                     || bool_decide (utils.status (snd kv) = utils.completed)))
      (utils.rooms m))).
    intros ks. revert m IH. induction ks as [|k ks IHks]; intros m IH; [done|].
    cbn [fold_left]. apply IHks. by apply end_game_NoDup.
Qed.

(** X19: in every room manager that the front end can reach, a
    user who is a player of a registered room is a player of no other
    registered room, and [get_player_room] returns that room for the
    user. *)
Theorem player_is_in_one_room m rc room d :
  manager_reachable m →
  utils.get_room m rc = Some room →
  is_Some (PyDict.get (utils.players room) d) →
  utils.get_player_room m d = Some room ∧
  ∀ rc' room',
    utils.get_room m rc' = Some room' →
    is_Some (PyDict.get (utils.players room') d) → rc' = rc.
Proof.
  intros Hreach Hroom Hd. apply manager_reachable_inv in Hreach.
  destruct (Hreach rc room Hroom) as (_ & Hne & _ & _ & Hp).
  split.
  - unfold utils.get_player_room. rewrite (Hp d Hd).
    by rewrite (proj2 (String.eqb_neq rc "") Hne).
  - intros rc' room' Hroom' Hd'.
    destruct (Hreach rc' room' Hroom') as (_ & _ & _ & _ & Hp').
    specialize (Hp d Hd). specialize (Hp' d Hd'). congruence.
Qed.

(** X20: in every room manager that the front end can reach, a
    registered room is registered under its own code, is not completed (a
    completed room has left the registry), and holds no more players than
    it has seats; a full room with a non-negative number of seats holds
    exactly that number of players. *)
Theorem registered_room_is_sound m rc room :
  manager_reachable m →
  utils.get_room m rc = Some room →
  utils.room_code room = rc ∧
  utils.status room ≠ utils.completed ∧
  (Z.of_nat (utils.num_humans room) ≤ Z.max 0 (utils.max_humans room))%Z ∧
  (utils.is_full room = true → (0 ≤ utils.max_humans room)%Z →
   Z.of_nat (utils.num_humans room) = utils.max_humans room).
Proof.
  intros Hreach Hroom. apply manager_reachable_inv in Hreach.
  destruct (Hreach rc room Hroom) as (Hcode & _ & Hst & Hcap & _).
  split_and!; try done. unfold utils.is_full, utils.num_humans in *.
  intros Hfull Hpos. apply Z.leb_le in Hfull. lia.
Qed.

(** X21: when the only player of a waiting room with more than one
    seat is added to that same room again, [add_player_to_room] first
    removes the player from the room, which empties the room and drops it
    from the registry, and then adds the player to the room object that the
    registry no longer holds: it answers [True], the room is gone, and the
    player stays mapped to the code of a room that cannot be found. *)
Theorem rejoining_alone_drops_the_room m rc room d player name display :
  PyDict.get (utils.rooms m) rc = Some room →
  utils.status room = utils.waiting →
  utils.players room = [(d, player)] →
  (1 < utils.max_humans room)%Z →
  PyDict.get (utils.player_to_room m) d = Some rc →
  rc ≠ "" →
  let out := utils.add_player_to_room m rc d name display in
  out.1 = true ∧
  utils.get_room out.2 rc = None ∧
  PyDict.get (utils.player_to_room out.2) d = Some rc ∧
  utils.get_player_room out.2 d = None.
Proof.
  intros Hroom Hwaiting Hplayers Hmax Hmap Hne. cbn zeta.
  unfold utils.add_player_to_room. rewrite Hroom.
  assert (Hfull : utils.is_full room = false).
  { unfold utils.is_full, utils.num_humans. rewrite Hplayers.
    apply Z.leb_gt. simpl. lia. }
  rewrite Hfull. rewrite bool_decide_false by (rewrite Hwaiting; auto).
  rewrite Hmap.
  assert (Hgone : PyDict.get
            (utils.rooms (utils.remove_player_from_room m rc d).2) rc = None).
  { unfold utils.remove_player_from_room. rewrite Hroom, Hplayers.
    assert (Hc : PyDict.contains [(d, player)] d = true).
    { unfold PyDict.contains. cbn [PyDict.get]. by rewrite decide_True. }
    rewrite !Hc. unfold PyDict.del at 1 2 3.
    cbn [List.filter fst]. rewrite bool_decide_true by done.
    cbn [negb utils.players utils.set_room_players utils.status length Nat.eqb].
    rewrite bool_decide_true by done. cbn [andb snd utils.rooms].
    by rewrite get_del, decide_True. }
  rewrite Hgone. cbn [fst snd utils.rooms utils.player_to_room].
  unfold utils.get_room, utils.get_player_room.
  cbn [utils.rooms utils.player_to_room]. rewrite get_set_eq.
  rewrite (proj2 (String.eqb_neq rc "") Hne). by rewrite Hgone.
Qed.

Lemma fold_end_game_rooms (ks : list string) m rc :
  PyDict.get
    (utils.rooms (fold_left (fun acc k => (utils.end_game acc k).2) ks m)) rc
  = if bool_decide (rc ∈ ks) then None else PyDict.get (utils.rooms m) rc.
Proof.
  revert m. induction ks as [|k ks IH]; intros m; [done|].
  cbn [fold_left]. rewrite IH.
  assert (Hk : PyDict.get (utils.rooms (utils.end_game m k).2) rc
               = if decide (k = rc) then None else PyDict.get (utils.rooms m) rc).
  { destruct (PyDict.get (utils.rooms m) k) as [room|] eqn:Hroom.
    - destruct (end_game_spec m k room Hroom) as [Hr _]. apply Hr.
    - rewrite end_game_missing by done.
      destruct (decide (k = rc)) as [->|]; done. }
  rewrite Hk. destruct (decide (k = rc)) as [->|Hne].
  - rewrite (bool_decide_true (rc ∈ rc :: ks)) by left.
    by destruct (bool_decide (rc ∈ ks)).
  - destruct (bool_decide (rc ∈ ks)) eqn:Hin.
    + apply bool_decide_eq_true in Hin.
      by rewrite bool_decide_true by (by right).
    + apply bool_decide_eq_false in Hin.
      rewrite bool_decide_false; [done|].
      intros Hc. apply elem_of_cons in Hc as [->|Hc]; done.
Qed.

(** X22: in every room manager that the front end can reach,
    [cleanup_inactive_rooms] removes from the registry exactly the waiting
    rooms that were created more than [timeout] seconds ago; a room in
    progress stays, however old it is. *)
Theorem cleanup_inactive_rooms_removes_expired m timeout now rc :
  manager_reachable m →
  utils.get_room (utils.cleanup_inactive_rooms m timeout now) rc
  = match utils.get_room m rc with
    | Some room =>
        if negb (Qle_bool (now - utils.created_at room) (inject_Z timeout))
           && bool_decide (utils.status room = utils.waiting)
        then None else Some room
    | None => None
    end.
Proof.
  intros Hreach. assert (Hnd := manager_reachable_NoDup m Hreach).
  apply manager_reachable_inv in Hreach.
  unfold utils.get_room, utils.cleanup_inactive_rooms.
  rewrite fold_end_game_rooms.
  set (expired := fun kv : string * utils.DiscordRoom =>
    negb (Qle_bool (now - utils.created_at (snd kv)) (inject_Z timeout))
    && (bool_decide (utils.status (snd kv) = utils.waiting)
        || bool_decide (utils.status (snd kv) = utils.completed))).
  assert (Hin : rc ∈ PyDict.keys (List.filter expired (utils.rooms m))
                ↔ ∃ room, PyDict.get (utils.rooms m) rc = Some room
                          ∧ expired (rc, room) = true).
  { unfold PyDict.keys. rewrite list_elem_of_fmap. split.
    - intros ([rc' room] & -> & Hf). apply list_elem_of_In, filter_In in Hf.
      destruct Hf as [Hf He]. exists room. split; [|done].
      apply elem_of_get_NoDup; [done|]. by apply list_elem_of_In.
    - intros (room & Hg & He). exists (rc, room). split; [done|].
      apply list_elem_of_In, filter_In. split; [|done].
      by apply list_elem_of_In, get_Some_elem_of. }
  destruct (PyDict.get (utils.rooms m) rc) as [room|] eqn:Hroom.
  - destruct (Hreach rc room Hroom) as (_ & _ & Hst & _).
    assert (He : expired (rc, room)
                 = negb (Qle_bool (now - utils.created_at room) (inject_Z timeout))
                   && bool_decide (utils.status room = utils.waiting)).
    { unfold expired. cbn [snd].
      rewrite (bool_decide_false (utils.status room = utils.completed)) by done.
      by rewrite orb_false_r. }
    rewrite <- He. destruct (expired (rc, room)) eqn:Hexp.
    + rewrite bool_decide_true; [done|]. apply Hin. by exists room.
    + rewrite bool_decide_false; [done|]. intros Hc. apply Hin in Hc.
      destruct Hc as (room' & [= <-] & Hc). congruence.
  - rewrite bool_decide_false; [done|]. intros Hc. apply Hin in Hc.
    by destruct Hc as (room' & [=] & _).
Qed.

(** X23: [cleanup_game] for a registered room removes the session
    and the room, and nothing else from the games and from the registry;
    every player of the room loses the mapping to a room, so that
    [get_player_room] finds no room for them, and the mappings of all other
    users are kept. *)
Theorem cleanup_game_releases rc m (games : gmap string GameSession) room :
  utils.get_room m rc = Some room →
  let out := game_manager_rooms.cleanup_game rc m games in
  out.2 !! rc = None ∧
  (∀ rc', rc' ≠ rc → out.2 !! rc' = games !! rc') ∧
  utils.get_room out.1 rc = None ∧
  (∀ rc', rc' ≠ rc → utils.get_room out.1 rc' = utils.get_room m rc') ∧
  (∀ d, is_Some (PyDict.get (utils.players room) d) →
     PyDict.get (utils.player_to_room out.1) d = None ∧
     utils.get_player_room out.1 d = None) ∧
  (∀ d, PyDict.get (utils.players room) d = None →
     PyDict.get (utils.player_to_room out.1) d
     = PyDict.get (utils.player_to_room m) d).
Proof.
  intros Hroom. cbn zeta. unfold game_manager_rooms.cleanup_game.
  cbn [fst snd]. destruct (end_game_spec m rc room Hroom) as [Hrooms Hp2r].
  unfold utils.get_room, utils.get_player_room in *.
  split_and!.
  - apply lookup_delete_eq.
  - intros rc' Hne. by apply lookup_delete_ne.
  - by rewrite Hrooms, decide_True.
  - intros rc' Hne. by rewrite Hrooms, decide_False.
  - intros d Hd. rewrite Hp2r. by rewrite bool_decide_true.
  - intros d Hd. rewrite Hp2r. rewrite bool_decide_false; [done|].
    rewrite Hd. by intros [? ?].
Qed.

End room_manager.

Section room_manager_examples.
Import PyDict PyRandom game_manager Spec Examples.

Lemma lobby_manager_reachable : manager_reachable lobby_manager.
Proof.
  eapply (manager_create_room utils.new_manager 1 7 "Room" 2 5 0%Q 1 tape_zero);
    [apply manager_new | reflexivity].
Qed.

Lemma joined_manager_reachable : manager_reachable joined_manager.
Proof.
  apply (manager_add_player lobby_manager "AAAAAA" 7 "alice" "Alice").
  apply lobby_manager_reachable.
Qed.

Lemma player_is_in_one_room_witness :
  utils.get_room joined_manager "AAAAAA" = Some joined_room ∧
  utils.get_player_room joined_manager 7 = Some joined_room.
Proof.
  split; [reflexivity|].
  apply (player_is_in_one_room joined_manager "AAAAAA" joined_room 7
           joined_manager_reachable eq_refl).
  by eexists.
Defined.

Lemma registered_room_is_sound_witness :
  utils.get_room joined_manager "AAAAAA" = Some joined_room ∧
  utils.status joined_room ≠ utils.completed.
Proof.
  split; [reflexivity|].
  apply (registered_room_is_sound joined_manager "AAAAAA" joined_room
           joined_manager_reachable eq_refl).
Defined.

Lemma rejoining_alone_drops_the_room_witness :
  let out := utils.add_player_to_room joined_manager "AAAAAA" 7 "alice" "Alice" in
  utils.get_room joined_manager "AAAAAA" = Some joined_room ∧
  out.1 = true ∧ utils.get_room out.2 "AAAAAA" = None ∧
  utils.get_player_room out.2 7 = None.
Proof.
  cbn zeta. split; [reflexivity|].
  destruct (rejoining_alone_drops_the_room joined_manager "AAAAAA" joined_room 7
              alice "alice" "Alice" eq_refl eq_refl eq_refl eq_refl eq_refl)
    as (Hok & Hgone & _ & Hlost); [discriminate|].
  split; [exact Hok|]. split; [exact Hgone | exact Hlost].
Defined.

Lemma cleanup_inactive_rooms_removes_expired_witness :
  utils.get_room lobby_manager "AAAAAA" = Some lobby_room ∧
  utils.get_room (utils.cleanup_inactive_rooms lobby_manager 3600 4000%Q)
    "AAAAAA" = None.
Proof.
  split; [reflexivity|].
  rewrite (cleanup_inactive_rooms_removes_expired lobby_manager 3600 4000%Q
             "AAAAAA" lobby_manager_reachable).
  reflexivity.
Defined.

Lemma cleanup_game_releases_witness :
  utils.get_room joined_manager "AAAAAA" = Some joined_room ∧
  utils.get_player_room
    (game_manager_rooms.cleanup_game "AAAAAA" joined_manager ∅).1 7 = None.
Proof.
  split; [reflexivity|].
  destruct (cleanup_game_releases "AAAAAA" joined_manager ∅ joined_room eq_refl)
    as (_ & _ & _ & _ & Hplayers & _).
  apply Hplayers. by eexists.
Defined.

End room_manager_examples.

(** * After the discussion *)

Section discussion_closed.
Import PyDict PyRandom main Spec.



End discussion_closed.

Section discussion_closed_examples.
Import PyDict PyRandom main Spec Examples.


End discussion_closed_examples.

(** * The routing of the voting loop of the graph *)

Section voting_route.
Import PyDict PyRandom main Spec.

(** X8: [should_continue_voting] answers "eliminate" or "continue",
    and "eliminate" exactly when no agent is pending and every player that
    is not eliminated has an entry in the votes mapping.  When it answers
    "eliminate" and the names of those players are distinct, the count
    test of backend/main.py (as many entries as players that are not
    eliminated) holds as well.  When no agent is pending,
    [ai_vote_agent_node] returns the empty update: while a player that is
    not eliminated has no entry, the loop of the graph goes on without
    changing the state. *)
Theorem should_continue_voting_waits (st : GameState) :
  (should_continue_voting st = "eliminate"
   ∨ should_continue_voting st = "continue") ∧
  (should_continue_voting st = "eliminate" ↔
     pending_ai_votes st = [] ∧
     ∀ p, p ∈ players st → eliminated p = false →
          is_Some (PyDict.get (votes st) (id p))) ∧
  (should_continue_voting st = "eliminate" →
   NoDup (active_players st) →
   length (active_players st) ≤ length (votes st)) ∧
  (pending_ai_votes st = [] →
   ∀ ai_id llm g, ai_vote_agent_node st ai_id llm g = (Ok None, 0, g)).
Proof.
  assert (Hall : forallb (fun player => PyDict.contains (votes st) player)
                   (active_players st) = true
                 ↔ ∀ p, p ∈ players st → eliminated p = false →
                        is_Some (PyDict.get (votes st) (id p))).
  { rewrite forallb_forall. unfold active_players. split.
    - intros H p Hp He. apply contains_is_Some, H, in_map.
      apply filter_In. split; [by apply list_elem_of_In|]. by rewrite He.
    - intros H x Hx. apply in_map_iff in Hx as (p & <- & Hp).
      apply filter_In in Hp as [Hp He]. apply contains_is_Some, H.
      + by apply list_elem_of_In.
      + by apply negb_true_iff. }
  assert (Hiff : should_continue_voting st = "eliminate" ↔
     pending_ai_votes st = [] ∧
     ∀ p, p ∈ players st → eliminated p = false →
          is_Some (PyDict.get (votes st) (id p))).
  { unfold should_continue_voting. fold (active_players st).
    destruct (pending_ai_votes st) as [|a rest].
    - destruct (forallb _ _) eqn:Hf.
      + split; [|done]. intros _. split; [done|]. by apply Hall.
      + split; [done|]. intros [_ H]. apply Hall in H. congruence.
    - split; [done|]. by intros [? _]. }
  split_and!.
  - unfold should_continue_voting. destruct (pending_ai_votes st); [|by right].
    destruct (forallb _ _); [by left|by right].
  - done.
  - intros He Hnd. apply Hiff in He as [_ Hvoted].
    rewrite <- (length_map fst (votes st)). apply submseteq_length.
    apply NoDup_submseteq; [done|]. intros x Hx. unfold active_players in Hx.
    apply list_elem_of_fmap in Hx as (p & -> & Hp).
    apply list_elem_of_In, filter_In in Hp as [Hp Hel].
    apply list_elem_of_In in Hp. apply negb_true_iff in Hel.
    destruct (Hvoted p Hp Hel) as [v Hv]. apply get_Some_elem_of in Hv.
    apply list_elem_of_fmap. by exists (id p, v).
  - intros Hp ai_id llm g. unfold ai_vote_agent_node. by rewrite Hp.
Qed.

End voting_route.

(** * Chat messages on the chat platform *)

Section human_messages.
Import PyDict PyRandom game_manager Spec.

Variable ai_bots : list AIAgentBot.
Variables llm_decide llm_speak : string → llm_tape.
Variable clock : string → Time * Time.
Variable get_channel : Z → bool.
Implicit Types (games : gmap string GameSession) (rc : string).
Implicit Types (new_graph : result unit).

Lemma replies_added_refl rc games :
  is_Some (games !! rc) → replies_added rc games games [].
Proof.
  intros [s Hs]. split; [done|]. exists s, s. rewrite app_nil_r. by split_and!.
Qed.

Lemma replies_added_trans rc games1 games2 games3 r1 r2 :
  replies_added rc games1 games2 r1 → replies_added rc games2 games3 r2 →
  replies_added rc games1 games3 (r1 ++ r2).
Proof.
  intros [Ho1 (s1 & s2 & H1 & H2 & Hc & Hp & Hv & Hph & Hpe & Hsv & Hrp)]
         [Ho2 (s2' & s3 & H2' & H3 & Hc' & Hp' & Hv' & Hph' & Hpe' & Hsv' & Hrp')].
  rewrite H2 in H2'. injection H2' as <-. split.
  - intros rc' Hne. by rewrite Ho2, Ho1.
  - exists s1, s3. split_and!; try done; try congruence.
    by rewrite Hc', Hc, app_assoc.
Qed.

Lemma replies_added_is_Some rc games games' r :
  replies_added rc games games' r → is_Some (games' !! rc).
Proof. intros [_ (s & s' & _ & H & _)]. by exists s'. Qed.

Lemma processing_add_added rc a games :
  is_Some (games !! rc) → replies_added rc games (processing_add rc a games) [].
Proof.
  intros [s Hs]. unfold processing_add. rewrite Hs. split.
  - intros rc' Hne. by apply lookup_insert_ne.
  - exists s. eexists. rewrite lookup_insert_eq, app_nil_r. by split_and!.
Qed.

Lemma processing_discard_added rc a games :
  is_Some (games !! rc) →
  replies_added rc games (processing_discard rc a games) [].
Proof.
  intros [s Hs]. unfold processing_discard. rewrite Hs. split.
  - intros rc' Hne. by apply lookup_insert_ne.
  - exists s. eexists. rewrite lookup_insert_eq, app_nil_r. by split_and!.
Qed.

Lemma generate_ai_message_added new_graph rc a g games :
  is_Some (games !! rc) →
  ∃ replies,
    replies_added rc games
      (generate_ai_message new_graph llm_speak clock rc a g games).1.2 replies ∧
    (replies = [] ∨ ∃ m, replies = [m] ∧ sender m = a).
Proof.
  intros [s Hs]. unfold generate_ai_message. rewrite Hs.
  destruct new_graph as [[]|e0].
  2:{ exists []. split; [|by left]. apply replies_added_refl. by exists s. }
  unfold ai_chat_agent_node.
  destruct (_generate_ai_message _ _ _) as [msg|e]; cbn [fst snd].
  - destruct (uniform 1 2 g) as [delay g']. cbn [fst snd res_chat_history
      res_last_message_time res_ai_message].
    exists [mkChat a msg (clock a).1].
    split; [|right; eexists; split; reflexivity].
    split; [intros rc' Hne; by apply lookup_insert_ne|].
    exists s. eexists. rewrite lookup_insert_eq. by split_and!.
  - exists []. split; [|by left]. apply replies_added_refl. by exists s.
Qed.

Lemma responding_players_sublist st l g r g' :
  responding_players llm_decide st l g = (Ok r, g') → sublist r l.
Proof.
  revert g r g'. induction l as [|p l IH]; intros g r g'; cbn [responding_players].
  - intros [= <- <-]. constructor.
  - destruct (_should_agent_respond st (id p) (llm_decide (id p)) g)
      as [[sr|e] g1]; [|done].
    destruct (responding_players llm_decide st l g1) as [[more|e] g2] eqn:Hm;
      [|done].
    intros [= <- <-]. specialize (IH _ _ _ Hm).
    destruct (truthy sr); by constructor.
Qed.

Lemma post_responses_added new_graph rc resp g games :
  is_Some (games !! rc) →
  ∃ replies,
    replies_added rc games
      (post_responses ai_bots new_graph llm_speak clock get_channel rc resp g games).1.1
      replies ∧
    sublist (map sender replies) (map id resp) ∧
    ∀ m, m ∈ replies →
      ∃ bot, bot ∈ ai_bots ∧ get_game_player_id bot rc = Some (sender m).
Proof.
  revert g games. induction resp as [|p resp IH]; intros g games Hs.
  - exists []. split; [by apply replies_added_refl|]. split; [constructor|].
    intros m Hm. by apply elem_of_nil in Hm.
  - cbn [post_responses].
    assert (H1 := processing_add_added rc (id p) games Hs).
    assert (Hs1 := replies_added_is_Some _ _ _ _ H1).
    destruct (List.find _ ai_bots) as [bot|] eqn:Hbot.
    + destruct (generate_ai_message_added new_graph rc (id p) g _ Hs1)
        as (r2 & H2 & Hr2).
      destruct (generate_ai_message new_graph llm_speak clock rc (id p) g
                  (processing_add rc (id p) games)) as [[ai_message games2] g1].
      cbn [fst snd] in H2.
      assert (Hs2 := replies_added_is_Some _ _ _ _ H2).
      assert (H3 := processing_discard_added rc (id p) games2 Hs2).
      assert (Hs3 := replies_added_is_Some _ _ _ _ H3).
      match goal with
      | |- context [let '(effects, g2) := ?e in _] => destruct e as [effects g2]
      end.
      destruct (IH g2 _ Hs3) as (r4 & H4 & Hsub & Hbots).
      destruct (post_responses ai_bots new_graph llm_speak clock get_channel rc resp g2
                  (processing_discard rc (id p) games2)) as [[games4 more] g3].
      cbn [fst snd] in *.
      exists (r2 ++ r4). split.
      { pose proof (replies_added_trans _ _ _ _ _ _
          (replies_added_trans _ _ _ _ _ _
             (replies_added_trans _ _ _ _ _ _ H1 H2) H3) H4) as H.
        by rewrite app_nil_r in H. }
      apply find_some in Hbot as [Hbin Hbid].
      apply bool_decide_eq_true in Hbid. apply list_elem_of_In in Hbin.
      split.
      * destruct Hr2 as [->|(m & -> & Hm)]; cbn [app map].
        -- by constructor.
        -- rewrite Hm. by constructor.
      * intros m Hm. apply elem_of_app in Hm as [Hm|Hm]; [|by apply Hbots].
        destruct Hr2 as [->|(m' & -> & Hm')]; [by apply elem_of_nil in Hm|].
        apply list_elem_of_singleton in Hm as ->. exists bot. by rewrite Hm'.
    + destruct (IH g _ Hs1) as (r4 & H4 & Hsub & Hbots).
      exists r4. split; [|split; [by constructor|done]].
      by apply (replies_added_trans _ _ _ _ [] _ H1).
Qed.

Lemma trigger_ai_responses_added new_graph rc locked g games s :
  games !! rc = Some s →
  ∃ replies,
    replies_added rc games
      (trigger_ai_responses ai_bots new_graph llm_decide llm_speak clock get_channel rc
         locked g games).1.1.2 replies ∧
    sublist (map sender replies)
      (map id
         (List.filter
            (fun p => bool_decide (role p = ai) && negb (eliminated p))
            (players (session_state s)))) ∧
    (∀ m, m ∈ replies →
       (sender m ∉ processing_agents s) ∧
       ∃ bot, bot ∈ ai_bots ∧ get_game_player_id bot rc = Some (sender m)) ∧
    (locked = true →
     replies = [] ∧
     (trigger_ai_responses ai_bots new_graph llm_decide llm_speak clock get_channel rc
        locked g games).1.2 = []) ∧
    (∀ e,
       (trigger_ai_responses ai_bots new_graph llm_decide llm_speak clock get_channel rc
          locked g games).1.1.1 = Raise e →
       replies = [] ∧
       (trigger_ai_responses ai_bots new_graph llm_decide llm_speak clock get_channel rc
          locked g games).1.2 = []).
Proof.
  intros Hs. unfold trigger_ai_responses. rewrite Hs.
  assert (Hnone : ∃ replies,
    replies_added rc games games replies ∧
    sublist (map sender replies)
      (map id
         (List.filter
            (fun p => bool_decide (role p = ai) && negb (eliminated p))
            (players (session_state s)))) ∧
    (∀ m, m ∈ replies →
       (sender m ∉ processing_agents s) ∧
       ∃ bot, bot ∈ ai_bots ∧ get_game_player_id bot rc = Some (sender m)) ∧
    replies = []).
  { exists []. split_and!; [by apply replies_added_refl|apply sublist_nil_l| |done].
    intros m Hm. by apply elem_of_nil in Hm. }
  destruct Hnone as (r0 & Ha0 & Hsub0 & Hb0 & Hr0).
  case_bool_decide as Hphase.
  { exists r0. cbn [fst snd]. by split_and!. }
  destruct locked.
  { exists r0. cbn [fst snd]. by split_and!. }
  set (active := List.filter _ (players (session_state s))).
  set (ai_players := List.filter _ active).
  destruct ai_players as [|p0 rest] eqn:Hai.
  { exists r0. cbn [fst snd]. by split_and!. }
  rewrite <- Hai. clear p0 rest Hai.
  assert (Hpost := fun resp g1 =>
            post_responses_added new_graph rc resp g1 games (ex_intro _ s Hs)).
  destruct new_graph as [[]|e0].
  2:{ exists r0. cbn [fst snd]. by split_and!. }
  destruct (responding_players llm_decide (session_state s) ai_players g)
    as [[resp|e] g1] eqn:Hresp.
  2:{ exists r0. cbn [fst snd]. by split_and!. }
  destruct (Hpost resp g1) as (replies & Hadd & Hsub & Hbots).
  destruct (post_responses ai_bots (Ok ()) llm_speak clock get_channel rc resp
              g1 games) as [[games' effects] g2].
  cbn [fst snd] in *. exists replies.
  assert (Hsub' : sublist (map sender replies) (map id ai_players)).
  { etrans; [done|]. apply fmap_sublist.
    by eapply responding_players_sublist. }
  split_and!; [done| | |done|done].
  - etrans; [done|]. apply fmap_sublist, filter_sublist.
  - intros m Hm. split; [|by apply Hbots].
    assert (Hin : sender m ∈ map id ai_players).
    { eapply elem_of_sublist; [|done]. apply list_elem_of_fmap. by exists m. }
    apply list_elem_of_fmap in Hin as (p & -> & Hp).
    apply list_elem_of_In, filter_In in Hp as [_ Hp].
    by apply negb_true_iff, bool_decide_eq_false in Hp.
Qed.

(** X17: [handle_human_message] of the chat platform front end, run to
    its end with the replies of the agents that it triggers, touches no
    other session.  At each of its four refusals (no session, sender not in
    the room, phase other than discussion, sender marked eliminated in the
    game) games, effects and random tape are as before, and it refuses
    only then.  Otherwise the chat log of the session gains the entry of
    the sender (game identifier and text), followed by nothing but replies
    of agents: at most one per agent, in the order of the player list, each
    from an agent of the game that is not eliminated, was not marked as
    processing and is played by a bot.  There is no reply and no effect
    when another call holds the trigger lock or when an exception ends the
    call.  Nobody is pending to speak afterwards, and players, votes,
    phase, human votes and room players are kept. *)
Theorem handle_human_message_chat_log new_graph rc discord_id message t_msg t_last
    locked g games :
  let out :=
    handle_human_message ai_bots new_graph llm_decide llm_speak clock get_channel rc
      discord_id message t_msg t_last locked g games in
  (∀ rc', rc' ≠ rc → out.1.1.2 !! rc' = games !! rc') ∧
  (refused out.1.1.1 = true →
   out.1.1.2 = games ∧ out.1.2 = [] ∧ out.2 = g) ∧
  (∀ session player,
     games !! rc = Some session →
     PyDict.get (room_players session) discord_id = Some player →
     phase (session_state session) = DISCUSSION →
     (∀ p, List.find (fun p => String.eqb (id p) (game_player_id player))
             (players (session_state session)) = Some p →
           eliminated p = false) →
     refused out.1.1.1 = false) ∧
  (refused out.1.1.1 = false →
   ∃ session session' player replies,
     games !! rc = Some session ∧ out.1.1.2 !! rc = Some session' ∧
     PyDict.get (room_players session) discord_id = Some player ∧
     phase (session_state session) = DISCUSSION ∧
     (∀ p, List.find (fun p => String.eqb (id p) (game_player_id player))
             (players (session_state session)) = Some p →
           eliminated p = false) ∧
     chat_history (session_state session')
     = chat_history (session_state session)
       ++ mkChat (game_player_id player) message t_msg :: replies ∧
     sublist (map sender replies)
       (map id
          (List.filter
             (fun p => bool_decide (role p = ai) && negb (eliminated p))
             (players (session_state session)))) ∧
     (∀ m, m ∈ replies →
        (sender m ∉ processing_agents session) ∧
        ∃ bot, bot ∈ ai_bots ∧ get_game_player_id bot rc = Some (sender m)) ∧
     (locked = true → replies = [] ∧ out.1.2 = []) ∧
     (∀ e, out.1.1.1 = MessageError e → replies = [] ∧ out.1.2 = []) ∧
     pending_ai_messages (session_state session') = [] ∧
     players (session_state session') = players (session_state session) ∧
     votes (session_state session') = votes (session_state session) ∧
     phase (session_state session') = DISCUSSION ∧
     session_votes session' = session_votes session ∧
     room_players session' = room_players session).
Proof.
  cbn zeta. unfold handle_human_message.
  destruct (games !! rc) as [session|] eqn:Hs;
    [|cbn [fst snd refused]; split_and!; done].
  destruct (PyDict.get (room_players session) discord_id) as [player|] eqn:Hp;
    [|cbn [fst snd refused]; split_and!; try done;
      intros session0 player0 [= <-] Hp'; congruence].
  case_bool_decide as Hphase.
  { cbn [fst snd refused]. split_and!; try done. intros session0 player0 [= <-] _ Hd.
    by destruct Hphase. }
  assert (Hd : phase (session_state session) = DISCUSSION).
  { destruct (decide (phase (session_state session) = DISCUSSION));
      [done|by destruct Hphase]. }
  set (guard := match List.find _ (players (session_state session)) with
                | Some p => eliminated p | None => false end).
  assert (Hguard : guard = false ↔
    ∀ p, List.find (fun p => String.eqb (id p) (game_player_id player))
           (players (session_state session)) = Some p → eliminated p = false).
  { unfold guard. destruct (List.find _ _) as [p|].
    - split; [by intros ? ? [= <-]|]. intros H. by apply H.
    - split; [done|]. done. }
  destruct guard eqn:Hg.
  { cbn [fst snd refused]. split_and!; try done. intros session0 player0 [= <-] Hp' _ Hel.
    rewrite Hp in Hp'. injection Hp' as <-. by apply Hguard in Hel. }
  set (st1 := process_human_message _ _ _ _ _).
  set (games1 := <[rc := set_session_state st1 session]> games).
  assert (Hs1 : games1 !! rc = Some (set_session_state st1 session))
    by apply lookup_insert_eq.
  destruct (trigger_ai_responses_added new_graph rc locked g games1 _ Hs1)
    as (replies & [Hother (s1 & s' & Hs1' & Hs' & Hc & Hpl & Hv & Hph & Hpe
                             & Hsv & Hrp)] & Hsub & Hbots & Hlocked & Herr).
  rewrite Hs1 in Hs1'. injection Hs1' as <-.
  destruct (trigger_ai_responses ai_bots new_graph llm_decide llm_speak clock get_channel
              rc locked g games1) as [[[r games2] effects] g'].
  cbn [fst snd] in *.
  assert (Hothers : ∀ rc', rc' ≠ rc → games2 !! rc' = games !! rc').
  { intros rc' Hne. rewrite Hother by done. by apply lookup_insert_ne. }
  assert (Hmain :
    ∃ session0 session' player0 replies0,
     Some session = Some session0 ∧ games2 !! rc = Some session' ∧
     PyDict.get (room_players session0) discord_id = Some player0 ∧
     phase (session_state session0) = DISCUSSION ∧
     (∀ p, List.find (fun p => String.eqb (id p) (game_player_id player0))
             (players (session_state session0)) = Some p →
           eliminated p = false) ∧
     chat_history (session_state session')
     = chat_history (session_state session0)
       ++ mkChat (game_player_id player0) message t_msg :: replies0 ∧
     sublist (map sender replies0)
       (map id
          (List.filter
             (fun p => bool_decide (role p = ai) && negb (eliminated p))
             (players (session_state session0)))) ∧
     (∀ m, m ∈ replies0 →
        (sender m ∉ processing_agents session0) ∧
        ∃ bot, bot ∈ ai_bots ∧ get_game_player_id bot rc = Some (sender m)) ∧
     (locked = true → replies0 = [] ∧ effects = []) ∧
     (∀ e, r = Raise e → replies0 = [] ∧ effects = []) ∧
     pending_ai_messages (session_state session') = [] ∧
     players (session_state session') = players (session_state session0) ∧
     votes (session_state session') = votes (session_state session0) ∧
     phase (session_state session') = DISCUSSION ∧
     session_votes session' = session_votes session0 ∧
     room_players session' = room_players session0).
  { exists session, s', player, replies. split_and!; try done.
    - by apply Hguard.
    - rewrite Hc. cbn. by rewrite <- app_assoc.
    - by rewrite Hph. }
  destruct Hmain as (s0 & s0' & p0 & r0 & H1 & H2 & H3 & H4 & H5 & H6 & H7
                     & H8 & H9 & He & H10 & H11 & H12 & H13 & H14 & H15).
  destruct r as [[]|e]; cbn [fst snd refused].
  - split_and!; [done | done | by intros | intros _].
    exists s0, s0', p0, r0. split_and!; done.
  - split_and!; [done | done | by intros | intros _].
    exists s0, s0', p0, r0. split_and!; try done.
    intros e' _. by apply (He e).
Qed.

End human_messages.

Section human_message_examples.
Import PyDict PyRandom game_manager Spec Examples.

(** The human of the scenario writes in the discussion phase; every agent
    chooses to respond, and the only bot plays the first agent: the log
    gains the entry of the human and the reply of that agent, which is
    posted in the channel of the bot and followed by a pause. *)
Lemma handle_human_message_example :
  let out :=
    handle_human_message [first_agent_bot] (Ok tt) (fun _ => llm_responds)
      (fun _ => llm_says "hi") (fun _ => (1%Q, 2%Q)) (fun _ => true)
      "ROOM01" 7 "hello" 0%Q 0%Q false tape_zero
      {[ "ROOM01" := discussing_session ]} in
  out.1.1.1 = MessageProcessed ∧
  chat_history ∘ session_state <$> out.1.1.2 !! "ROOM01"
  = Some [mkChat "Player 4" "hello" 0%Q; mkChat "Player 1" "hi" 1%Q] ∧
  out.1.2 = [ESend 1%Z "**Player 1**: hi"; ESleep (uniform 1 3 tape_zero).1].
Proof. vm_compute. by split_and!. Qed.

End human_message_examples.
